(** * StudyStreak: scheduling engine and habit tracker

    A shallow embedding of the scheduling logic of [calendar_integration.py]
    (classes [CalendarIntegration] and [SmartScheduler]), of the habit
    tracker and the dashboard statistics of [dashboard.py] (classes
    [HabitTracker] and [DashboardManager]) and of the password functions
    of [app.py], with the properties stated about them.

    Conventions of the embedding:
    - a Python exception is a value of [exn]; code that may raise returns
      a [result];
    - a naive or aware [datetime] is its wall-clock reading in microseconds
      since 0001-01-01T00:00:00 together with an optional UTC offset; the
      year range 1..9999 of Python's [datetime] is modelled where a caller
      of the program can leave it, in [get_weekly_progress], whose number
      of weeks comes from the query string, and not in the scheduler and
      the planner, whose callers add a few days to the clock reading;
    - a Python [float] is a rational of [Q]: rounding, infinities and
      [NaN] are not modelled;
    - an [int] is an integer of [Z]; the 64 bits of an SQLite integer are
      checked where the program hands an integer to the database;
    - a [str] is a Stdlib [string] of bytes; [lower] and [strip] act on
      ASCII letters and ASCII white space;
    - a dictionary whose keys are optional is a [gmap] from key to value
      (the progress record) or a record of [option] fields (the
      preferences, a calendar event), where [None] is an absent key;
    - the outside world (the clock, the database rows and whether the
      database answers, the HTTP responses, the remote calendar,
      [datetime.fromisoformat]) is passed in. *)

From Stdlib Require Import ZArith QArith Qminmax String Ascii List Lia.
From Stdlib Require Import DecimalString.
From stdpp Require Import gmap strings list.

Open Scope string_scope.

(** ** Python values and exceptions *)

Inductive exn : Type :=
| KeyError (key : string)
| ValueError
| TypeError
| ZeroDivisionError
| IndexError
| RequestException
| HTTPError
| OverflowError
| OperationalError.

Inductive result (A : Type) : Type :=
| Ok (a : A)
| Raise (e : exn).

Arguments Ok {A} a.
Arguments Raise {A} e.

Definition bind {A B : Type} (m : result A) (k : A -> result B) : result B :=
  match m with
  | Ok a => k a
  | Raise e => Raise e
  end.

Notation "'do' x <- m ; k" := (bind m (fun x => k))
  (at level 10, x name, m at level 100, k at level 200).

(** [try: body except Exception: handler]. *)
Definition try_except {A : Type} (body : result A) (handler : A) : A :=
  match body with
  | Ok a => a
  | Raise _ => handler
  end.

(** The values stored in the progress dictionary. *)
Inductive pyval : Type :=
| VInt (n : Z)
| VFloat (q : Q)
| VBool (b : bool).

(** Numeric reading of a value ([bool] is a subclass of [int]). *)
Definition num (v : pyval) : Q :=
  match v with
  | VInt n => inject_Z n
  | VFloat q => q
  | VBool b => if b then 1%Q else 0%Q
  end.

(** [v >= n] *)
Definition py_ge (v : pyval) (n : Z) : bool := Qle_bool (inject_Z n) (num v).

(** Truth value of [v] in an [if]. *)
Definition truthy (v : pyval) : bool :=
  match v with
  | VInt n => negb (n =? 0)%Z
  | VFloat q => negb (Qeq_bool q 0)
  | VBool b => b
  end.

(** [d[k]] *)
Definition getitem (d : gmap string pyval) (k : string) : result pyval :=
  match d !! k with
  | Some v => Ok v
  | None => Raise (KeyError k)
  end.

(** ** Strings *)

Definition is_upper (c : ascii) : bool :=
  (65 <=? nat_of_ascii c)%nat && (nat_of_ascii c <=? 90)%nat.

Definition lower_ascii (c : ascii) : ascii :=
  if is_upper c then ascii_of_nat (nat_of_ascii c + 32) else c.

(** [s.lower()] *)
Fixpoint lower (s : string) : string :=
  match s with
  | EmptyString => EmptyString
  | String c s' => String (lower_ascii c) (lower s')
  end.

(** [s.startswith(p)] *)
Definition startswith (s p : string) : bool := String.prefix p s.

(** [sub in s] *)
Fixpoint contains (sub s : string) : bool :=
  String.prefix sub s ||
  match s with
  | EmptyString => false
  | String _ s' => contains sub s'
  end.

(** [s[n:]] *)
Fixpoint slice_from (n : nat) (s : string) : string :=
  match n, s with
  | O, _ => s
  | S n', String _ s' => slice_from n' s'
  | S _, EmptyString => EmptyString
  end.

Definition is_space (c : ascii) : bool :=
  let n := nat_of_ascii c in
  (n =? 32)%nat || ((9 <=? n)%nat && (n <=? 13)%nat) ||
  ((28 <=? n)%nat && (n <=? 31)%nat).

Fixpoint lstrip (s : string) : string :=
  match s with
  | String c s' => if is_space c then lstrip s' else s
  | EmptyString => EmptyString
  end.

Fixpoint rstrip (s : string) : string :=
  match s with
  | EmptyString => EmptyString
  | String c s' =>
      match rstrip s' with
      | EmptyString => if is_space c then EmptyString else String c EmptyString
      | r => String c r
      end
  end.

(** [s.strip()] *)
Definition strip (s : string) : string := rstrip (lstrip s).

(** [s.split('\n')], accumulating the current line in [cur]. *)
Fixpoint split_lines_from (cur : string) (s : string) : list string :=
  match s with
  | EmptyString => [cur]
  | String c s' =>
      if (nat_of_ascii c =? 10)%nat
      then cur :: split_lines_from EmptyString s'
      else split_lines_from (cur ++ String c EmptyString) s'
  end.

Definition split_lines (s : string) : list string :=
  split_lines_from EmptyString s.

(** [s.replace('Z', '+00:00')] *)
Fixpoint replace_Z (s : string) : string :=
  match s with
  | EmptyString => EmptyString
  | String c s' =>
      if (nat_of_ascii c =? 90)%nat
      then "+00:00" ++ replace_Z s'
      else String c (replace_Z s')
  end.

(** ** Dates and times *)

Open Scope Z_scope.

Definition US_PER_MINUTE : Z := 60000000.
Definition US_PER_HOUR : Z := 3600000000.
Definition US_PER_DAY : Z := 86400000000.

(** A [datetime]: the wall-clock reading and, for an aware value, its UTC
    offset (both in microseconds). *)
Record datetime : Type := mkDatetime {
  wall : Z;
  utcoffset : option Z
}.

Definition naive (t : Z) : datetime := mkDatetime t None.

(** [a < b]: comparing a naive with an aware datetime raises. *)
Definition dt_lt (a b : datetime) : result bool :=
  match utcoffset a, utcoffset b with
  | None, None => Ok (wall a <? wall b)
  | Some oa, Some ob => Ok (wall a - oa <? wall b - ob)
  | _, _ => Raise TypeError
  end.

(** [a <= b] *)
Definition dt_le (a b : datetime) : result bool :=
  match utcoffset a, utcoffset b with
  | None, None => Ok (wall a <=? wall b)
  | Some oa, Some ob => Ok (wall a - oa <=? wall b - ob)
  | _, _ => Raise TypeError
  end.

(** [d.date()], as the number of days since 0001-01-01. *)
Definition date_of (d : datetime) : Z := wall d / US_PER_DAY.

(** [t.weekday()] of a naive reading: 0001-01-01 is a Monday (0). *)
Definition weekday (t : Z) : Z := (t / US_PER_DAY) mod 7.

(** [t + timedelta(days=n)] *)
Definition add_days (t : Z) (n : Z) : Z := t + n * US_PER_DAY.

(** [t + timedelta(minutes=n)] *)
Definition add_minutes (t : Z) (n : Z) : Z := t + n * US_PER_MINUTE.

(** The first reading after [datetime.max], 9999-12-31T23:59:59.999999:
    0001-01-01 and 9999-12-31 are 3652058 days apart. *)
Definition DATETIME_END : Z := 3652059 * US_PER_DAY.

(** [timedelta(days=n)], in microseconds: a [timedelta] of more than
    999999999 days raises [OverflowError]. *)
Definition timedelta_days (n : Z) : result Z :=
  if (-999999999 <=? n) && (n <=? 999999999)
  then Ok (n * US_PER_DAY)
  else Raise OverflowError.

(** [t + delta] and [t - delta] with the range of [datetime]: a result
    before the year 1 or after the year 9999 raises [OverflowError]. *)
Definition datetime_add (t delta : Z) : result Z :=
  let sum := t + delta in
  if (0 <=? sum) && (sum <? DATETIME_END)
  then Ok sum
  else Raise OverflowError.

Definition datetime_sub (t delta : Z) : result Z := datetime_add t (- delta).

(** [t.replace(hour=h, minute=0, second=0, microsecond=0)] *)
Definition replace_hour (t : Z) (h : Z) : result Z :=
  if (0 <=? h) && (h <=? 23)
  then Ok ((t / US_PER_DAY) * US_PER_DAY + h * US_PER_HOUR)
  else Raise ValueError.

(** [t.hour] *)
Definition hour_of (t : Z) : Z := (t mod US_PER_DAY) / US_PER_HOUR.

(** [a % b] on integers: the sign of the result follows the divisor. *)
Definition py_mod (a b : Z) : result Z :=
  if b =? 0 then Raise ZeroDivisionError else Ok (a mod b).

(** [l[i]]: a negative index counts from the end. *)
Definition getindex {A : Type} (l : list A) (i : Z) : result A :=
  let j := if i <? 0 then i + Z.of_nat (length l) else i in
  if j <? 0 then Raise IndexError
  else match l !! Z.to_nat j with
       | Some x => Ok x
       | None => Raise IndexError
       end.

(** [str(n)] *)
Definition str_of_Z (n : Z) : string := NilEmpty.string_of_int (Z.to_int n).

(** [range(n)] *)
Definition range (n : Z) : list Z := seqZ 0 n.

(** ** Records of the program *)

(** The [user_preferences] dictionary; [None] is an absent key. *)
Record preferences : Type := mkPreferences {
  ical_urls : option (list string);
  preferred_study_hours : option (list Z);
  preferred_days : option (list Z);
  morning_preference : option Q;
  midday_preference : option Q;
  afternoon_preference : option Q;
  evening_preference : option Q;
  subjects : option (list string)
}.

(** A calendar event dictionary. *)
Record event : Type := mkEvent {
  ev_title : option string;
  ev_start : option string;
  ev_end : option string;
  ev_description : option string;
  ev_source : option string
}.

(** An entry of the list returned by [find_optimal_study_times]; the
    ISO text of [start_time] and [end_time] is kept as the clock reading
    it prints. *)
Record slot : Type := mkSlot {
  slot_start_time : Z;
  slot_end_time : Z;
  slot_duration_minutes : Z;
  slot_confidence_score : Q;
  slot_subject : string
}.

(** An entry of the list returned by
    [suggest_study_sessions_from_work]. *)
Record study_session : Type := mkSession {
  sess_title : string;
  sess_description : string;
  sess_start_time : Z;
  sess_end_time : Z;
  sess_duration_minutes : Z;
  sess_subject : string;
  sess_type : string;
  sess_confidence_score : Q
}.

(** A row of [SELECT created_at, completed FROM study_sessions]; the
    second column is kept as its truth value. *)
Record session_row : Type := mkRow {
  created_at : string;
  completed : bool
}.

(** An HTTP response. *)
Record response : Type := mkResponse {
  status_code : Z;
  text : string
}.

(** [response.raise_for_status()] *)
Definition raise_for_status (r : response) : result unit :=
  if (400 <=? status_code r) && (status_code r <? 600)
  then Raise HTTPError else Ok tt.

Open Scope list_scope.

(** ** The habit tracker ([dashboard.py], class [HabitTracker]) *)

Definition habit_formation_days : Z := 70.

Definition msg_streak_7 : string :=
  "🔥 7-day streak! You're building momentum!".
Definition msg_streak_21 : string :=
  "🌟 21-day streak! This is becoming a habit!".
Definition msg_streak_30 : string :=
  "💪 30-day streak! You're unstoppable!".
Definition msg_days_50 : string :=
  "🎯 50 days! You're almost at the finish line!".
Definition msg_milestone : string :=
  "🏆 Congratulations! You've formed a lasting habit!".

(** [get_milestone_rewards]: five tests in sequence, each appending its
    message. *)
Definition get_milestone_rewards (progress : gmap string pyval)
  : result (list string) :=
  let rewards := [] in
  do v <- getitem progress "current_streak";
  let rewards := if py_ge v 7 then rewards ++ [msg_streak_7] else rewards in
  do v <- getitem progress "current_streak";
  let rewards := if py_ge v 21 then rewards ++ [msg_streak_21] else rewards in
  do v <- getitem progress "current_streak";
  let rewards := if py_ge v 30 then rewards ++ [msg_streak_30] else rewards in
  do v <- getitem progress "days_completed";
  let rewards := if py_ge v 50 then rewards ++ [msg_days_50] else rewards in
  do v <- getitem progress "milestone_reached";
  let rewards := if truthy v then rewards ++ [msg_milestone] else rewards in
  Ok rewards.

(** The state of the walk over the session log: [current_streak] and
    [last_date]. *)
Definition streak_state : Type := (Z * option Z)%type.

(** The body of the [for session in sessions] loop, once the date of the
    session is known. *)
Definition streak_step (st : streak_state) (session_date : Z)
    (is_completed : bool) : streak_state :=
  let '(current_streak, last_date) := st in
  if is_completed then
    let current_streak :=
      match last_date with
      | None => current_streak + 1
      | Some ld =>
          if session_date =? ld + 1 then current_streak + 1
          else if negb (session_date =? ld) then 1
          else current_streak
      end in
    (current_streak, Some session_date)
  else (current_streak, last_date).

(** The dictionary returned for an empty session log. *)
Definition empty_log_progress : gmap string pyval :=
  <["is_on_track" := VBool false]>
  (<["current_streak" := VInt 0]>
  (<["progress_percentage" := VInt 0]>
  (<["days_remaining" := VInt habit_formation_days]>
  (<["days_completed" := VInt 0]> ∅)))).

(** The dictionary returned after the walk. *)
Definition walked_progress (current_streak : Z) : gmap string pyval :=
  let days_completed := Z.min current_streak habit_formation_days in
  let days_remaining := Z.max 0 (habit_formation_days - days_completed) in
  let progress_percentage :=
    (inject_Z days_completed / inject_Z habit_formation_days * 100)%Q in
  <["milestone_reached" := VBool (habit_formation_days <=? days_completed)]>
  (<["is_on_track" := VBool (5 <=? current_streak)]>
  (<["current_streak" := VInt current_streak]>
  (<["progress_percentage" := VFloat progress_percentage]>
  (<["days_remaining" := VInt days_remaining]>
  (<["days_completed" := VInt days_completed]> ∅))))).

(** ** The work-description planner
       ([SmartScheduler.suggest_study_sessions_from_work]) *)

(** [any(word in s for word in words)] *)
Definition any_in (words : list string) (s : string) : bool :=
  existsb (fun word => contains word s) words.

(** The [if]/[elif] chain that sets [study_type] and [duration]. *)
Definition classify_type (work_lower : string) : string * Z :=
  if any_in ["pset"; "problem set"; "homework"; "assignment"] work_lower
  then ("Problem Set", 180)
  else if any_in ["exam"; "test"; "midterm"; "final"] work_lower
  then ("Exam Preparation", 240)
  else if any_in ["project"; "paper"; "essay"; "report"] work_lower
  then ("Project Work", 200)
  else if any_in ["read"; "reading"; "textbook"; "chapter"] work_lower
  then ("Reading & Notes", 90)
  else if any_in ["code"; "programming"; "debug"; "algorithm"] work_lower
  then ("Coding Practice", 150)
  else ("General Study", 120).

(** The [if]/[elif] chain that sets [subject]. *)
Definition classify_subject (work_lower : string) : string :=
  if any_in ["math"; "calculus"; "algebra"; "statistics"] work_lower
  then "Mathematics"
  else if any_in ["physics"; "chemistry"; "biology"; "science"] work_lower
  then "Science"
  else if any_in ["cs"; "computer science"; "programming"; "code"] work_lower
  then "Computer Science"
  else if any_in ["english"; "literature"; "writing"; "essay"] work_lower
  then "English/Literature"
  else if any_in ["history"; "social studies"; "politics"] work_lower
  then "History"
  else "General".

Definition default_hours : list Z := [9; 14; 19].
Definition default_days : list Z := [0; 1; 2; 3; 4].

(** The [for i in range(num_sessions)] loop of the multi-session branch;
    [now] is the reading of [datetime.now()]. *)
Fixpoint split_sessions_loop (now : Z) (work_description study_type
    subject : string) (preferred_hours : list Z) (session_duration : Z)
    (indices : list Z) (sessions : list study_session)
  : result (list study_session) :=
  match indices with
  | [] => Ok sessions
  | i :: rest =>
      do k <- py_mod i (Z.of_nat (length preferred_hours));
      do hour <- getindex preferred_hours k;
      do today_at_hour <- replace_hour now hour;
      let start_time := add_days today_at_hour i in
      let end_time := add_minutes start_time session_duration in
      split_sessions_loop now work_description study_type subject
        preferred_hours session_duration rest
        (sessions ++
         [ {| sess_title :=
                (study_type ++ " - " ++ subject ++ " (Part " ++
                 str_of_Z (i + 1) ++ ")")%string;
              sess_description :=
                ("Study session for: " ++ work_description)%string;
              sess_start_time := start_time;
              sess_end_time := end_time;
              sess_duration_minutes := session_duration;
              sess_subject := subject;
              sess_type := study_type;
              sess_confidence_score := 0.8%Q |} ])
  end.

Definition suggest_study_sessions_from_work (now : Z)
    (work_description : string) (prefs : preferences)
  : result (list study_session) :=
  let work_lower := lower work_description in
  let '(study_type, duration) := classify_type work_lower in
  let subject := classify_subject work_lower in
  let sessions := [] in
  let preferred_hours := default default_hours (preferred_study_hours prefs) in
  if 180 <? duration then
    let session_duration := 120 in
    let num_sessions := Z.max 2 (duration / session_duration) in
    split_sessions_loop now work_description study_type subject
      preferred_hours session_duration (range num_sessions) sessions
  else
    do hour <- getindex preferred_hours 0;
    do start_time <- replace_hour now hour;
    let end_time := add_minutes start_time duration in
    Ok (sessions ++
        [ {| sess_title := (study_type ++ " - " ++ subject)%string;
             sess_description :=
               ("Study session for: " ++ work_description)%string;
             sess_start_time := start_time;
             sess_end_time := end_time;
             sess_duration_minutes := duration;
             sess_subject := subject;
             sess_type := study_type;
             sess_confidence_score := 0.9%Q |} ]).

(** ** Reading a subscription feed (the loop of [parse_ical_url]) *)

Definition empty_event : event := mkEvent None None None None None.

Definition has_key {A : Type} (o : option A) : bool :=
  match o with Some _ => true | None => false end.

(** Truth value of an event dictionary: it has at least one key. *)
Definition event_nonempty (e : event) : bool :=
  has_key (ev_title e) || has_key (ev_start e) || has_key (ev_end e) ||
  has_key (ev_description e) || has_key (ev_source e).

Definition set_title (e : event) (v : string) : event :=
  mkEvent (Some v) (ev_start e) (ev_end e) (ev_description e) (ev_source e).
Definition set_start (e : event) (v : string) : event :=
  mkEvent (ev_title e) (Some v) (ev_end e) (ev_description e) (ev_source e).
Definition set_end (e : event) (v : string) : event :=
  mkEvent (ev_title e) (ev_start e) (Some v) (ev_description e) (ev_source e).
Definition set_description (e : event) (v : string) : event :=
  mkEvent (ev_title e) (ev_start e) (ev_end e) (Some v) (ev_source e).
Definition set_source (e : event) (v : string) : event :=
  mkEvent (ev_title e) (ev_start e) (ev_end e) (ev_description e) (Some v).

(** One turn of [for line in lines], on [(current_event, events)]. *)
Definition ical_line (st : event * list event) (raw_line : string)
  : event * list event :=
  let '(current_event, events) := st in
  let line := strip raw_line in
  if String.eqb line "BEGIN:VEVENT" then (empty_event, events)
  else if String.eqb line "END:VEVENT" then
    (empty_event,
     if event_nonempty current_event then events ++ [current_event]
     else events)
  else if startswith line "SUMMARY:" then
    (set_title current_event (slice_from 8 line), events)
  else if startswith line "DTSTART:" then
    (set_start current_event (slice_from 8 line), events)
  else if startswith line "DTEND:" then
    (set_end current_event (slice_from 6 line), events)
  else if startswith line "DESCRIPTION:" then
    (set_description current_event (slice_from 12 line), events)
  else (current_event, events).

Definition ical_events (feed_text : string) : list event :=
  snd (fold_left ical_line (split_lines feed_text) (empty_event, [])).

(** [lo <= x <= hi], the second test only when the first holds. *)
Definition dt_between (lo x hi : datetime) : result bool :=
  do above <- dt_le lo x;
  if above then dt_le x hi else Ok false.

(** [slot_start < busy_end and slot_end > busy_start] *)
Definition overlaps (slot_start slot_end : Z) (busy : datetime * datetime)
  : result bool :=
  let '(busy_start, busy_end) := busy in
  do before_end <- dt_lt (naive slot_start) busy_end;
  if before_end then dt_lt busy_start (naive slot_end) else Ok false.

(** The [for busy_start, busy_end in busy_times] loop: [conflicts]. *)
Fixpoint conflicts (busy_times : list (datetime * datetime))
    (slot_start slot_end : Z) : result bool :=
  match busy_times with
  | [] => Ok false
  | busy :: rest =>
      do hit <- overlaps slot_start slot_end busy;
      if hit then Ok true else conflicts rest slot_start slot_end
  end.

(** ** Scoring ([_calculate_confidence_score], [_suggest_subject])

    The four weights of the preferences are numbers, as the score is: a
    weight that is not a number or not finite, which [json.loads] accepts
    as [NaN] and [Infinity], is outside the model. *)

Inductive bucket : Type := Morning | Midday | Afternoon | Evening.

Definition bucket_of_hour (hour : Z) : bucket :=
  if (6 <=? hour) && (hour <=? 9) then Morning
  else if (10 <=? hour) && (hour <=? 14) then Midday
  else if (15 <=? hour) && (hour <=? 18) then Afternoon
  else Evening.

(** [preferences.get('..._preference', default)] for each bucket. *)
Definition bucket_weight (prefs : preferences) (b : bucket) : Q :=
  match b with
  | Morning => default 0.8%Q (morning_preference prefs)
  | Midday => default 0.6%Q (midday_preference prefs)
  | Afternoon => default 0.7%Q (afternoon_preference prefs)
  | Evening => default 0.5%Q (evening_preference prefs)
  end.

Definition calculate_confidence_score (slot_time : Z) (prefs : preferences)
  : Q :=
  let score := 0%Q in
  let hour := hour_of slot_time in
  let score := (score + bucket_weight prefs (bucket_of_hour hour))%Q in
  let day := weekday slot_time in
  let score :=
    if bool_decide (day ∈ default default_days (preferred_days prefs))
    then (score + 0.2)%Q else score in
  Qmin score 1.

Definition default_subjects : list string :=
  ["General Study"; "Math"; "Science"; "Literature"].

Definition suggest_subject (slot_time : Z) (prefs : preferences)
  : result string :=
  let subjects := default default_subjects (subjects prefs) in
  let day_index := weekday slot_time in
  do k <- py_mod day_index (Z.of_nat (length subjects));
  getindex subjects k.

(** ** Ranking ([available_slots.sort(..., reverse=True)])

    The scores are rationals, so the ranking is that of numbers. A weight
    that is not a number (a [NaN], which [json.loads] accepts) makes the
    score a [NaN], whose comparisons are all false: Python's sort then
    still rearranges the list, but in an order that depends on its merge
    strategy. The properties below therefore use the ranking as a
    rearrangement of the candidates only ([sort_desc_perm]), which holds
    of Python's sort whatever the keys; they state nothing about the order
    of the result beyond its first ten being returned. *)

Definition Qlt_bool (x y : Q) : bool := negb (Qle_bool y x).

(** Insertion of [x] in front of the first element whose score is not
    greater. *)
Fixpoint insert_desc (x : slot) (l : list slot) : list slot :=
  match l with
  | [] => [x]
  | y :: l' =>
      if Qlt_bool (slot_confidence_score x) (slot_confidence_score y)
      then y :: insert_desc x l'
      else x :: l
  end.

Definition sort_desc (l : list slot) : list slot :=
  fold_right insert_desc [] l.

(** ** Dashboard statistics ([dashboard.py], class [DashboardManager]) *)

(** [x or 0] for the count or the sum of a query row. *)
Definition or_zero (v : option Z) : Z :=
  match v with
  | Some n => n
  | None => 0
  end.

(** [(completed / total * 100) if total > 0 else 0] *)
Definition completion_rate_of (completed_sessions total_sessions : Z)
  : pyval :=
  if 0 <? total_sessions
  then VFloat (inject_Z completed_sessions / inject_Z total_sessions * 100)%Q
  else VInt 0.

(** [_calculate_user_stats], on the rows that its five queries fetch: three
    counts and the first row, if any, of the two streak queries. *)
Definition calculate_user_stats (total_sessions completed_sessions
    this_week_sessions : Z) (current_streak_row longest_streak_row : option Z)
  : gmap string pyval :=
  let current_streak :=
    match current_streak_row with Some v => v | None => 0 end in
  let longest_streak :=
    match longest_streak_row with Some v => v | None => 0 end in
  <["longest_streak" := VInt longest_streak]>
  (<["current_streak" := VInt current_streak]>
  (<["this_week_sessions" := VInt this_week_sessions]>
  (<["completion_rate" :=
       completion_rate_of completed_sessions total_sessions]>
  (<["completed_sessions" := VInt completed_sessions]>
  (<["total_sessions" := VInt total_sessions]> ∅))))).

(** An entry of the list returned by [get_weekly_progress]; [week] is the
    date that [strftime('%Y-%m-%d')] prints, as a day number. *)
Record week_entry : Type := mkWeek {
  week : Z;
  week_total_sessions : Z;
  week_completed_sessions : Z;
  week_completion_rate : pyval
}.

(** How the database behaves during one call of a method: it answers
    every statement; or a statement or the commit raises an error of
    [sqlite3] (a locked file, a missing table, a full disk); or
    [sqlite3.connect] itself raises. *)
Inductive db_answer : Type :=
| Answers
| Refuses
| Unreachable.

(** The integers that SQLite stores: 64 bits, signed. *)
Definition fits_int64 (n : Z) : bool := (- 2 ^ 63 <=? n) && (n <? 2 ^ 63).

(** [cursor.execute(sql, params)], as far as raising goes, for the
    integer parameters of the statement ([None] is bound as [NULL]):
    [sqlite3] raises [OverflowError] for an integer outside 64 bits, and
    the statement raises when the database refuses. *)
Definition execute (db : db_answer) (params : list (option Z))
  : result unit :=
  if forallb (fun p => match p with
                       | Some n => fits_int64 n
                       | None => true
                       end) params
  then match db with
       | Answers => Ok tt
       | Refuses | Unreachable => Raise OperationalError
       end
  else Raise OverflowError.

(** A row of the table [streaks], as [update_streak] writes it; the rows
    of the table are kept in the order of their [id], which no statement
    of the program changes, and the position of a row stands for its
    [id]. *)
Record streak_row : Type := mkStreak {
  sr_user_id : Z;
  sr_group_id : option Z;
  sr_current_streak : Z;
  sr_longest_streak : Z;
  sr_last_activity : option Z
}.

(** [WHERE user_id = ? AND group_id = ?]: in SQL a comparison with [NULL]
    is not true, so neither a [NULL] parameter nor a [NULL] column
    matches. *)
Definition streak_matches (user_id : Z) (group_id : option Z)
    (r : streak_row) : bool :=
  (sr_user_id r =? user_id) &&
  match group_id, sr_group_id r with
  | Some g, Some g' => g' =? g
  | _, _ => false
  end.

(** [cursor.fetchone()] after the [SELECT]: the first matching row, with
    its position; [None] when no row matches. *)
Fixpoint fetch_streak (user_id : Z) (group_id : option Z)
    (table : list streak_row) : option (nat * streak_row) :=
  match table with
  | [] => None
  | r :: rest =>
      if streak_matches user_id group_id r then Some (0%nat, r)
      else match fetch_streak user_id group_id rest with
           | Some (id, streak) => Some (S id, streak)
           | None => None
           end
  end.

(** The [try] block of [update_streak] up to [conn.commit()], as a change
    of the table [streaks]; [now] is the reading of [datetime.now()]. *)
Definition update_streak_try (db : db_answer) (now : Z) (user_id : Z)
    (group_id : option Z) (table : list streak_row)
  : result (list streak_row) :=
  do _ <- execute db [Some user_id; group_id];
  match fetch_streak user_id group_id table with
  | Some (id, streak) =>
      let new_streak := sr_current_streak streak + 1 in
      let new_longest := Z.max (sr_longest_streak streak) new_streak in
      (* the fourth parameter, the [id] read from the table, is an SQLite
         integer *)
      do _ <- execute db [Some new_streak; Some new_longest];
      Ok (<[id := {| sr_user_id := sr_user_id streak;
                     sr_group_id := sr_group_id streak;
                     sr_current_streak := new_streak;
                     sr_longest_streak := new_longest;
                     sr_last_activity := Some now |}]> table)
  | None =>
      do _ <- execute db [Some user_id; group_id];
      Ok (table ++ [ {| sr_user_id := user_id;
                        sr_group_id := group_id;
                        sr_current_streak := 1;
                        sr_longest_streak := 1;
                        sr_last_activity := Some now |} ])
  end.

(** [update_streak]: the table after the call and what the call returns.
    [sqlite3.connect] stands before the [try], so its error leaves the
    method; any exception of the [try] block is caught and answered by
    [False], and the changes of the block, not being committed, are lost
    when the connection is closed. *)
Definition update_streak (db : db_answer) (now : Z) (user_id : Z)
    (group_id : option Z) (table : list streak_row)
  : list streak_row * result bool :=
  match db with
  | Unreachable => (table, Raise OperationalError)
  | Answers | Refuses =>
      match update_streak_try db now user_id group_id table with
      | Ok table' => (table', Ok true)
      | Raise _ => (table, Ok false)
      end
  end.

(** A call of [update_streak]: how the database behaves during the call,
    the reading of the clock, the user and the group. *)
Record streak_call : Type := mkCall {
  call_db : db_answer;
  call_now : Z;
  call_user_id : Z;
  call_group_id : option Z
}.

(** ** Passwords ([app.py]) *)

(** [s.split(sep)] for a separator of one character, accumulating the
    current part in [cur]. *)
Fixpoint split_on_from (sep : ascii) (cur : string) (s : string)
  : list string :=
  match s with
  | EmptyString => [cur]
  | String c s' =>
      if Ascii.eqb c sep
      then cur :: split_on_from sep EmptyString s'
      else split_on_from sep (cur ++ String c EmptyString)%string s'
  end.

Definition split_on (sep : ascii) (s : string) : list string :=
  split_on_from sep EmptyString s.

Definition colon : ascii := ":"%char.

(** ** A sample environment

    A week that starts on Monday 0001-01-01: one feed that lists a lecture
    on Monday from 14:00 to 15:00, one feed whose server is down, no
    remote calendar, and a call made on Monday at 10:00. *)

(** A stand-in for [datetime.fromisoformat] that knows the strings of a
    table. *)
Definition fromisoformat_of (table : list (string * datetime)) (s : string)
  : option datetime :=
  snd <$> List.find (fun entry => String.eqb (fst entry) s) table.

Definition sample_fromisoformat : string -> option datetime :=
  fromisoformat_of
    [ ("0001-01-01T14:00:00", naive (14 * US_PER_HOUR));
      ("0001-01-01T15:00:00", naive (15 * US_PER_HOUR));
      ("0001-01-02T09:00:00+00:00",
       mkDatetime (US_PER_DAY + 9 * US_PER_HOUR) (Some 0));
      ("0001-01-02T10:00:00+00:00",
       mkDatetime (US_PER_DAY + 10 * US_PER_HOUR) (Some 0));
      ("0001-01-10 09:00:00", naive (9 * US_PER_DAY + 9 * US_PER_HOUR));
      ("0001-01-11 09:00:00", naive (10 * US_PER_DAY + 9 * US_PER_HOUR));
      ("0001-01-12 09:00:00", naive (11 * US_PER_DAY + 9 * US_PER_HOUR)) ].

Definition sample_feed : string :=
  "BEGIN:VCALENDAR
BEGIN:VEVENT
SUMMARY:Lecture
DTSTART:0001-01-01T14:00:00
DTEND:0001-01-01T15:00:00
END:VEVENT
END:VCALENDAR
".

Definition sample_requests_get (url : string) : result response :=
  if String.eqb url "https://calendar.example/lectures.ics"
  then Ok (mkResponse 200 sample_feed)
  else Raise RequestException.

(** A remote calendar with a seminar on Tuesday from 09:00 to 10:00 UTC,
    and one whose listing fails. *)
Definition sample_google_service (start_time end_time : datetime)
  : result (list event) :=
  Ok [ {| ev_title := Some "Seminar";
          ev_start := Some "0001-01-02T09:00:00Z";
          ev_end := Some "0001-01-02T10:00:00Z";
          ev_description := Some "";
          ev_source := Some "google" |} ].

Definition failing_google_service (start_time end_time : datetime)
  : result (list event) :=
  Raise RequestException.

Definition sample_now : Z := 10 * US_PER_HOUR.

Definition sample_prefs : preferences :=
  {| ical_urls :=
       Some [ "https://calendar.example/lectures.ics";
              "https://calendar.example/down.ics" ];
     preferred_study_hours := Some [9; 14];
     preferred_days := None;
     morning_preference := None;
     midday_preference := None;
     afternoon_preference := None;
     evening_preference := None;
     subjects := None |}.

(** The same preferences with an empty list of subjects. *)
Definition sample_prefs_no_subjects : preferences :=
  {| ical_urls := ical_urls sample_prefs;
     preferred_study_hours := preferred_study_hours sample_prefs;
     preferred_days := None;
     morning_preference := None;
     midday_preference := None;
     afternoon_preference := None;
     evening_preference := None;
     subjects := Some [] |}.

(** The three slots that the sample call returns: Monday 09:00 and
    Tuesday 09:00 with score 1, then Tuesday 14:00 with score 0.8; Monday
    14:00 meets the lecture. *)
Definition sample_slot_monday_9 : slot :=
  {| slot_start_time := 9 * US_PER_HOUR;
     slot_end_time := 11 * US_PER_HOUR;
     slot_duration_minutes := 120;
     slot_confidence_score := 1.00%Q;
     slot_subject := "General Study" |}.

Definition sample_slots : list slot :=
  [ sample_slot_monday_9;
    {| slot_start_time := US_PER_DAY + 9 * US_PER_HOUR;
       slot_end_time := US_PER_DAY + 11 * US_PER_HOUR;
       slot_duration_minutes := 120;
       slot_confidence_score := 1.00%Q;
       slot_subject := "Math" |};
    {| slot_start_time := US_PER_DAY + 14 * US_PER_HOUR;
       slot_end_time := US_PER_DAY + 16 * US_PER_HOUR;
       slot_duration_minutes := 120;
       slot_confidence_score := 0.80%Q;
       slot_subject := "Math" |} ].

Definition sample_lecture : datetime * datetime :=
  (naive (14 * US_PER_HOUR), naive (15 * US_PER_HOUR)).

Definition exam_description : string := "Study for my exam".

(** ** More sample values *)

(** A log with a completed session on the 10th, one that is not completed
    on the 11th and a completed one on the 12th; the same days all
    completed; and a log with a timestamp that does not parse. *)
Definition sample_log : list session_row :=
  [ mkRow "0001-01-10 09:00:00" true;
    mkRow "0001-01-11 09:00:00" false;
    mkRow "0001-01-12 09:00:00" true ].

Definition sample_log_consecutive : list session_row :=
  [ mkRow "0001-01-10 09:00:00" true;
    mkRow "0001-01-11 09:00:00" true;
    mkRow "0001-01-12 09:00:00" true ].

Definition sample_row_unparsable : session_row := mkRow "yesterday" false.

Definition sample_log_unparsable : list session_row :=
  [ mkRow "0001-01-10 09:00:00" true; sample_row_unparsable ].

Definition sample_lecture_event : event :=
  {| ev_title := Some "Lecture";
     ev_start := Some "0001-01-01T14:00:00";
     ev_end := Some "0001-01-01T15:00:00";
     ev_description := None;
     ev_source := Some "ical" |}.

(** The sample preferences with 25 as only preferred hour, and with no
    preferred hour. *)
Definition sample_prefs_bad_hour : preferences :=
  {| ical_urls := None;
     preferred_study_hours := Some [25];
     preferred_days := None;
     morning_preference := None;
     midday_preference := None;
     afternoon_preference := None;
     evening_preference := None;
     subjects := None |}.

Definition sample_prefs_no_hours : preferences :=
  {| ical_urls := None;
     preferred_study_hours := Some [];
     preferred_days := None;
     morning_preference := None;
     midday_preference := None;
     afternoon_preference := None;
     evening_preference := None;
     subjects := None |}.

Definition reading_description : string := "Read chapter 3".

(** The seminar of the sample remote calendar, as a busy interval. *)
Definition sample_seminar : datetime * datetime :=
  (mkDatetime (US_PER_DAY + 9 * US_PER_HOUR) (Some 0),
   mkDatetime (US_PER_DAY + 10 * US_PER_HOUR) (Some 0)).

(** A stand-in for a digest: 64 hexadecimal characters that depend on the
    parity of the length of the data. *)
Definition sample_digest (data : string) : string :=
  if Nat.even (String.length data)
  then "0000000000000000000000000000000000000000000000000000000000000000"
  else "1111111111111111111111111111111111111111111111111111111111111111".

(** Calls of [update_streak] at the clock readings 100 to 400: the
    database answers the first and the third, refuses the second and
    cannot be reached for the fourth. *)
Definition sample_streak_calls : list (db_answer * Z) :=
  [ (Answers, 100); (Refuses, 200); (Answers, 300); (Unreachable, 400) ].

(** A table with the row of user 7 in group 3, at a streak of 2, and four
    calls: for that row, for user 8 without a group, one that the database
    refuses, and one for a user whose number SQLite cannot store. *)
Definition sample_streak_table : list streak_row :=
  [ {| sr_user_id := 7; sr_group_id := Some 3;
       sr_current_streak := 2; sr_longest_streak := 2;
       sr_last_activity := Some 50 |} ].

Definition sample_mixed_calls : list streak_call :=
  [ mkCall Answers 100 7 (Some 3);
    mkCall Answers 200 8 None;
    mkCall Refuses 300 7 (Some 3);
    mkCall Answers 400 (2 ^ 63) (Some 3) ].

(** A clock that reads the 21st of January of the year 1, shortly after
    10:00, and a database in which user 7 has four sessions, three of
    them completed, in every week from the 11th of January on. *)
Definition sample_clock (week_offset : Z) : Z :=
  20 * US_PER_DAY + 10 * US_PER_HOUR + week_offset.

Definition sample_count_week_sessions (user_id week_start week_end : Z)
  : Z * option Z :=
  if (user_id =? 7) && (10 * US_PER_DAY <=? week_start)
  then (4, Some 3)
  else (0, None).

(** Preferences that give the four time-of-day weights and one preferred
    hour in each of the four ranges of hours, and the slots of a call made
    with them on Monday at 10:00 for one day: in the order of their scores
    12:00 (0.9 + 0.2, capped at 1), 07:00 (0.7), 16:00 (0.5) and 20:00
    (0.3). *)
Definition sample_prefs_weighted : preferences :=
  {| ical_urls := None;
     preferred_study_hours := Some [7; 12; 16; 20];
     preferred_days := None;
     morning_preference := Some 0.5%Q;
     midday_preference := Some 0.9%Q;
     afternoon_preference := Some 0.3%Q;
     evening_preference := Some 0.1%Q;
     subjects := None |}.

Definition sample_slot_weighted (hour : Z) (score : Q) : slot :=
  {| slot_start_time := hour * US_PER_HOUR;
     slot_end_time := (hour + 2) * US_PER_HOUR;
     slot_duration_minutes := 120;
     slot_confidence_score := score;
     slot_subject := "General Study" |}.

Definition sample_slots_weighted : list slot :=
  [ sample_slot_weighted 12 1%Q;
    sample_slot_weighted 7 0.70%Q;
    sample_slot_weighted 16 0.50%Q;
    sample_slot_weighted 20 0.30%Q ].

Section Model.

(** [datetime.fromisoformat]; [None] when it raises [ValueError]. *)
Variable fromisoformat : string -> option datetime.

Definition parse_iso (s : string) : result datetime :=
  match fromisoformat s with
  | Some d => Ok d
  | None => Raise ValueError
  end.

(** The [for session in sessions] loop of [track_habit_progress]. *)
Fixpoint streak_loop (sessions : list session_row) (st : streak_state)
  : result streak_state :=
  match sessions with
  | [] => Ok st
  | session :: rest =>
      do d <- parse_iso (created_at session);
      let session_date := date_of d in
      streak_loop rest (streak_step st session_date (completed session))
  end.

(** [track_habit_progress], on the rows fetched for the user. *)
Definition track_habit_progress (sessions : list session_row)
  : result (gmap string pyval) :=
  match sessions with
  | [] => Ok empty_log_progress
  | _ =>
      do st <- streak_loop sessions (0, None);
      Ok (walked_progress (fst st))
  end.

(** ** The calendar aggregator (class [CalendarIntegration]) *)

(** [requests.get(url, timeout=10)]: a response, or the exception of a
    failed request. *)
Variable requests_get : string -> result response.

(** [self.google_service]: [None] before authentication, else the listing
    of the primary calendar in a window, already mapped to event
    dictionaries, or the exception it raises. *)
Variable google_service :
  option (datetime -> datetime -> result (list event)).

Definition get_google_events (start_time end_time : datetime) : list event :=
  match google_service with
  | None => []
  | Some list_events => try_except (list_events start_time end_time) []
  end.

(** The body of [for event in events] in [parse_ical_url]: what the event
    adds to [filtered_events]. *)
Definition filter_event (start_time end_time : datetime) (e : event)
  : list event :=
  match ev_start e with
  | None => []
  | Some s =>
      try_except
        (do event_start <- parse_iso (replace_Z s);
         do inside <- dt_between start_time event_start end_time;
         Ok (if inside then [set_source e "ical"] else []))
        []
  end.

(** The [try] block of [parse_ical_url]. *)
Definition parse_ical_url_body (ical_url : string)
    (start_time end_time : datetime) : result (list event) :=
  do response <- requests_get ical_url;
  do _ <- raise_for_status response;
  let events := ical_events (text response) in
  Ok (flat_map (filter_event start_time end_time) events).

Definition parse_ical_url (ical_url : string)
    (start_time end_time : datetime) : list event :=
  try_except (parse_ical_url_body ical_url start_time end_time) [].

(** The [for ical_url in ical_urls] loop of [get_all_events]. *)
Fixpoint extend_with_feeds (urls : list string)
    (start_time end_time : datetime) (all_events : list event)
  : list event :=
  match urls with
  | [] => all_events
  | ical_url :: rest =>
      let ical_events := parse_ical_url ical_url start_time end_time in
      extend_with_feeds rest start_time end_time (all_events ++ ical_events)
  end.

Definition get_all_events (urls : list string)
    (start_time end_time : datetime) : list event :=
  let all_events := [] in
  let google_events := get_google_events start_time end_time in
  let all_events := all_events ++ google_events in
  extend_with_feeds urls start_time end_time all_events.

(** ** The scheduler ([SmartScheduler.find_optimal_study_times]) *)

(** [event['start']], [event['end']]: an absent key raises. *)
Definition event_field (key : string) (field : option string)
  : result string :=
  match field with
  | Some v => Ok v
  | None => Raise (KeyError key)
  end.

(** The body of [for event in existing_events]: what the event adds to
    [busy_times]. *)
Definition busy_of_event (e : event) : list (datetime * datetime) :=
  try_except
    (do s <- event_field "start" (ev_start e);
     do event_start <- parse_iso (replace_Z s);
     do s <- event_field "end" (ev_end e);
     do event_end <- parse_iso (replace_Z s);
     Ok [(event_start, event_end)])
    [].

Definition busy_times_of (existing_events : list event)
  : list (datetime * datetime) :=
  flat_map busy_of_event existing_events.

(** The [for hour in preferred_hours] loop. *)
Fixpoint hours_loop (prefs : preferences)
    (busy_times : list (datetime * datetime)) (study_duration : Z)
    (current_date : Z) (hours : list Z) (available_slots : list slot)
  : result (list slot) :=
  match hours with
  | [] => Ok available_slots
  | hour :: rest =>
      do slot_start <- replace_hour current_date hour;
      let slot_end := add_minutes slot_start study_duration in
      do conflict <- conflicts busy_times slot_start slot_end;
      if negb conflict then
        let score := calculate_confidence_score slot_start prefs in
        do subject <- suggest_subject slot_start prefs;
        hours_loop prefs busy_times study_duration current_date rest
          (available_slots ++
           [ {| slot_start_time := slot_start;
                slot_end_time := slot_end;
                slot_duration_minutes := study_duration;
                slot_confidence_score := score;
                slot_subject := subject |} ])
      else
        hours_loop prefs busy_times study_duration current_date rest
          available_slots
  end.

(** The [for day_offset in range(days_ahead)] loop. *)
Fixpoint days_loop (prefs : preferences)
    (busy_times : list (datetime * datetime)) (study_duration : Z)
    (start_time : Z) (preferred_hours preferred_days : list Z)
    (offsets : list Z) (available_slots : list slot)
  : result (list slot) :=
  match offsets with
  | [] => Ok available_slots
  | day_offset :: rest =>
      let current_date := add_days start_time day_offset in
      if negb (bool_decide (weekday current_date ∈ preferred_days)) then
        days_loop prefs busy_times study_duration start_time
          preferred_hours preferred_days rest available_slots
      else
        do available_slots <-
          hours_loop prefs busy_times study_duration current_date
            preferred_hours available_slots;
        days_loop prefs busy_times study_duration start_time
          preferred_hours preferred_days rest available_slots
  end.

(** The busy intervals that a call made at [now] works with. *)
Definition busy_times_at (now : Z) (prefs : preferences) (days_ahead : Z)
  : list (datetime * datetime) :=
  let start_time := now in
  let end_time := add_days start_time days_ahead in
  busy_times_of
    (get_all_events (default [] (ical_urls prefs))
       (naive start_time) (naive end_time)).

(** [find_optimal_study_times]; [now] is the reading of
    [datetime.now()]. *)
Definition find_optimal_study_times (now : Z) (prefs : preferences)
    (study_duration : Z) (days_ahead : Z) : result (list slot) :=
  let start_time := now in
  let busy_times := busy_times_at now prefs days_ahead in
  let preferred_hours := default default_hours (preferred_study_hours prefs) in
  let preferred_days := default default_days (preferred_days prefs) in
  do available_slots <-
    days_loop prefs busy_times study_duration start_time
      preferred_hours preferred_days (range days_ahead) [];
  Ok (take 10 (sort_desc available_slots)).

(** ** Weekly progress ([DashboardManager.get_weekly_progress]) *)

(** The query of one week for a user: [COUNT( * )] and the [SUM] of the
    completed sessions whose [created_at] is in the window, the sum being
    [NULL] when the window has no session. *)
Variable count_week_sessions : Z -> Z -> Z -> Z * option Z.

(** The dictionary appended for a week, from the query to the entry. *)
Definition week_entry_of (user_id week_start week_end : Z) : week_entry :=
  let result := count_week_sessions user_id week_start week_end in
  let total_sessions := or_zero (Some (fst result)) in
  let completed_sessions := or_zero (snd result) in
  {| week := date_of (naive week_start);
     week_total_sessions := total_sessions;
     week_completed_sessions := completed_sessions;
     week_completion_rate :=
       completion_rate_of completed_sessions total_sessions |}.

(** The body of the loop for [week_offset]; [now] is the reading of
    [datetime.now()] in this turn of the loop. *)
Definition week_entry_at (db : db_answer) (now user_id week_offset : Z)
  : result week_entry :=
  do weeks_back <- timedelta_days (7 * (week_offset + 1));
  do week_start <- datetime_sub now weeks_back;
  do seven_days <- timedelta_days 7;
  do week_end <- datetime_add week_start seven_days;
  do _ <- execute db [Some user_id];
  Ok (week_entry_of user_id week_start week_end).

(** The [for week_offset in range(weeks)] loop; [clock k] is the reading
    of the clock in the turn for the offset [k]. *)
Fixpoint weekly_loop (db : db_answer) (clock : Z -> Z) (user_id : Z)
    (offsets : list Z) (weekly_data : list week_entry)
  : result (list week_entry) :=
  match offsets with
  | [] => Ok weekly_data
  | week_offset :: rest =>
      do entry <- week_entry_at db (clock week_offset) user_id week_offset;
      weekly_loop db clock user_id rest (weekly_data ++ [entry])
  end.

(** [get_weekly_progress]: the method has a [finally] and no [except], so
    what the loop raises leaves the method, as does the error of
    [sqlite3.connect]. *)
Definition get_weekly_progress (db : db_answer) (clock : Z -> Z)
    (user_id weeks : Z) : result (list week_entry) :=
  match db with
  | Unreachable => Raise OperationalError
  | Answers | Refuses =>
      do weekly_data <- weekly_loop db clock user_id (range weeks) [];
      Ok (rev weekly_data)
  end.

(** ** Passwords ([hash_password], [verify_password]) *)

(** [hashlib.sha256(data).hexdigest()] *)
Variable sha256_hexdigest : string -> string.

(** [hash_password]; [salt] is the reading of [secrets.token_hex(16)]. *)
Definition hash_password (salt password : string) : string :=
  let password_hash := sha256_hexdigest (password ++ salt)%string in
  (salt ++ ":" ++ password_hash)%string.

(** [verify_password]: unpacking anything but two parts raises, and every
    exception gives [False]; a stored hash of [None] has no [split]. *)
Definition verify_password (password : string) (stored_hash : option string)
  : bool :=
  try_except
    (match stored_hash with
     | None => Raise TypeError
     | Some stored =>
         match split_on colon stored with
         | [salt; password_hash] =>
             Ok (String.eqb (sha256_hexdigest (password ++ salt)%string)
                   password_hash)
         | _ => Raise ValueError
         end
     end)
    false.

(** * Vocabulary of the statements *)

(** The thresholds of [get_milestone_rewards] as an ordered table: the
    test of each row and the message it contributes. *)
Definition reward_table (streak days milestone : pyval)
  : list (bool * string) :=
  [ (py_ge streak 7, msg_streak_7);
    (py_ge streak 21, msg_streak_21);
    (py_ge streak 30, msg_streak_30);
    (py_ge days 50, msg_days_50);
    (truthy milestone, msg_milestone) ].

Definition rewards_of_table (t : list (bool * string)) : list string :=
  map snd (List.filter fst t).

(** The six keys of a full progress record. *)
Definition progress_keys : list string :=
  [ "current_streak"; "days_completed"; "days_remaining";
    "progress_percentage"; "is_on_track"; "milestone_reached" ].

(** The category rules of the planner as an ordered table of keywords
    and results, read top to bottom; the sixth rule is the default. *)
Definition type_rules : list (list string * (string * Z)) :=
  [ (["pset"; "problem set"; "homework"; "assignment"], ("Problem Set", 180));
    (["exam"; "test"; "midterm"; "final"], ("Exam Preparation", 240));
    (["project"; "paper"; "essay"; "report"], ("Project Work", 200));
    (["read"; "reading"; "textbook"; "chapter"], ("Reading & Notes", 90));
    (["code"; "programming"; "debug"; "algorithm"], ("Coding Practice", 150)) ].

Definition default_type : string * Z := ("General Study", 120).

(** The result of the first rule one of whose keywords occurs in [s]. *)
Fixpoint first_match {A : Type} (rules : list (list string * A)) (dflt : A)
    (s : string) : A :=
  match rules with
  | [] => dflt
  | (keywords, r) :: rest =>
      if any_in keywords s then r else first_match rest dflt s
  end.

Definition valid_hour (h : Z) : Prop := 0 <= h <= 23.

(** The start of the day of [t]. *)
Definition midnight (t : Z) : Z := t / US_PER_DAY * US_PER_DAY.

(** Session [i] of a split plan, as the planner is meant to place it: at
    hour [preferred_hours[i mod len]] of day [today + i], 120 minutes
    long. *)
Definition planned_session (now : Z) (work_description study_type
    subject : string) (preferred_hours : list Z) (i : Z) : study_session :=
  let hour :=
    default 0
      (preferred_hours !! Z.to_nat (i mod Z.of_nat (length preferred_hours))) in
  let start := midnight now + i * US_PER_DAY + hour * US_PER_HOUR in
  {| sess_title :=
       (study_type ++ " - " ++ subject ++ " (Part " ++ str_of_Z (i + 1) ++ ")")%string;
     sess_description := ("Study session for: " ++ work_description)%string;
     sess_start_time := start;
     sess_end_time := start + 120 * US_PER_MINUTE;
     sess_duration_minutes := 120;
     sess_subject := subject;
     sess_type := study_type;
     sess_confidence_score := 0.8%Q |}.

Definition pset_description : string := "I need to finish my pset on calculus".

(** What one turn of the hour loop appends: the slot of [hour] on the day
    of [current_date], free of conflicts, with its score and subject. *)
Definition made_at (prefs : preferences)
    (busy_times : list (datetime * datetime)) (study_duration : Z)
    (current_date hour : Z) (s : slot) : Prop :=
  valid_hour hour
  /\ slot_start_time s = midnight current_date + hour * US_PER_HOUR
  /\ slot_end_time s = add_minutes (slot_start_time s) study_duration
  /\ slot_duration_minutes s = study_duration
  /\ conflicts busy_times (slot_start_time s) (slot_end_time s) = Ok false
  /\ slot_confidence_score s
     = calculate_confidence_score (slot_start_time s) prefs
  /\ suggest_subject (slot_start_time s) prefs = Ok (slot_subject s).

(** A slot that the two loops of [find_optimal_study_times] produce: made
    at a preferred hour of a day of the horizon whose weekday is
    preferred. *)
Definition generated (now : Z) (prefs : preferences)
    (busy_times : list (datetime * datetime)) (study_duration : Z)
    (offsets : list Z) (s : slot) : Prop :=
  exists day_offset hour,
    day_offset ∈ offsets
    /\ weekday (add_days now day_offset)
         ∈ default default_days (preferred_days prefs)
    /\ hour ∈ default default_hours (preferred_study_hours prefs)
    /\ made_at prefs busy_times study_duration (add_days now day_offset)
         hour s.

(** A candidate of the horizon that the conflict filter lets through. *)
Definition survives (now : Z) (prefs : preferences)
    (busy_times : list (datetime * datetime)) (study_duration : Z)
    (days_ahead : Z) (day_offset hour : Z) : Prop :=
  0 <= day_offset < days_ahead
  /\ weekday (add_days now day_offset)
       ∈ default default_days (preferred_days prefs)
  /\ hour ∈ default default_hours (preferred_study_hours prefs)
  /\ exists slot_start,
       replace_hour (add_days now day_offset) hour = Ok slot_start
       /\ conflicts busy_times slot_start
            (add_minutes slot_start study_duration) = Ok false.

(** A busy interval both of whose ends are naive. *)
Definition naive_interval (busy : datetime * datetime) : Prop :=
  utcoffset (fst busy) = None /\ utcoffset (snd busy) = None.

(** The list [available_slots] before it is sorted. *)
Definition available_slots_of (now : Z) (prefs : preferences)
    (busy_times : list (datetime * datetime))
    (study_duration days_ahead : Z) : result (list slot) :=
  days_loop prefs busy_times study_duration now
    (default default_hours (preferred_study_hours prefs))
    (default default_days (preferred_days prefs)) (range days_ahead) [].

(** A session with another description. *)
Definition with_description (d : string) (s : study_session)
  : study_session :=
  {| sess_title := sess_title s;
     sess_description := d;
     sess_start_time := sess_start_time s;
     sess_end_time := sess_end_time s;
     sess_duration_minutes := sess_duration_minutes s;
     sess_subject := sess_subject s;
     sess_type := sess_type s;
     sess_confidence_score := sess_confidence_score s |}.

Definition result_map {A B : Type} (f : A -> B) (m : result A) : result B :=
  match m with
  | Ok a => Ok (f a)
  | Raise e => Raise e
  end.

(** The minutes of a plan, all sessions together. *)
Definition planned_minutes (sessions : list study_session) : Z :=
  fold_right Z.add 0 (map sess_duration_minutes sessions).

(** The thresholds of the rewards that depend on the streak of a record
    made by the tracker, and the messages in the order of the tests. *)
Definition reward_thresholds : list Z := [7; 21; 30; 50; 70].

Definition all_rewards : list string :=
  [msg_streak_7; msg_streak_21; msg_streak_30; msg_days_50; msg_milestone].

(** The state of the walk is either the initial one or, after a completed
    session, a streak of at least one day with a previous date. *)
Definition streak_state_ok (st : streak_state) : Prop :=
  (fst st = 0 /\ snd st = None) \/ (1 <= fst st /\ is_Some (snd st)).

(** [s] has no character [sep]. *)
Fixpoint free_of (sep : ascii) (s : string) : bool :=
  match s with
  | EmptyString => true
  | String c s' => negb (Ascii.eqb c sep) && free_of sep s'
  end.

(** A row as [update_streak] leaves it: a streak of at least one, equal to
    the longest streak. *)
Definition streak_row_ok (r : streak_row) : Prop :=
  1 <= sr_current_streak r /\ sr_longest_streak r = sr_current_streak r.

(** A sequence of calls of [update_streak]: the table after the last call
    and what each call returned. *)
Fixpoint run_streak_updates (calls : list streak_call)
    (table : list streak_row) : list streak_row * list (result bool) :=
  match calls with
  | [] => (table, [])
  | call :: rest =>
      let step := update_streak (call_db call) (call_now call)
                    (call_user_id call) (call_group_id call) table in
      let run := run_streak_updates rest (fst step) in
      (fst run, snd step :: snd run)
  end.

(** What a call with parameters that SQLite can store returns. *)
Definition outcome_of (db : db_answer) : result bool :=
  match db with
  | Answers => Ok true
  | Refuses => Ok false
  | Unreachable => Raise OperationalError
  end.

(** What a call with a parameter outside 64 bits returns. *)
Definition outcome_of_overflow (db : db_answer) : result bool :=
  match db with
  | Answers | Refuses => Ok false
  | Unreachable => Raise OperationalError
  end.

(** The clock readings of the calls that the database answered. *)
Fixpoint answered (calls : list (db_answer * Z)) : list Z :=
  match calls with
  | [] => []
  | (Answers, now) :: rest => now :: answered rest
  | _ :: rest => answered rest
  end.

(** * Properties *)

(** ** The habit tracker *)

Lemma getitem_Some (d : gmap string pyval) (k : string) (v : pyval) :
  d !! k = Some v -> getitem d k = Ok v.
Proof. intros H. unfold getitem. rewrite H. reflexivity. Qed.

Lemma getitem_None (d : gmap string pyval) (k : string) :
  d !! k = None -> getitem d k = Raise (KeyError k).
Proof. intros H. unfold getitem. rewrite H. reflexivity. Qed.

(** C8: the rewards are determined by the three entries of the progress
    record that the function reads; every threshold that holds contributes
    its message, in the order 7, 21, 30 (streak), 50 (days), milestone; a
    streak of 21 with fewer than 50 days and no milestone gives exactly the
    7-day and the 21-day message. *)
Theorem milestone_rewards_thresholds
    (progress : gmap string pyval) (streak days milestone : pyval) :
  progress !! "current_streak" = Some streak ->
  progress !! "days_completed" = Some days ->
  progress !! "milestone_reached" = Some milestone ->
  get_milestone_rewards progress
    = Ok (rewards_of_table (reward_table streak days milestone))
  /\ (forall n : Z,
        streak = VInt 21 -> days = VInt n -> n < 50 ->
        milestone = VBool false ->
        get_milestone_rewards progress = Ok [msg_streak_7; msg_streak_21]).
Proof.
  intros Hs Hd Hm.
  assert (Hgen : get_milestone_rewards progress
                 = Ok (rewards_of_table (reward_table streak days milestone))).
  { unfold get_milestone_rewards.
    rewrite (getitem_Some _ _ _ Hs), (getitem_Some _ _ _ Hd),
      (getitem_Some _ _ _ Hm).
    unfold rewards_of_table, reward_table. cbn [bind].
    destruct (py_ge streak 7), (py_ge streak 21), (py_ge streak 30),
      (py_ge days 50), (truthy milestone); reflexivity. }
  split; [exact Hgen|].
  intros n -> -> Hn ->. rewrite Hgen.
  unfold rewards_of_table, reward_table.
  assert (Hlt : py_ge (VInt n) 50 = false).
  { unfold py_ge, num. apply not_true_is_false. intros Hle.
    apply Qle_bool_iff in Hle. rewrite <- Zle_Qle in Hle. lia. }
  rewrite Hlt. reflexivity.
Qed.

Lemma streak_step_not_completed (st : streak_state) (session_date : Z) :
  streak_step st session_date false = st.
Proof. destruct st as [current_streak last_date]. reflexivity. Qed.

(** C3, as the code has it: a session that is not completed leaves the
    streak counter and the previous date as they were, whatever its
    date. *)
Theorem incomplete_session_keeps_state (st : streak_state) (session_date : Z) :
  fst (streak_step st session_date false) = fst st
  /\ snd (streak_step st session_date false) = snd st.
Proof. rewrite streak_step_not_completed. split; reflexivity. Qed.

(** A completed session always becomes the previous date. *)
Lemma completed_session_sets_last_date (st : streak_state) (d : Z) :
  snd (streak_step st d true) = Some d.
Proof. destruct st as [current_streak [ld|]]; reflexivity. Qed.

(** X1: sessions that are not completed can be dropped
    from a log whose timestamps all parse: the walk ends in the same
    state, with the same streak and the same previous date. *)
Lemma streak_loop_skips_incomplete (sessions : list session_row)
    (st : streak_state) :
  Forall (fun s => is_Some (fromisoformat (created_at s))) sessions ->
  streak_loop sessions st
    = streak_loop (List.filter completed sessions) st.
Proof.
  intros Hparse. revert st.
  induction Hparse as [|s rest [d Hd] _ IH]; intros st; [reflexivity|].
  cbn [streak_loop List.filter]. unfold parse_iso at 1. rewrite Hd.
  cbn [bind]. destruct (completed s) eqn:Hc.
  - cbn [streak_loop]. unfold parse_iso at 1. rewrite Hd. cbn [bind].
    rewrite Hc. apply IH.
  - rewrite streak_step_not_completed. apply IH.
Qed.

Lemma walked_progress_has_all_keys (current_streak : Z) :
  Forall (fun k => is_Some (walked_progress current_streak !! k))
    progress_keys.
Proof.
  unfold progress_keys. repeat constructor; eexists; reflexivity.
Qed.

(** The path taken for a log that is not empty returns all six keys. *)
Lemma nonempty_log_has_all_keys (sessions : list session_row)
    (progress : gmap string pyval) :
  sessions <> [] ->
  track_habit_progress sessions = Ok progress ->
  Forall (fun k => is_Some (progress !! k)) progress_keys
  /\ exists b, progress !! "milestone_reached" = Some (VBool b).
Proof.
  intros Hne Hrun. destruct sessions as [|s rest]; [congruence|].
  unfold track_habit_progress in Hrun.
  destruct (streak_loop (s :: rest) (0, None)) as [st|e]; [|discriminate].
  cbn [bind] in Hrun. injection Hrun as <-. split.
  - apply walked_progress_has_all_keys.
  - eexists. reflexivity.
Qed.

(** C4, at the empty log: the record returned has five keys, without
    [milestone_reached], and [get_milestone_rewards] raises on it. *)
Theorem empty_log_lacks_milestone_reached :
  track_habit_progress [] = Ok empty_log_progress
  /\ empty_log_progress !! "milestone_reached" = None
  /\ get_milestone_rewards empty_log_progress
     = Raise (KeyError "milestone_reached").
Proof. repeat split. Qed.

(** ** The planner *)

Lemma classify_type_first_match (s : string) :
  classify_type s = first_match type_rules default_type s.
Proof. reflexivity. Qed.

Lemma classify_type_cases (s : string) :
  In (classify_type s) (map snd type_rules ++ [default_type]).
Proof.
  unfold classify_type.
  repeat match goal with
         | |- context [if any_in ?ws s then _ else _] => destruct (any_in ws s)
         end; cbn; auto 10.
Qed.

Lemma replace_hour_valid (t h : Z) :
  valid_hour h -> replace_hour t h = Ok (midnight t + h * US_PER_HOUR).
Proof.
  intros [Hlo Hhi]. unfold replace_hour.
  destruct (0 <=? h) eqn:H0; [|lia]. destruct (h <=? 23) eqn:H1; [|lia].
  reflexivity.
Qed.

(** [l[i % len(l)]] is defined for a list that is not empty and [i >= 0]. *)
Lemma getindex_mod {A : Type} (l : list A) (i : Z) :
  l <> [] -> 0 <= i ->
  exists x,
    l !! Z.to_nat (i mod Z.of_nat (length l)) = Some x
    /\ (do k <- py_mod i (Z.of_nat (length l)); getindex l k) = Ok x.
Proof.
  intros Hne Hi.
  assert (Hlen : 0 < Z.of_nat (length l)) by (destruct l; [congruence|cbn; lia]).
  pose proof (Z.mod_pos_bound i _ Hlen) as [Hk0 Hk1].
  destruct (l !! Z.to_nat (i mod Z.of_nat (length l))) as [x|] eqn:Hx.
  - exists x. split; [reflexivity|].
    unfold py_mod. destruct (Z.of_nat (length l) =? 0) eqn:Hz; [lia|].
    cbn [bind]. unfold getindex.
    destruct (i mod Z.of_nat (length l) <? 0) eqn:Hneg; [lia|].
    rewrite Hneg, Hx. reflexivity.
  - apply lookup_ge_None in Hx. lia.
Qed.



(** C9: the type of a description is that of the first of the six ordered
    rules that matches; the problem set on calculus is a "Problem Set" in
    "Mathematics" of 180 minutes, planned as one session of 180 minutes at
    [preferred_hours[0]] today. *)
Theorem pset_on_calculus_is_one_session (now : Z) (prefs : preferences)
    (hour : Z) (rest : list Z) :
  default default_hours (preferred_study_hours prefs) = hour :: rest ->
  valid_hour hour ->
  (forall s, classify_type s = first_match type_rules default_type s)
  /\ classify_type (lower pset_description) = ("Problem Set", 180)
  /\ classify_subject (lower pset_description) = "Mathematics"
  /\ suggest_study_sessions_from_work now pset_description prefs
     = Ok [ {| sess_title := "Problem Set - Mathematics";
               sess_description :=
                 "Study session for: I need to finish my pset on calculus";
               sess_start_time := midnight now + hour * US_PER_HOUR;
               sess_end_time :=
                 midnight now + hour * US_PER_HOUR + 180 * US_PER_MINUTE;
               sess_duration_minutes := 180;
               sess_subject := "Mathematics";
               sess_type := "Problem Set";
               sess_confidence_score := 0.9%Q |} ].
Proof.
  intros Hhours Hvalid.
  split; [exact classify_type_first_match|].
  split; [reflexivity|]. split; [reflexivity|].
  unfold suggest_study_sessions_from_work.
  change (classify_type (lower pset_description)) with ("Problem Set", 180).
  change (classify_subject (lower pset_description)) with "Mathematics".
  rewrite Hhours. cbn [Z.ltb Z.compare Pos.compare Pos.compare_cont].
  change (getindex (hour :: rest) 0) with (Ok (A:=Z) hour). cbn [bind].
  rewrite (replace_hour_valid now hour Hvalid). cbn [bind].
  reflexivity.
Qed.

(** ** The calendar aggregator *)

Lemma extend_with_feeds_app (urls : list string)
    (start_time end_time : datetime) (all_events : list event) :
  extend_with_feeds urls start_time end_time all_events
    = all_events
      ++ flat_map (fun u => parse_ical_url u start_time end_time) urls.
Proof.
  revert all_events. induction urls as [|u rest IH]; intros all_events.
  - cbn. rewrite app_nil_r. reflexivity.
  - cbn [extend_with_feeds flat_map]. rewrite IH, <- app_assoc. reflexivity.
Qed.

(** Aggregation is the concatenation of the sources, remote calendar
    first. *)
Lemma get_all_events_concat (urls : list string)
    (start_time end_time : datetime) :
  get_all_events urls start_time end_time
    = get_google_events start_time end_time
      ++ flat_map (fun u => parse_ical_url u start_time end_time) urls.
Proof. unfold get_all_events. apply extend_with_feeds_app. Qed.

Lemma request_failure_raises (url : string) (start_time end_time : datetime)
    (e : exn) :
  requests_get url = Raise e ->
  parse_ical_url_body url start_time end_time = Raise e.
Proof. intros H. unfold parse_ical_url_body. rewrite H. reflexivity. Qed.

Lemma error_status_raises (url : string) (start_time end_time : datetime)
    (r : response) :
  requests_get url = Ok r -> 400 <= status_code r < 600 ->
  parse_ical_url_body url start_time end_time = Raise HTTPError.
Proof.
  intros H [Hlo Hhi]. unfold parse_ical_url_body, raise_for_status.
  rewrite H. cbn [bind].
  destruct (400 <=? status_code r) eqn:H1; [|lia].
  destruct (status_code r <? 600) eqn:H2; [|lia]. reflexivity.
Qed.

(** A remote calendar that is absent or whose listing raises gives no
    event. *)
Lemma google_failure_contributes_nothing (start_time end_time : datetime) :
  google_service = None
  \/ (exists list_events e,
        google_service = Some list_events
        /\ list_events start_time end_time = Raise e) ->
  get_google_events start_time end_time = [].
Proof.
  unfold get_google_events.
  intros [->|(list_events & e & -> & Hfail)]; [reflexivity|].
  rewrite Hfail. reflexivity.
Qed.

(** C7: when reading one feed raises, the feed contributes no event and
    the aggregate is what the remote calendar and the other feeds give, in
    their order; the failure does not reach the caller, and the busy
    intervals are those of the other sources. *)
Theorem failed_feed_contributes_nothing (before after : list string)
    (url : string) (start_time end_time : datetime) (e : exn) :
  parse_ical_url_body url start_time end_time = Raise e ->
  parse_ical_url url start_time end_time = []
  /\ get_all_events (before ++ url :: after) start_time end_time
     = get_google_events start_time end_time
       ++ flat_map (fun u => parse_ical_url u start_time end_time) before
       ++ flat_map (fun u => parse_ical_url u start_time end_time) after
  /\ get_all_events (before ++ url :: after) start_time end_time
     = get_all_events (before ++ after) start_time end_time
  /\ busy_times_of
       (get_all_events (before ++ url :: after) start_time end_time)
     = busy_times_of (get_all_events (before ++ after) start_time end_time).
Proof.
  intros Hfail.
  assert (Hnone : parse_ical_url url start_time end_time = []).
  { unfold parse_ical_url. rewrite Hfail. reflexivity. }
  assert (Hsame : get_all_events (before ++ url :: after) start_time end_time
                  = get_all_events (before ++ after) start_time end_time).
  { rewrite !get_all_events_concat, !flat_map_app. cbn [flat_map].
    rewrite Hnone. reflexivity. }
  split; [exact Hnone|]. split; [|split].
  - rewrite Hsame, get_all_events_concat, flat_map_app. reflexivity.
  - exact Hsame.
  - rewrite Hsame. reflexivity.
Qed.

(** ** The scheduler: what the loops produce *)

Lemma midnight_replace_hour (t h slot_start : Z) :
  replace_hour t h = Ok slot_start ->
  valid_hour h /\ slot_start = midnight t + h * US_PER_HOUR.
Proof.
  unfold replace_hour, valid_hour, midnight.
  destruct (0 <=? h) eqn:H0; destruct (h <=? 23) eqn:H1; cbn;
    intros H; try discriminate H.
  injection H as <-. split; [lia|reflexivity].
Qed.

Lemma hours_loop_inv (prefs : preferences)
    (busy_times : list (datetime * datetime)) (study_duration : Z)
    (current_date : Z) (hours : list Z) (acc out : list slot) :
  hours_loop prefs busy_times study_duration current_date hours acc = Ok out ->
  exists new,
    out = acc ++ new
    /\ Forall (fun s => exists hour,
                 hour ∈ hours
                 /\ made_at prefs busy_times study_duration current_date
                      hour s) new.
Proof.
  revert acc. induction hours as [|hour rest IH]; intros acc Hrun.
  - cbn in Hrun. injection Hrun as <-. exists []. rewrite app_nil_r.
    split; [reflexivity|constructor].
  - cbn [hours_loop] in Hrun.
    destruct (replace_hour current_date hour) as [slot_start|e] eqn:Hrep;
      [|discriminate]. cbn [bind] in Hrun.
    destruct (conflicts busy_times slot_start
                (add_minutes slot_start study_duration))
      as [conflict|e] eqn:Hconf; [|discriminate]. cbn [bind] in Hrun.
    destruct conflict; cbn [negb] in Hrun.
    + destruct (IH _ Hrun) as (new & -> & Hnew). exists new.
      split; [reflexivity|].
      eapply Forall_impl; [exact Hnew|]. intros s (h & Hh & Hs).
      exists h. split; [right; exact Hh|exact Hs].
    + destruct (suggest_subject slot_start prefs) as [subject|e] eqn:Hsub;
        [|discriminate]. cbn [bind] in Hrun.
      destruct (IH _ Hrun) as (new & -> & Hnew).
      eexists (_ :: new). rewrite <- app_assoc. split; [reflexivity|].
      constructor.
      * exists hour. split; [left|].
        destruct (midnight_replace_hour _ _ _ Hrep) as [Hv Hst].
        unfold made_at. cbn. repeat split; try assumption; apply Hv.
      * eapply Forall_impl; [exact Hnew|]. intros s (h & Hh & Hs).
        exists h. split; [right; exact Hh|exact Hs].
Qed.

Lemma days_loop_inv (prefs : preferences)
    (busy_times : list (datetime * datetime)) (study_duration now : Z)
    (offsets : list Z) (acc out : list slot) :
  days_loop prefs busy_times study_duration now
    (default default_hours (preferred_study_hours prefs))
    (default default_days (preferred_days prefs)) offsets acc = Ok out ->
  exists new,
    out = acc ++ new
    /\ Forall (generated now prefs busy_times study_duration offsets) new.
Proof.
  revert acc. induction offsets as [|d rest IH]; intros acc Hrun.
  - cbn in Hrun. injection Hrun as <-. exists []. rewrite app_nil_r.
    split; [reflexivity|constructor].
  - cbn [days_loop] in Hrun.
    assert (Hweaken : forall l,
      Forall (generated now prefs busy_times study_duration rest) l ->
      Forall (generated now prefs busy_times study_duration (d :: rest)) l).
    { intros l Hl. eapply Forall_impl; [exact Hl|].
      intros s (d' & h & Hd' & Hrest).
      exists d', h. split; [right; exact Hd'|exact Hrest]. }
    destruct (bool_decide (weekday (add_days now d)
                ∈ default default_days (preferred_days prefs))) eqn:Hday;
      cbn [negb] in Hrun.
    + destruct (hours_loop prefs busy_times study_duration (add_days now d)
                  (default default_hours (preferred_study_hours prefs)) acc)
        as [mid|e] eqn:Hhours; [|discriminate]. cbn [bind] in Hrun.
      apply hours_loop_inv in Hhours. destruct Hhours as (new1 & -> & Hnew1).
      destruct (IH _ Hrun) as (new2 & -> & Hnew2).
      exists (new1 ++ new2). rewrite <- app_assoc. split; [reflexivity|].
      apply Forall_app. split; [|apply Hweaken; exact Hnew2].
      eapply Forall_impl; [exact Hnew1|]. intros s (h & Hh & Hs).
      exists d, h. apply bool_decide_eq_true in Hday.
      split; [left|]. split; [exact Hday|]. split; assumption.
    + destruct (IH _ Hrun) as (new & -> & Hnew). exists new.
      split; [reflexivity|apply Hweaken; exact Hnew].
Qed.

Lemma insert_desc_perm (x : slot) (l : list slot) :
  insert_desc x l ≡ₚ x :: l.
Proof.
  induction l as [|y l IH]; [reflexivity|]. cbn [insert_desc].
  destruct (Qlt_bool _ _); [|reflexivity].
  rewrite IH. apply Permutation_swap.
Qed.

Lemma sort_desc_perm (l : list slot) : sort_desc l ≡ₚ l.
Proof.
  induction l as [|x l IH]; [reflexivity|]. cbn [sort_desc fold_right].
  rewrite insert_desc_perm. fold (sort_desc l). rewrite IH. reflexivity.
Qed.

Lemma top10_elem_of (s : slot) (l : list slot) :
  s ∈ take 10 (sort_desc l) -> s ∈ l.
Proof.
  intros Hs. rewrite <- (sort_desc_perm l).
  eapply elem_of_sublist; [exact Hs|apply sublist_take].
Qed.

(** Every slot of a result was produced by the loops, at an offset of
    [range(days_ahead)]. *)
Lemma returned_slots_generated (now : Z) (prefs : preferences)
    (study_duration days_ahead : Z) (slots : list slot) (s : slot) :
  find_optimal_study_times now prefs study_duration days_ahead = Ok slots ->
  s ∈ slots ->
  generated now prefs (busy_times_at now prefs days_ahead) study_duration
    (range days_ahead) s.
Proof.
  unfold find_optimal_study_times. intros Hrun Hs.
  destruct (days_loop _ _ _ _ _ _ _ _) as [available|e] eqn:Hloop;
    [|discriminate]. cbn [bind] in Hrun. injection Hrun as <-.
  apply top10_elem_of in Hs.
  apply days_loop_inv in Hloop. destruct Hloop as (new & -> & Hnew).
  cbn [app] in Hs. rewrite Forall_forall in Hnew. exact (Hnew s Hs).
Qed.

(** ** The scheduler: conflicts *)

Lemma conflicts_false_all (busy_times : list (datetime * datetime))
    (slot_start slot_end : Z) :
  conflicts busy_times slot_start slot_end = Ok false ->
  forall busy, busy ∈ busy_times -> overlaps slot_start slot_end busy = Ok false.
Proof.
  induction busy_times as [|b rest IH]; intros Hrun busy Hin.
  - apply elem_of_nil in Hin. contradiction.
  - cbn [conflicts] in Hrun.
    destruct (overlaps slot_start slot_end b) as [[|]|e] eqn:Hov;
      cbn [bind] in Hrun; try discriminate Hrun.
    apply elem_of_cons in Hin. destruct Hin as [->|Hin]; [exact Hov|].
    apply IH; assumption.
Qed.

Lemma overlaps_false_no_overlap (slot_start slot_end : Z)
    (busy_start busy_end : datetime) :
  overlaps slot_start slot_end (busy_start, busy_end) = Ok false ->
  ~ (dt_lt (naive slot_start) busy_end = Ok true
     /\ dt_lt busy_start (naive slot_end) = Ok true).
Proof.
  unfold overlaps. intros Hov [H1 H2]. rewrite H1 in Hov. cbn [bind] in Hov.
  congruence.
Qed.

(** C1: no returned slot overlaps a busy interval of the aggregated
    events: the overlap test of the code is false on every pair, so it is
    never the case that the slot starts before the interval ends and ends
    after the interval starts. *)
Theorem returned_slots_avoid_busy (now : Z) (prefs : preferences)
    (study_duration days_ahead : Z) (slots : list slot) (s : slot)
    (busy_start busy_end : datetime) :
  find_optimal_study_times now prefs study_duration days_ahead = Ok slots ->
  s ∈ slots ->
  (busy_start, busy_end) ∈ busy_times_at now prefs days_ahead ->
  overlaps (slot_start_time s) (slot_end_time s) (busy_start, busy_end)
    = Ok false
  /\ ~ (dt_lt (naive (slot_start_time s)) busy_end = Ok true
        /\ dt_lt busy_start (naive (slot_end_time s)) = Ok true)
  /\ (forall ts te : Z,
        busy_start = naive ts -> busy_end = naive te ->
        ~ (slot_start_time s < te /\ slot_end_time s > ts)).
Proof.
  intros Hrun Hs Hbusy.
  destruct (returned_slots_generated _ _ _ _ _ _ Hrun Hs)
    as (d & h & _ & _ & _ & Hmade).
  destruct Hmade as (_ & _ & _ & _ & Hconf & _).
  pose proof (conflicts_false_all _ _ _ Hconf _ Hbusy) as Hov.
  split; [exact Hov|]. split.
  - apply overlaps_false_no_overlap. exact Hov.
  - intros ts te -> -> [H1 H2].
    apply (overlaps_false_no_overlap _ _ _ _ Hov).
    unfold dt_lt, naive. cbn. split; f_equal; lia.
Qed.

(** ** The scheduler: size and window of the result *)

Lemma midnight_add_days (t d : Z) :
  midnight (add_days t d) = midnight t + d * US_PER_DAY.
Proof.
  unfold midnight, add_days, US_PER_DAY. rewrite Z.div_add by lia. lia.
Qed.

Lemma midnight_le (t : Z) : midnight t <= t < midnight t + US_PER_DAY.
Proof.
  unfold midnight, US_PER_DAY.
  pose proof (Z.mod_pos_bound t 86400000000 ltac:(lia)).
  pose proof (Z.div_mod t 86400000000 ltac:(lia)). lia.
Qed.

(** C2, as the code has it: at most 10 slots are returned, and every one
    starts on or after the start of the day of the call and before
    [now + days_ahead] days. *)
Theorem returned_slots_bounded (now : Z) (prefs : preferences)
    (study_duration days_ahead : Z) (slots : list slot) :
  find_optimal_study_times now prefs study_duration days_ahead = Ok slots ->
  (length slots <= 10)%nat
  /\ forall s, s ∈ slots ->
       midnight now <= slot_start_time s < add_days now days_ahead.
Proof.
  intros Hrun. split.
  - unfold find_optimal_study_times in Hrun.
    destruct (days_loop _ _ _ _ _ _ _ _) as [available|e];
      [|discriminate]. cbn [bind] in Hrun. injection Hrun as <-.
    rewrite length_take. lia.
  - intros s Hs.
    destruct (returned_slots_generated _ _ _ _ _ _ Hrun Hs)
      as (d & h & Hd & _ & _ & Hmade).
    destruct Hmade as ([Hh0 Hh1] & Hstart & _).
    unfold range in Hd. apply elem_of_seqZ in Hd.
    rewrite Hstart, midnight_add_days.
    pose proof (midnight_le now) as Hmid.
    unfold add_days, US_PER_DAY, US_PER_HOUR in *. lia.
Qed.

(** ** The scheduler: scores *)

Lemma made_at_weekday (t h : Z) :
  valid_hour h -> weekday (midnight t + h * US_PER_HOUR) = weekday t.
Proof.
  intros [H0 H1]. unfold weekday, midnight. f_equal.
  unfold US_PER_DAY, US_PER_HOUR.
  symmetry. apply (Z.div_unique_pos _ _ _ (h * 3600000000)); lia.
Qed.

Lemma made_at_hour (t h : Z) :
  valid_hour h -> hour_of (midnight t + h * US_PER_HOUR) = h.
Proof.
  intros [H0 H1]. unfold hour_of, midnight, US_PER_DAY, US_PER_HOUR.
  replace ((t / 86400000000 * 86400000000 + h * 3600000000) mod 86400000000)
    with (h * 3600000000).
  - apply Z.div_mul. lia.
  - apply (Z.mod_unique_pos _ _ (t / 86400000000)); lia.
Qed.

(** The score as the source computes it, with the bucket made explicit. *)
Lemma returned_score_by_bucket (now : Z) (prefs : preferences)
    (study_duration days_ahead : Z) (slots : list slot) (s : slot) :
  find_optimal_study_times now prefs study_duration days_ahead = Ok slots ->
  s ∈ slots ->
  let hour := hour_of (slot_start_time s) in
  hour ∈ default default_hours (preferred_study_hours prefs)
  /\ weekday (slot_start_time s) ∈ default default_days (preferred_days prefs)
  /\ (slot_confidence_score s
       == Qmin (bucket_weight prefs (bucket_of_hour hour) + 0.2) 1)%Q.
Proof.
  intros Hrun Hs hour.
  destruct (returned_slots_generated _ _ _ _ _ _ Hrun Hs)
    as (d & h & _ & Hday & Hh & Hmade).
  destruct Hmade as (Hv & Hstart & _ & _ & _ & Hscore & _).
  assert (Hhour : hour = h).
  { subst hour. rewrite Hstart. apply made_at_hour. exact Hv. }
  assert (Hwd : weekday (slot_start_time s) = weekday (add_days now d)).
  { rewrite Hstart. apply made_at_weekday. exact Hv. }
  split; [rewrite Hhour; exact Hh|].
  split; [rewrite Hwd; exact Hday|].
  rewrite Hscore. unfold calculate_confidence_score. fold hour.
  rewrite Hwd. rewrite bool_decide_eq_true_2 by exact Hday.
  rewrite Qplus_0_l. reflexivity.
Qed.

Lemma capped_sum_bounds (w : Q) :
  (0 <= w <= 1)%Q -> (0 <= Qmin (w + 0.2) 1 <= 1)%Q.
Proof.
  intros [Hw0 Hw1]. split.
  - apply Q.min_glb; [|discriminate].
    apply Qle_trans with (w + 0)%Q.
    + rewrite Qplus_0_r. exact Hw0.
    + apply Qplus_le_r. discriminate.
  - apply Q.le_min_r.
Qed.

(** C6: a returned slot starts at a preferred hour of a preferred day, and
    its score is the time-of-day weight of its hour plus the 0.2 of a
    preferred day, capped at 1, where the weight is the morning weight
    (0.8 unless the caller gives one) for the hours 6 to 9, the midday
    weight (0.6) for 10 to 14, the afternoon weight (0.7) for 15 to 18 and
    the evening weight (0.5) for every other hour; with the four weights
    in [0, 1] the score is in [0, 1]. *)
Theorem returned_score_is_capped_sum (now : Z) (prefs : preferences)
    (study_duration days_ahead : Z) (slots : list slot) (s : slot) :
  find_optimal_study_times now prefs study_duration days_ahead = Ok slots ->
  s ∈ slots ->
  let hour := hour_of (slot_start_time s) in
  let score := slot_confidence_score s in
  let morning := default 0.8%Q (morning_preference prefs) in
  let midday := default 0.6%Q (midday_preference prefs) in
  let afternoon := default 0.7%Q (afternoon_preference prefs) in
  let evening := default 0.5%Q (evening_preference prefs) in
  hour ∈ default default_hours (preferred_study_hours prefs)
  /\ weekday (slot_start_time s) ∈ default default_days (preferred_days prefs)
  /\ (6 <= hour <= 9 -> (score == Qmin (morning + 0.2) 1)%Q)
  /\ (10 <= hour <= 14 -> (score == Qmin (midday + 0.2) 1)%Q)
  /\ (15 <= hour <= 18 -> (score == Qmin (afternoon + 0.2) 1)%Q)
  /\ (hour < 6 \/ 18 < hour -> (score == Qmin (evening + 0.2) 1)%Q)
  /\ ((0 <= morning <= 1)%Q -> (0 <= midday <= 1)%Q ->
      (0 <= afternoon <= 1)%Q -> (0 <= evening <= 1)%Q ->
      (0 <= score <= 1)%Q).
Proof.
  intros Hrun Hs hour score morning midday afternoon evening.
  destruct (returned_score_by_bucket _ _ _ _ _ _ Hrun Hs)
    as (Hhour & Hday & Hscore).
  fold hour score in Hscore. fold hour.
  split; [exact Hhour|]. split; [exact Hday|].
  unfold bucket_of_hour in Hscore.
  destruct (6 <=? hour) eqn:H6; destruct (hour <=? 9) eqn:H9;
    destruct (10 <=? hour) eqn:H10; destruct (hour <=? 14) eqn:H14;
    destruct (15 <=? hour) eqn:H15; destruct (hour <=? 18) eqn:H18;
    cbn [andb bucket_weight] in Hscore;
    fold morning midday afternoon evening in Hscore;
    (split; [|split; [|split; [|split]]];
     [ intros ?; try lia; exact Hscore
     | intros ?; try lia; exact Hscore
     | intros ?; try lia; exact Hscore
     | intros ?; try lia; exact Hscore
     | intros Hm Hd Ha He; rewrite Hscore; apply capped_sum_bounds;
       assumption ]).
Qed.

(** ** The scheduler: an empty list of subjects *)

Lemma suggest_subject_empty (slot_time : Z) (prefs : preferences) :
  subjects prefs = Some [] ->
  suggest_subject slot_time prefs = Raise ZeroDivisionError.
Proof. intros H. unfold suggest_subject. rewrite H. reflexivity. Qed.

Lemma hours_loop_raises (prefs : preferences)
    (busy_times : list (datetime * datetime)) (study_duration : Z)
    (current_date : Z) (hours : list Z) (acc : list slot) (hour : Z)
    (slot_start : Z) :
  subjects prefs = Some [] ->
  hour ∈ hours ->
  replace_hour current_date hour = Ok slot_start ->
  conflicts busy_times slot_start (add_minutes slot_start study_duration)
    = Ok false ->
  exists e,
    hours_loop prefs busy_times study_duration current_date hours acc
      = Raise e.
Proof.
  intros Hsub Hin Hrep Hfree. revert acc.
  induction hours as [|h0 rest IH]; intros acc.
  - apply elem_of_nil in Hin. contradiction.
  - cbn [hours_loop].
    destruct (replace_hour current_date h0) as [start0|e] eqn:Hrep0;
      [|exists e; reflexivity]. cbn [bind].
    destruct (conflicts busy_times start0 (add_minutes start0 study_duration))
      as [[|]|e] eqn:Hconf0; cbn [bind negb]; [| |exists e; reflexivity].
    + apply elem_of_cons in Hin. destruct Hin as [->|Hin].
      * rewrite Hrep in Hrep0. injection Hrep0 as <-. congruence.
      * apply IH. exact Hin.
    + rewrite (suggest_subject_empty _ _ Hsub). eexists. reflexivity.
Qed.

Lemma days_loop_raises (prefs : preferences)
    (busy_times : list (datetime * datetime)) (study_duration now : Z)
    (offsets : list Z) (acc : list slot) (day_offset hour slot_start : Z) :
  subjects prefs = Some [] ->
  day_offset ∈ offsets ->
  weekday (add_days now day_offset)
    ∈ default default_days (preferred_days prefs) ->
  hour ∈ default default_hours (preferred_study_hours prefs) ->
  replace_hour (add_days now day_offset) hour = Ok slot_start ->
  conflicts busy_times slot_start (add_minutes slot_start study_duration)
    = Ok false ->
  exists e,
    days_loop prefs busy_times study_duration now
      (default default_hours (preferred_study_hours prefs))
      (default default_days (preferred_days prefs)) offsets acc = Raise e.
Proof.
  intros Hsub Hin Hday Hhour Hrep Hfree. revert acc.
  induction offsets as [|d0 rest IH]; intros acc.
  - apply elem_of_nil in Hin. contradiction.
  - cbn [days_loop].
    destruct (bool_decide (weekday (add_days now d0)
                ∈ default default_days (preferred_days prefs))) eqn:Hd0;
      cbn [negb].
    + destruct (hours_loop prefs busy_times study_duration (add_days now d0)
                  (default default_hours (preferred_study_hours prefs)) acc)
        as [mid|e] eqn:Hhours; [|exists e; reflexivity]. cbn [bind].
      apply elem_of_cons in Hin. destruct Hin as [->|Hin].
      * destruct (hours_loop_raises prefs busy_times study_duration
                    (add_days now d0) _ acc hour slot_start
                    Hsub Hhour Hrep Hfree) as [e He].
        congruence.
      * apply IH. exact Hin.
    + apply elem_of_cons in Hin. destruct Hin as [->|Hin].
      * apply bool_decide_eq_false in Hd0. contradiction.
      * apply IH. exact Hin.
Qed.

(** C10: with [subjects] given as the empty list the subject suggestion
    divides by zero, and a call in which some candidate slot passes the
    conflict filter raises instead of returning a list. *)
Theorem empty_subjects_raise (now : Z) (prefs : preferences)
    (study_duration days_ahead : Z) (day_offset hour : Z) :
  subjects prefs = Some [] ->
  survives now prefs (busy_times_at now prefs days_ahead) study_duration
    days_ahead day_offset hour ->
  (forall slot_time,
     suggest_subject slot_time prefs = Raise ZeroDivisionError)
  /\ (exists e,
        find_optimal_study_times now prefs study_duration days_ahead
          = Raise e)
  /\ (forall slots,
        find_optimal_study_times now prefs study_duration days_ahead
          <> Ok slots).
Proof.
  intros Hsub (Hd & Hday & Hhour & slot_start & Hrep & Hfree).
  assert (Hraise : exists e,
            find_optimal_study_times now prefs study_duration days_ahead
              = Raise e).
  { unfold find_optimal_study_times.
    destruct (days_loop_raises prefs (busy_times_at now prefs days_ahead)
                study_duration now (range days_ahead) [] day_offset hour
                slot_start Hsub) as [e He]; try assumption.
    - unfold range. apply elem_of_seqZ. lia.
    - exists e. rewrite He. reflexivity. }
  split; [intros t; apply suggest_subject_empty; exact Hsub|].
  split; [exact Hraise|].
  intros slots Hok. destruct Hraise as [e He]. congruence.
Qed.

(** ** The scheduler: when a list is returned *)

Lemma conflicts_naive_ok (busy_times : list (datetime * datetime))
    (slot_start slot_end : Z) :
  Forall naive_interval busy_times ->
  exists c, conflicts busy_times slot_start slot_end = Ok c.
Proof.
  induction 1 as [|[bs be] rest [Hs He] _ [c IH]]; [exists false; reflexivity|].
  cbn [conflicts overlaps]. cbn [fst snd] in Hs, He.
  unfold dt_lt, naive. cbn [utcoffset wall]. rewrite Hs, He. cbn [bind].
  destruct (slot_start <? wall be); cbn [bind].
  - destruct (wall bs <? slot_end); [exists true; reflexivity|].
    exists c. exact IH.
  - exists c. exact IH.
Qed.

Lemma weekday_range (t : Z) : 0 <= weekday t < 7.
Proof. unfold weekday. apply Z.mod_pos_bound. lia. Qed.

Lemma suggest_subject_ok (slot_time : Z) (prefs : preferences) :
  default default_subjects (subjects prefs) <> [] ->
  exists subject, suggest_subject slot_time prefs = Ok subject.
Proof.
  intros Hne. unfold suggest_subject.
  destruct (getindex_mod _ (weekday slot_time) Hne
              (proj1 (weekday_range slot_time))) as (x & _ & Hx).
  exists x. exact Hx.
Qed.

Lemma hours_loop_ok (prefs : preferences)
    (busy_times : list (datetime * datetime)) (study_duration : Z)
    (current_date : Z) (hours : list Z) (acc : list slot) :
  Forall valid_hour hours ->
  Forall naive_interval busy_times ->
  default default_subjects (subjects prefs) <> [] ->
  exists out,
    hours_loop prefs busy_times study_duration current_date hours acc
      = Ok out.
Proof.
  intros Hhours Hbusy Hsub. revert acc.
  induction Hhours as [|h rest Hh _ IH]; intros acc;
    [exists acc; reflexivity|].
  cbn [hours_loop]. rewrite (replace_hour_valid _ _ Hh). cbn [bind].
  destruct (conflicts_naive_ok busy_times
              (midnight current_date + h * US_PER_HOUR)
              (add_minutes (midnight current_date + h * US_PER_HOUR)
                 study_duration) Hbusy) as [c ->].
  cbn [bind]. destruct c; cbn [negb]; [apply IH|].
  destruct (suggest_subject_ok (midnight current_date + h * US_PER_HOUR)
              prefs Hsub) as [subject ->].
  cbn [bind]. apply IH.
Qed.

Lemma days_loop_ok (prefs : preferences)
    (busy_times : list (datetime * datetime)) (study_duration now : Z)
    (hours days offsets : list Z) (acc : list slot) :
  Forall valid_hour hours ->
  Forall naive_interval busy_times ->
  default default_subjects (subjects prefs) <> [] ->
  exists out,
    days_loop prefs busy_times study_duration now hours days offsets acc
      = Ok out.
Proof.
  intros Hhours Hbusy Hsub. revert acc.
  induction offsets as [|d rest IH]; intros acc; [exists acc; reflexivity|].
  cbn [days_loop]. destruct (negb _); [apply IH|].
  destruct (hours_loop_ok prefs busy_times study_duration (add_days now d)
              hours acc Hhours Hbusy Hsub) as [mid ->].
  cbn [bind]. apply IH.
Qed.

(** With hours of the day as preferred hours, a list of subjects that is
    not empty and naive busy intervals, the call returns a list. *)
Lemma find_optimal_study_times_returns (now : Z) (prefs : preferences)
    (study_duration days_ahead : Z) :
  Forall valid_hour (default default_hours (preferred_study_hours prefs)) ->
  Forall naive_interval (busy_times_at now prefs days_ahead) ->
  default default_subjects (subjects prefs) <> [] ->
  exists slots,
    find_optimal_study_times now prefs study_duration days_ahead = Ok slots.
Proof.
  intros Hhours Hbusy Hsub. unfold find_optimal_study_times.
  destruct (days_loop_ok prefs (busy_times_at now prefs days_ahead)
              study_duration now
              (default default_hours (preferred_study_hours prefs))
              (default default_days (preferred_days prefs))
              (range days_ahead) [] Hhours Hbusy Hsub) as [out ->].
  cbn [bind]. eexists. reflexivity.
Qed.

(** * Further properties *)

(** ** Reading feeds and aggregating events *)

Lemma dt_le_true_same_kind (a b : datetime) :
  dt_le a b = Ok true ->
  (utcoffset a = None <-> utcoffset b = None)
  /\ (utcoffset a = None -> wall a <= wall b).
Proof.
  unfold dt_le. destruct (utcoffset a), (utcoffset b); intros H;
    try discriminate H.
  - split; [split; discriminate|discriminate].
  - injection H as H. split; [tauto|]. intros _. lia.
Qed.

(** X2: every event that [parse_ical_url] returns is marked
    with the source "ical" and has a start whose reading lies in the
    window, both ends included; with a naive window it is a naive
    reading, so an event whose start carries a UTC offset is dropped. *)
Theorem parsed_feed_events_in_window (url : string)
    (start_time end_time : datetime) (e : event) :
  e ∈ parse_ical_url url start_time end_time ->
  ev_source e = Some "ical"
  /\ exists s d,
       ev_start e = Some s
       /\ fromisoformat (replace_Z s) = Some d
       /\ dt_le start_time d = Ok true
       /\ dt_le d end_time = Ok true
       /\ (utcoffset start_time = None ->
           utcoffset d = None /\ wall start_time <= wall d).
Proof.
  unfold parse_ical_url, try_except. intros Hin.
  destruct (parse_ical_url_body url start_time end_time) as [events|err] eqn:Hbody;
    [|apply elem_of_nil in Hin; contradiction].
  unfold parse_ical_url_body in Hbody.
  destruct (requests_get url) as [resp|?]; [|discriminate]. cbn [bind] in Hbody.
  destruct (raise_for_status resp); [|discriminate]. cbn [bind] in Hbody.
  injection Hbody as <-.
  apply list_elem_of_In, in_flat_map in Hin. destruct Hin as (e0 & _ & Hin).
  unfold filter_event in Hin.
  destruct (ev_start e0) as [s|] eqn:Hs; [|contradiction].
  unfold try_except, parse_iso in Hin.
  destruct (fromisoformat (replace_Z s)) as [d|] eqn:Hd; [|contradiction].
  cbn [bind] in Hin. unfold dt_between in Hin.
  destruct (dt_le start_time d) as [[|]|?] eqn:Hlo; cbn [bind] in Hin;
    try contradiction.
  destruct (dt_le d end_time) as [[|]|?] eqn:Hhi; cbn [bind] in Hin;
    try contradiction.
  destruct Hin as [<-|[]]. split; [reflexivity|].
  exists s, d. cbn [set_source ev_start].
  repeat (split; [assumption|]).
  intros Hnaive. destruct (dt_le_true_same_kind _ _ Hlo) as [Hkind Hwall].
  split; [apply Hkind; exact Hnaive|apply Hwall; exact Hnaive].
Qed.

Lemma ical_line_inv (st : event * list event) (line : string) :
  Forall (fun e => event_nonempty e = true /\ ev_source e = None) (snd st) ->
  ev_source (fst st) = None ->
  Forall (fun e => event_nonempty e = true /\ ev_source e = None)
    (snd (ical_line st line))
  /\ ev_source (fst (ical_line st line)) = None
  /\ (length (snd (ical_line st line))
      <= length (snd st)
         + (if String.eqb (strip line) "END:VEVENT" then 1 else 0))%nat.
Proof.
  destruct st as [cur events]. cbn [fst snd]. intros Hall Hsrc.
  unfold ical_line.
  destruct (String.eqb (strip line) "BEGIN:VEVENT") eqn:Hbegin.
  { apply String.eqb_eq in Hbegin. rewrite Hbegin. cbn.
    repeat split; [exact Hall|lia]. }
  destruct (String.eqb (strip line) "END:VEVENT").
  { cbn [fst snd]. destruct (event_nonempty cur) eqn:Hne.
    - repeat split.
      + apply Forall_app. split; [exact Hall|]. repeat constructor; assumption.
      + rewrite length_app. cbn. lia.
    - repeat split; [exact Hall|lia]. }
  repeat match goal with
         | |- context [if ?b then _ else _] => destruct b
         end; cbn [fst snd set_title set_start set_end set_description
                   ev_source];
    repeat split; try assumption; lia.
Qed.

(** X3: the scan of a feed never yields an event without a
    key, never sets a source, and yields at most one event for each line
    that reads [END:VEVENT]. *)
Theorem ical_events_are_closed_blocks (feed_text : string) :
  Forall (fun e => event_nonempty e = true /\ ev_source e = None)
    (ical_events feed_text)
  /\ (length (ical_events feed_text)
      <= length (List.filter (fun line => String.eqb (strip line) "END:VEVENT")
                   (split_lines feed_text)))%nat.
Proof.
  unfold ical_events.
  assert (Hgen : forall lines st,
    Forall (fun e => event_nonempty e = true /\ ev_source e = None) (snd st) ->
    ev_source (fst st) = None ->
    Forall (fun e => event_nonempty e = true /\ ev_source e = None)
      (snd (fold_left ical_line lines st))
    /\ (length (snd (fold_left ical_line lines st))
        <= length (snd st)
           + length (List.filter
                       (fun line => String.eqb (strip line) "END:VEVENT")
                       lines))%nat).
  { induction lines as [|line rest IH]; intros st Hall Hsrc.
    - cbn. split; [exact Hall|lia].
    - cbn [fold_left List.filter].
      destruct (ical_line_inv st line Hall Hsrc) as (Hall' & Hsrc' & Hlen).
      destruct (IH _ Hall' Hsrc') as [Hres Hlen']. split; [exact Hres|].
      destruct (String.eqb (strip line) "END:VEVENT"); cbn [length] in *; lia. }
  destruct (Hgen (split_lines feed_text) (empty_event, [])) as [H1 H2];
    [constructor|reflexivity|].
  split; [exact H1|exact H2].
Qed.

(** X4: the aggregate of two lists of feeds is the
    aggregate of the first followed by the events of each feed of the
    second, in order; nothing is merged or removed, so a feed listed twice
    contributes twice. *)
Theorem get_all_events_app (urls1 urls2 : list string)
    (start_time end_time : datetime) :
  get_all_events (urls1 ++ urls2) start_time end_time
    = get_all_events urls1 start_time end_time
      ++ flat_map (fun u => parse_ical_url u start_time end_time) urls2
  /\ forall url,
       get_all_events (urls1 ++ [url; url]) start_time end_time
       = get_all_events urls1 start_time end_time
         ++ parse_ical_url url start_time end_time
         ++ parse_ical_url url start_time end_time.
Proof.
  assert (Happ : forall l1 l2,
    get_all_events (l1 ++ l2) start_time end_time
    = get_all_events l1 start_time end_time
      ++ flat_map (fun u => parse_ical_url u start_time end_time) l2).
  { intros l1 l2. rewrite !get_all_events_concat, flat_map_app, app_assoc.
    reflexivity. }
  split; [apply Happ|].
  intros url. rewrite Happ. cbn [flat_map]. rewrite app_nil_r. reflexivity.
Qed.

(** X5: the busy intervals are exactly the pairs of readings of
    the start and the end of the events that have both keys with texts
    that parse; any other event is passed over. *)
Theorem busy_times_of_events (existing_events : list event)
    (busy_start busy_end : datetime) :
  (busy_start, busy_end) ∈ busy_times_of existing_events
  <-> exists e s1 s2,
        e ∈ existing_events
        /\ ev_start e = Some s1 /\ ev_end e = Some s2
        /\ fromisoformat (replace_Z s1) = Some busy_start
        /\ fromisoformat (replace_Z s2) = Some busy_end.
Proof.
  unfold busy_times_of. rewrite list_elem_of_In, in_flat_map. split.
  - intros (e & He & Hin). exists e.
    unfold busy_of_event, try_except, event_field, parse_iso in Hin.
    destruct (ev_start e) as [s1|]; [|contradiction]. cbn [bind] in Hin.
    destruct (fromisoformat (replace_Z s1)) as [d1|] eqn:H1; [|contradiction].
    cbn [bind] in Hin.
    destruct (ev_end e) as [s2|]; [|contradiction]. cbn [bind] in Hin.
    destruct (fromisoformat (replace_Z s2)) as [d2|] eqn:H2; [|contradiction].
    cbn [bind] in Hin. destruct Hin as [Heq|[]]. injection Heq as <- <-.
    exists s1, s2. apply list_elem_of_In in He. auto.
  - intros (e & s1 & s2 & He & Hs1 & Hs2 & H1 & H2). exists e.
    split; [apply list_elem_of_In; exact He|].
    unfold busy_of_event, try_except, event_field, parse_iso.
    rewrite Hs1, Hs2. cbn [bind]. rewrite H1. cbn [bind]. rewrite H2.
    cbn [bind]. left. reflexivity.
Qed.

(** ** Which candidates are returned *)

Lemma find_optimal_study_times_unfold (now : Z) (prefs : preferences)
    (study_duration days_ahead : Z) (slots : list slot) :
  find_optimal_study_times now prefs study_duration days_ahead = Ok slots ->
  exists available,
    available_slots_of now prefs (busy_times_at now prefs days_ahead)
      study_duration days_ahead = Ok available
    /\ slots = take 10 (sort_desc available).
Proof.
  unfold find_optimal_study_times, available_slots_of. intros Hrun.
  destruct (days_loop _ _ _ _ _ _ _ _) as [available|e]; [|discriminate].
  cbn [bind] in Hrun. injection Hrun as <-. exists available.
  split; reflexivity.
Qed.

Lemma hours_loop_complete (prefs : preferences)
    (busy_times : list (datetime * datetime)) (study_duration : Z)
    (current_date : Z) (hours : list Z) (acc out : list slot)
    (hour slot_start : Z) :
  hours_loop prefs busy_times study_duration current_date hours acc = Ok out ->
  hour ∈ hours ->
  replace_hour current_date hour = Ok slot_start ->
  conflicts busy_times slot_start (add_minutes slot_start study_duration)
    = Ok false ->
  exists s, s ∈ out /\ slot_start_time s = slot_start.
Proof.
  intros Hrun Hin Hrep Hfree. revert acc Hrun.
  induction hours as [|h0 rest IH]; intros acc Hrun.
  - apply elem_of_nil in Hin. contradiction.
  - cbn [hours_loop] in Hrun.
    destruct (replace_hour current_date h0) as [start0|e] eqn:Hrep0;
      [|discriminate]. cbn [bind] in Hrun.
    destruct (conflicts busy_times start0 (add_minutes start0 study_duration))
      as [[|]|e] eqn:Hconf0; cbn [bind negb] in Hrun; try discriminate.
    + apply elem_of_cons in Hin. destruct Hin as [->|Hin].
      * rewrite Hrep in Hrep0. injection Hrep0 as <-. congruence.
      * exact (IH Hin _ Hrun).
    + destruct (suggest_subject start0 prefs) as [subject|e];
        [|discriminate]. cbn [bind] in Hrun.
      apply elem_of_cons in Hin. destruct Hin as [->|Hin].
      * rewrite Hrep in Hrep0. injection Hrep0 as <-.
        apply hours_loop_inv in Hrun. destruct Hrun as (new & -> & _).
        eexists. split.
        { apply elem_of_app. left. apply elem_of_app. right. left. }
        reflexivity.
      * exact (IH Hin _ Hrun).
Qed.

Lemma days_loop_complete (prefs : preferences)
    (busy_times : list (datetime * datetime)) (study_duration now : Z)
    (offsets : list Z) (acc out : list slot)
    (day_offset hour slot_start : Z) :
  days_loop prefs busy_times study_duration now
    (default default_hours (preferred_study_hours prefs))
    (default default_days (preferred_days prefs)) offsets acc = Ok out ->
  day_offset ∈ offsets ->
  weekday (add_days now day_offset)
    ∈ default default_days (preferred_days prefs) ->
  hour ∈ default default_hours (preferred_study_hours prefs) ->
  replace_hour (add_days now day_offset) hour = Ok slot_start ->
  conflicts busy_times slot_start (add_minutes slot_start study_duration)
    = Ok false ->
  exists s, s ∈ out /\ slot_start_time s = slot_start.
Proof.
  intros Hrun Hin Hday Hhour Hrep Hfree. revert acc Hrun.
  induction offsets as [|d0 rest IH]; intros acc Hrun.
  - apply elem_of_nil in Hin. contradiction.
  - cbn [days_loop] in Hrun.
    destruct (bool_decide (weekday (add_days now d0)
                ∈ default default_days (preferred_days prefs))) eqn:Hd0;
      cbn [negb] in Hrun.
    + destruct (hours_loop prefs busy_times study_duration (add_days now d0)
                  (default default_hours (preferred_study_hours prefs)) acc)
        as [mid|e] eqn:Hhours; [|discriminate]. cbn [bind] in Hrun.
      apply elem_of_cons in Hin. destruct Hin as [->|Hin].
      * destruct (hours_loop_complete _ _ _ _ _ _ _ _ _ Hhours Hhour Hrep
                    Hfree) as (s & Hs & Hstart).
        apply days_loop_inv in Hrun. destruct Hrun as (new & -> & _).
        exists s. split; [apply elem_of_app; left; exact Hs|exact Hstart].
      * exact (IH Hin _ Hrun).
    + apply elem_of_cons in Hin. destruct Hin as [->|Hin].
      * apply bool_decide_eq_false in Hd0. contradiction.
      * exact (IH Hin _ Hrun).
Qed.

(** X8: when fewer than ten slots are returned, none was cut:
    every candidate of the horizon that passes the conflict filter is in
    the result. *)
Theorem surviving_candidates_returned (now : Z) (prefs : preferences)
    (study_duration days_ahead : Z) (slots : list slot)
    (day_offset hour : Z) :
  find_optimal_study_times now prefs study_duration days_ahead = Ok slots ->
  (length slots < 10)%nat ->
  survives now prefs (busy_times_at now prefs days_ahead) study_duration
    days_ahead day_offset hour ->
  exists s,
    s ∈ slots
    /\ slot_start_time s
       = midnight (add_days now day_offset) + hour * US_PER_HOUR.
Proof.
  intros Hrun Hlen (Hd & Hday & Hhour & slot_start & Hrep & Hfree).
  destruct (find_optimal_study_times_unfold _ _ _ _ _ Hrun)
    as (available & Havail & ->).
  unfold available_slots_of in Havail.
  destruct (days_loop_complete _ _ _ _ _ _ _ day_offset hour slot_start
              Havail) as (s & Hs & Hstart); try assumption.
  { unfold range. apply elem_of_seqZ. lia. }
  exists s. split.
  - rewrite length_take in Hlen. rewrite take_ge.
    + rewrite sort_desc_perm. exact Hs.
    + lia.
  - rewrite Hstart. apply (midnight_replace_hour _ _ _ Hrep).
Qed.

(** ** Edge cases of the scheduler *)



Lemma hours_loop_invalid_hour (prefs : preferences)
    (busy_times : list (datetime * datetime)) (study_duration : Z)
    (current_date : Z) (hours : list Z) (acc : list slot) (hour : Z) :
  hour ∈ hours -> ~ valid_hour hour ->
  exists e,
    hours_loop prefs busy_times study_duration current_date hours acc
      = Raise e.
Proof.
  intros Hin Hbad. revert acc.
  induction hours as [|h0 rest IH]; intros acc.
  - apply elem_of_nil in Hin. contradiction.
  - cbn [hours_loop].
    destruct (replace_hour current_date h0) as [start0|e] eqn:Hrep0;
      [|exists e; reflexivity]. cbn [bind].
    assert (Hrest : hour ∈ rest).
    { apply elem_of_cons in Hin. destruct Hin as [->|Hin]; [|exact Hin].
      destruct (midnight_replace_hour _ _ _ Hrep0) as [Hv _]. contradiction. }
    destruct (conflicts busy_times start0 (add_minutes start0 study_duration))
      as [[|]|e]; cbn [bind negb]; [apply IH; exact Hrest| |exists e; reflexivity].
    destruct (suggest_subject start0 prefs) as [subject|e];
      [|exists e; reflexivity]. cbn [bind]. apply IH. exact Hrest.
Qed.

Lemma days_loop_raises_on (prefs : preferences)
    (busy_times : list (datetime * datetime)) (study_duration now : Z)
    (hours days offsets : list Z) (acc : list slot) (day_offset : Z) :
  day_offset ∈ offsets ->
  weekday (add_days now day_offset) ∈ days ->
  (forall acc', exists e,
     hours_loop prefs busy_times study_duration (add_days now day_offset)
       hours acc' = Raise e) ->
  exists e,
    days_loop prefs busy_times study_duration now hours days offsets acc
      = Raise e.
Proof.
  intros Hin Hday Hraise. revert acc.
  induction offsets as [|d0 rest IH]; intros acc.
  - apply elem_of_nil in Hin. contradiction.
  - cbn [days_loop].
    destruct (bool_decide (weekday (add_days now d0) ∈ days)) eqn:Hd0;
      cbn [negb].
    + destruct (hours_loop prefs busy_times study_duration (add_days now d0)
                  hours acc) as [mid|e] eqn:Hhours; [|exists e; reflexivity].
      cbn [bind]. apply elem_of_cons in Hin. destruct Hin as [->|Hin].
      * destruct (Hraise acc) as [e He]. congruence.
      * apply IH. exact Hin.
    + apply elem_of_cons in Hin. destruct Hin as [->|Hin].
      * apply bool_decide_eq_false in Hd0. contradiction.
      * apply IH. exact Hin.
Qed.

(** X10: a preferred hour that is not an hour of the day makes
    the call raise as soon as a day of the horizon has a preferred
    weekday; no list is returned. *)
Theorem invalid_hour_raises (now : Z) (prefs : preferences)
    (study_duration days_ahead : Z) (day_offset hour : Z) :
  hour ∈ default default_hours (preferred_study_hours prefs) ->
  ~ valid_hour hour ->
  0 <= day_offset < days_ahead ->
  weekday (add_days now day_offset)
    ∈ default default_days (preferred_days prefs) ->
  exists e,
    find_optimal_study_times now prefs study_duration days_ahead = Raise e.
Proof.
  intros Hhour Hbad Hd Hday. unfold find_optimal_study_times.
  destruct (days_loop_raises_on prefs (busy_times_at now prefs days_ahead)
              study_duration now
              (default default_hours (preferred_study_hours prefs))
              (default default_days (preferred_days prefs))
              (range days_ahead) [] day_offset) as [e He].
  - unfold range. apply elem_of_seqZ. lia.
  - exact Hday.
  - intros acc'. apply (hours_loop_invalid_hour _ _ _ _ _ _ hour Hhour Hbad).
  - exists e. rewrite He. reflexivity.
Qed.

Lemma days_loop_first_raise (prefs : preferences)
    (busy_times : list (datetime * datetime)) (study_duration now : Z)
    (hours days offsets : list Z) (acc : list slot) (day_offset : Z)
    (e : exn) :
  day_offset ∈ offsets ->
  weekday (add_days now day_offset) ∈ days ->
  (forall current_date acc',
     hours_loop prefs busy_times study_duration current_date hours acc'
       = Raise e) ->
  days_loop prefs busy_times study_duration now hours days offsets acc
    = Raise e.
Proof.
  intros Hin Hday Hraise. revert acc.
  induction offsets as [|d0 rest IH]; intros acc.
  - apply elem_of_nil in Hin. contradiction.
  - cbn [days_loop].
    destruct (bool_decide (weekday (add_days now d0) ∈ days)) eqn:Hd0;
      cbn [negb].
    + rewrite Hraise. reflexivity.
    + apply elem_of_cons in Hin. destruct Hin as [->|Hin].
      * apply bool_decide_eq_false in Hd0. contradiction.
      * apply IH. exact Hin.
Qed.

(** X11: when the first busy interval ends at a reading that
    carries a UTC offset, the first candidate cannot be compared with it:
    with an hour of the day as first preferred hour and a preferred
    weekday in the horizon, the call raises [TypeError]. *)
Theorem aware_busy_interval_raises_type_error (now : Z)
    (prefs : preferences) (study_duration days_ahead : Z)
    (busy_start busy_end : datetime) (later : list (datetime * datetime))
    (offset hour day_offset : Z) (hours : list Z) :
  busy_times_at now prefs days_ahead = (busy_start, busy_end) :: later ->
  utcoffset busy_end = Some offset ->
  default default_hours (preferred_study_hours prefs) = hour :: hours ->
  valid_hour hour ->
  0 <= day_offset < days_ahead ->
  weekday (add_days now day_offset)
    ∈ default default_days (preferred_days prefs) ->
  find_optimal_study_times now prefs study_duration days_ahead
    = Raise TypeError.
Proof.
  intros Hbusy Haware Hhours Hvalid Hd Hday. unfold find_optimal_study_times.
  rewrite Hbusy, Hhours.
  rewrite (days_loop_first_raise prefs _ study_duration now (hour :: hours)
             _ (range days_ahead) [] day_offset TypeError).
  - reflexivity.
  - unfold range. apply elem_of_seqZ. lia.
  - exact Hday.
  - intros current_date acc'. cbn [hours_loop].
    rewrite (replace_hour_valid _ _ Hvalid). cbn [bind conflicts overlaps].
    unfold dt_lt at 1. cbn [naive utcoffset]. rewrite Haware. reflexivity.
Qed.

(** ** The slots themselves *)

Lemma suggest_subject_lookup (slot_time : Z) (prefs : preferences)
    (subject : string) :
  suggest_subject slot_time prefs = Ok subject ->
  default default_subjects (subjects prefs)
    !! Z.to_nat (weekday slot_time
                 mod Z.of_nat (length (default default_subjects
                                         (subjects prefs))))
  = Some subject.
Proof.
  unfold suggest_subject, py_mod.
  set (subs := default default_subjects (subjects prefs)).
  destruct (Z.of_nat (length subs) =? 0) eqn:Hz; [discriminate|].
  cbn [bind]. unfold getindex.
  pose proof (weekday_range slot_time) as Hwd.
  assert (Hlen : 0 < Z.of_nat (length subs)) by lia.
  pose proof (Z.mod_pos_bound (weekday slot_time) _ Hlen) as Hk.
  destruct (weekday slot_time mod Z.of_nat (length subs) <? 0) eqn:Hneg;
    [lia|]. rewrite Hneg.
  destruct (subs !! Z.to_nat (weekday slot_time mod Z.of_nat (length subs)));
    [|discriminate]. intros H. injection H as <-. reflexivity.
Qed.

(** X12: every returned slot starts on the hour, lasts
    [study_duration] minutes, and carries the subject at position
    [weekday mod len(subjects)] of the list of subjects. *)
Theorem returned_slot_shape (now : Z) (prefs : preferences)
    (study_duration days_ahead : Z) (slots : list slot) (s : slot) :
  find_optimal_study_times now prefs study_duration days_ahead = Ok slots ->
  s ∈ slots ->
  slot_duration_minutes s = study_duration
  /\ slot_end_time s
     = slot_start_time s + study_duration * US_PER_MINUTE
  /\ slot_start_time s mod US_PER_HOUR = 0
  /\ default default_subjects (subjects prefs)
       !! Z.to_nat (weekday (slot_start_time s)
                    mod Z.of_nat (length (default default_subjects
                                            (subjects prefs))))
     = Some (slot_subject s).
Proof.
  intros Hrun Hs.
  destruct (returned_slots_generated _ _ _ _ _ _ Hrun Hs)
    as (d & h & _ & _ & _ & Hmade).
  destruct Hmade as (Hv & Hstart & Hend & Hdur & _ & _ & Hsub).
  split; [exact Hdur|]. split; [exact Hend|]. split.
  - rewrite Hstart. unfold midnight, US_PER_DAY, US_PER_HOUR.
    replace (add_days now d / 86400000000 * 86400000000 + h * 3600000000)
      with ((add_days now d / 86400000000 * 24 + h) * 3600000000) by lia.
    apply Z.mod_mul. lia.
  - apply suggest_subject_lookup. exact Hsub.
Qed.

Lemma weekday_add_week (t : Z) : weekday (add_days t 7) = weekday t.
Proof.
  unfold weekday, add_days, US_PER_DAY.
  rewrite Z.div_add by lia.
  replace (t / 86400000000 + 7) with (t / 86400000000 + 1 * 7) by lia.
  apply Z.mod_add. lia.
Qed.

(** X13: the suggested subject depends on the weekday only:
    a week later it is the same, and it is always one of the first seven
    subjects of the list. *)
Theorem suggest_subject_weekly (slot_time : Z) (prefs : preferences) :
  suggest_subject (add_days slot_time 7) prefs
    = suggest_subject slot_time prefs
  /\ forall subject,
       suggest_subject slot_time prefs = Ok subject ->
       subject ∈ take 7 (default default_subjects (subjects prefs)).
Proof.
  split.
  - unfold suggest_subject. rewrite weekday_add_week. reflexivity.
  - intros subject Hsub. apply suggest_subject_lookup in Hsub.
    apply elem_of_take.
    exists (Z.to_nat (weekday slot_time
                      mod Z.of_nat (length (default default_subjects
                                              (subjects prefs))))).
    split; [exact Hsub|].
    pose proof (weekday_range slot_time) as Hwd.
    apply lookup_lt_Some in Hsub.
    pose proof (Z.mod_le (weekday slot_time)
                  (Z.of_nat (length (default default_subjects
                                       (subjects prefs)))) ltac:(lia)
                  ltac:(lia)).
    lia.
Qed.

(** ** More on the planner *)

(** X14: a description classified at 180 minutes or less is
    planned as one session of the full duration at the first preferred
    hour today, titled with type and subject and scored 0.9. *)
Theorem short_work_is_one_session (now : Z) (work_description : string)
    (prefs : preferences) (study_type : string) (duration : Z)
    (hour : Z) (rest : list Z) :
  default default_hours (preferred_study_hours prefs) = hour :: rest ->
  valid_hour hour ->
  classify_type (lower work_description) = (study_type, duration) ->
  duration <= 180 ->
  let subject := classify_subject (lower work_description) in
  suggest_study_sessions_from_work now work_description prefs
  = Ok [ {| sess_title := (study_type ++ " - " ++ subject)%string;
            sess_description :=
              ("Study session for: " ++ work_description)%string;
            sess_start_time := midnight now + hour * US_PER_HOUR;
            sess_end_time :=
              midnight now + hour * US_PER_HOUR + duration * US_PER_MINUTE;
            sess_duration_minutes := duration;
            sess_subject := subject;
            sess_type := study_type;
            sess_confidence_score := 0.9%Q |} ].
Proof.
  intros Hhours Hvalid Hclass Hshort subject.
  unfold suggest_study_sessions_from_work. rewrite Hclass, Hhours.
  destruct (180 <? duration) eqn:Hd; [lia|].
  change (getindex (hour :: rest) 0) with (Ok (A:=Z) hour). cbn [bind].
  rewrite (replace_hour_valid now hour Hvalid). cbn [bind]. reflexivity.
Qed.

(** X15: with an empty list of preferred hours the planner
    raises: [ZeroDivisionError] for work that is split, from the index
    modulo the length, and [IndexError] for work planned as one session. *)
Theorem empty_hours_raise (now : Z) (work_description : string)
    (prefs : preferences) :
  preferred_study_hours prefs = Some [] ->
  suggest_study_sessions_from_work now work_description prefs
  = Raise (if 180 <? snd (classify_type (lower work_description))
           then ZeroDivisionError else IndexError).
Proof.
  intros Hhours. unfold suggest_study_sessions_from_work. rewrite Hhours.
  pose proof (classify_type_cases (lower work_description)) as Hc.
  destruct (classify_type (lower work_description)) as [ty dur].
  cbn in Hc.
  repeat destruct Hc as [Hc|Hc]; try contradiction;
    injection Hc as <- <-; reflexivity.
Qed.

Lemma lower_ascii_idem (c : ascii) : lower_ascii (lower_ascii c) = lower_ascii c.
Proof.
  destruct c as [[] [] [] [] [] [] [] []]; reflexivity.
Qed.

Lemma lower_idem (s : string) : lower (lower s) = lower s.
Proof.
  induction s as [|c s IH]; [reflexivity|].
  cbn [lower]. rewrite lower_ascii_idem, IH. reflexivity.
Qed.

Lemma split_sessions_loop_description (now : Z) (w w' ty subj : string)
    (hours : list Z) (dur : Z) (indices : list Z)
    (acc : list study_session) :
  split_sessions_loop now w ty subj hours dur indices
    (map (with_description ("Study session for: " ++ w)%string) acc)
  = result_map (map (with_description ("Study session for: " ++ w)%string))
      (split_sessions_loop now w' ty subj hours dur indices acc).
Proof.
  revert acc. induction indices as [|i rest IH]; intros acc; [reflexivity|].
  cbn [split_sessions_loop].
  destruct (py_mod i (Z.of_nat (length hours))) as [k|e]; [|reflexivity].
  cbn [bind]. destruct (getindex hours k) as [h|e]; [|reflexivity].
  cbn [bind]. destruct (replace_hour now h) as [t|e]; [|reflexivity].
  cbn [bind]. rewrite <- IH. rewrite map_app. reflexivity.
Qed.

(** X16: the plan depends on the letters of the description
    but not on their case: it is the plan of the lower-cased description,
    with the description of each session put back. *)
Theorem plan_ignores_case (now : Z) (work_description : string)
    (prefs : preferences) :
  suggest_study_sessions_from_work now work_description prefs
  = result_map
      (map (with_description
              ("Study session for: " ++ work_description)%string))
      (suggest_study_sessions_from_work now (lower work_description) prefs).
Proof.
  unfold suggest_study_sessions_from_work. rewrite lower_idem.
  destruct (classify_type (lower work_description)) as [ty dur].
  destruct (180 <? dur).
  - apply (split_sessions_loop_description now work_description
             (lower work_description) ty _ _ 120 _ []).
  - destruct (getindex _ 0) as [h|e]; [|reflexivity]. cbn [bind].
    destruct (replace_hour now h) as [t|e]; reflexivity.
Qed.

Lemma split_sessions_loop_inv (now : Z) (w ty subj : string)
    (hours : list Z) (dur : Z) (indices : list Z)
    (acc out : list study_session) :
  split_sessions_loop now w ty subj hours dur indices acc = Ok out ->
  exists new,
    out = acc ++ new
    /\ length new = length indices
    /\ Forall (fun s => sess_duration_minutes s = dur) new.
Proof.
  revert acc. induction indices as [|i rest IH]; intros acc Hrun.
  - cbn in Hrun. injection Hrun as <-. exists []. rewrite app_nil_r.
    repeat split. constructor.
  - cbn [split_sessions_loop] in Hrun.
    destruct (py_mod i (Z.of_nat (length hours))) as [k|e]; [|discriminate].
    cbn [bind] in Hrun. destruct (getindex hours k) as [h|e]; [|discriminate].
    cbn [bind] in Hrun. destruct (replace_hour now h) as [t|e];
      [|discriminate].
    cbn [bind] in Hrun. destruct (IH _ Hrun) as (new & -> & Hlen & Hall).
    eexists (_ :: new). rewrite <- app_assoc. split; [reflexivity|].
    split; [cbn; rewrite Hlen; reflexivity|].
    constructor; [reflexivity|exact Hall].
Qed.

(** X17: a plan that is returned has one or two sessions, and
    its sessions together last at least the duration that the description
    was classified at. *)
Theorem plan_covers_duration (now : Z) (work_description : string)
    (prefs : preferences) (sessions : list study_session) :
  suggest_study_sessions_from_work now work_description prefs = Ok sessions ->
  (1 <= length sessions <= 2)%nat
  /\ snd (classify_type (lower work_description))
     <= planned_minutes sessions.
Proof.
  unfold suggest_study_sessions_from_work.
  pose proof (classify_type_cases (lower work_description)) as Hc.
  destruct (classify_type (lower work_description)) as [ty dur].
  cbn [snd]. intros Hrun.
  destruct (180 <? dur) eqn:Hlong.
  - assert (Hn : range (Z.max 2 (dur / 120)) = [0; 1]).
    { cbn in Hc. repeat destruct Hc as [Hc|Hc]; try contradiction;
        injection Hc as <- <-; try discriminate Hlong; reflexivity. }
    rewrite Hn in Hrun. apply split_sessions_loop_inv in Hrun.
    destruct Hrun as (new & -> & Hlen & Hall). cbn [app].
    destruct new as [|s1 [|s2 [|? ?]]]; try discriminate Hlen.
    apply Forall_cons in Hall. destruct Hall as [H1 Hall].
    apply Forall_cons in Hall. destruct Hall as [H2 _].
    split; [cbn; lia|]. unfold planned_minutes. cbn. rewrite H1, H2.
    cbn in Hc. repeat destruct Hc as [Hc|Hc]; try contradiction;
      injection Hc as <- <-; lia.
  - destruct (getindex _ 0) as [h|e]; [|discriminate]. cbn [bind] in Hrun.
    destruct (replace_hour now h) as [t|e]; [|discriminate].
    cbn [bind] in Hrun. injection Hrun as <-.
    split; [cbn; lia|]. unfold planned_minutes. cbn. lia.
Qed.

(** ** More on the habit tracker *)

Lemma streak_loop_parse_error (sessions : list session_row)
    (st : streak_state) (e : exn) :
  streak_loop sessions st = Raise e -> e = ValueError.
Proof.
  revert st. induction sessions as [|row rest IH]; intros st Hrun;
    [discriminate|].
  cbn [streak_loop] in Hrun. unfold parse_iso in Hrun.
  destruct (fromisoformat (created_at row)); cbn [bind] in Hrun.
  - exact (IH _ Hrun).
  - congruence.
Qed.

Lemma streak_loop_unparsable (sessions : list session_row)
    (st : streak_state) (row : session_row) :
  row ∈ sessions -> fromisoformat (created_at row) = None ->
  streak_loop sessions st = Raise ValueError.
Proof.
  intros Hin Hbad. revert st.
  induction sessions as [|r rest IH]; intros st.
  - apply elem_of_nil in Hin. contradiction.
  - cbn [streak_loop]. unfold parse_iso.
    destruct (fromisoformat (created_at r)) as [d|] eqn:Hd;
      [|reflexivity]. cbn [bind].
    apply elem_of_cons in Hin. destruct Hin as [->|Hin]; [congruence|].
    apply IH. exact Hin.
Qed.

(** X18: a row whose [created_at] does not parse makes
    [track_habit_progress] raise [ValueError], also when the row is not a
    completed session. *)
Theorem unparsable_timestamp_raises (sessions : list session_row)
    (row : session_row) :
  row ∈ sessions -> fromisoformat (created_at row) = None ->
  track_habit_progress sessions = Raise ValueError.
Proof.
  intros Hin Hbad. unfold track_habit_progress.
  destruct sessions as [|r rest];
    [apply elem_of_nil in Hin; contradiction|].
  rewrite (streak_loop_unparsable _ _ row Hin Hbad). reflexivity.
Qed.

Lemma streak_step_ok (st : streak_state) (d : Z) (b : bool) :
  streak_state_ok st ->
  streak_state_ok (streak_step st d b)
  /\ fst (streak_step st d b) <= fst st + (if b then 1 else 0)
  /\ (b = true -> 1 <= fst (streak_step st d b)).
Proof.
  destruct st as [c last]. unfold streak_state_ok. cbn [fst snd].
  intros Hok. destruct b; cbn -[Z.add Z.eqb Z.le].
  - destruct last as [ld|].
    + destruct Hok as [[_ H]|[Hc _]]; [discriminate|].
      destruct (d =? ld + 1); [|destruct (negb (d =? ld))];
        cbn [fst snd]; (split; [right; split; [lia|eexists; reflexivity]|]);
        split; try lia; intros _; lia.
    + destruct Hok as [[Hc _]|[_ [x H]]]; [|discriminate].
      cbn [fst snd]. split; [right; split; [lia|eexists; reflexivity]|].
      split; [lia|intros _; lia].
  - split; [exact Hok|]. split; [lia|discriminate].
Qed.

Lemma streak_loop_bounds (sessions : list session_row) (st st' : streak_state) :
  streak_state_ok st ->
  streak_loop sessions st = Ok st' ->
  streak_state_ok st'
  /\ fst st' <= fst st + Z.of_nat (length (List.filter completed sessions))
  /\ (List.filter completed sessions <> [] -> 1 <= fst st').
Proof.
  revert st. induction sessions as [|row rest IH]; intros st Hok Hrun.
  - cbn in Hrun. injection Hrun as <-. cbn.
    split; [exact Hok|]. split; [lia|congruence].
  - cbn [streak_loop] in Hrun.
    destruct (parse_iso (created_at row)) as [d|e]; [|discriminate].
    cbn [bind] in Hrun.
    destruct (streak_step_ok st (date_of d) (completed row) Hok)
      as (Hok1 & Hle1 & Hpos1).
    destruct (IH _ Hok1 Hrun) as (Hok' & Hle' & Hpos').
    split; [exact Hok'|]. cbn [List.filter].
    destruct (completed row) eqn:Hc.
    + split; [cbn [length]; lia|]. intros _.
      destruct Hok' as [[H0 Hnone]|[H1 _]]; [|exact H1].
      exfalso. clear IH Hle' Hpos' Hle1.
      assert (Hsome : forall l s s', is_Some (snd s) ->
                streak_loop l s = Ok s' -> is_Some (snd s')).
      { induction l as [|r l IHl]; intros s s' Hs Hl.
        - cbn in Hl. injection Hl as <-. exact Hs.
        - cbn [streak_loop] in Hl.
          destruct (parse_iso (created_at r)) as [d'|?]; [|discriminate].
          cbn [bind] in Hl.
          refine (IHl _ _ _ Hl). destruct s as [c [ld|]];
            [|destruct Hs; discriminate].
          destruct (completed r); cbn; eexists; reflexivity. }
      destruct Hok1 as [[_ Hn]|[_ Hs]].
      * destruct st as [c [ld|]]; cbn in Hn; discriminate.
      * specialize (Hsome _ _ _ Hs Hrun). rewrite Hnone in Hsome.
        destruct Hsome; discriminate.
    + split; [lia|exact Hpos'].
Qed.

(** X19: the streak that [track_habit_progress] reports is
    at least 0 and at most the number of completed sessions of the log,
    and it is 0 exactly when no session of the log is completed. *)
Theorem streak_is_bounded (sessions : list session_row)
    (progress : gmap string pyval) :
  track_habit_progress sessions = Ok progress ->
  exists n,
    progress !! "current_streak" = Some (VInt n)
    /\ 0 <= n <= Z.of_nat (length (List.filter completed sessions))
    /\ (n = 0 <-> List.filter completed sessions = []).
Proof.
  unfold track_habit_progress. intros Hrun.
  destruct sessions as [|row rest].
  { injection Hrun as <-. exists 0. repeat split; cbn; lia. }
  destruct (streak_loop (row :: rest) (0, None)) as [st|e] eqn:Hloop;
    [|discriminate]. cbn [bind] in Hrun. injection Hrun as <-.
  assert (Hinit : streak_state_ok (0, None)) by (left; split; reflexivity).
  destruct (streak_loop_bounds _ _ _ Hinit Hloop) as (Hok & Hle & Hpos).
  exists (fst st). split; [reflexivity|]. cbn [fst] in Hle.
  assert (H0 : 0 <= fst st) by (destruct Hok as [[-> _]|[H1 _]]; lia).
  split; [lia|]. split.
  - intros Hz. destruct (List.filter completed (row :: rest)) eqn:Hf;
      [reflexivity|]. assert (1 <= fst st) by (apply Hpos; congruence). lia.
  - intros Hf. rewrite Hf in Hle. cbn in Hle. lia.
Qed.

Lemma streak_loop_consecutive (sessions : list session_row) (first c : Z)
    (last : option Z) :
  (last = None \/ last = Some (first - 1)) ->
  (forall (i : nat) row,
     sessions !! i = Some row ->
     completed row = true
     /\ date_of <$> fromisoformat (created_at row)
        = Some (first + Z.of_nat i)) ->
  exists last',
    streak_loop sessions (c, last)
    = Ok (c + Z.of_nat (length sessions), last').
Proof.
  revert first c last. induction sessions as [|row rest IH];
    intros first c last Hlast Hrows.
  - exists last. cbn. do 2 f_equal. lia.
  - destruct (Hrows 0%nat row eq_refl) as [Hc Hd].
    cbn [streak_loop]. unfold parse_iso.
    destruct (fromisoformat (created_at row)) as [d|]; [|discriminate].
    cbn in Hd. injection Hd as Hd. cbn [bind]. rewrite Hc.
    replace (date_of d) with first by lia.
    assert (Hstep : streak_step (c, last) first true = (c + 1, Some first)).
    { cbn [streak_step]. destruct Hlast as [->| ->]; [reflexivity|].
      replace (first =? first - 1 + 1) with true by lia.
      reflexivity. }
    rewrite Hstep.
    destruct (IH (first + 1) (c + 1) (Some first)) as [last' ->].
    + right. f_equal. lia.
    + intros i r Hr. destruct (Hrows (S i) r Hr) as [Hc' Hd'].
      split; [exact Hc'|]. rewrite Hd'. f_equal. lia.
    + exists last'. cbn [length]. do 2 f_equal. lia.
Qed.

(** X20: a log of completed sessions on consecutive calendar
    days, one a day, gives a streak equal to the number of sessions. *)
Theorem consecutive_days_streak (sessions : list session_row) (first : Z) :
  sessions <> [] ->
  (forall (i : nat) row,
     sessions !! i = Some row ->
     completed row = true
     /\ date_of <$> fromisoformat (created_at row)
        = Some (first + Z.of_nat i)) ->
  track_habit_progress sessions
  = Ok (walked_progress (Z.of_nat (length sessions))).
Proof.
  intros Hne Hrows. unfold track_habit_progress.
  destruct sessions as [|row rest]; [congruence|].
  destruct (streak_loop_consecutive (row :: rest) first 0 None
              (or_introl eq_refl) Hrows) as [last' ->].
  reflexivity.
Qed.

Lemma py_ge_VInt (n k : Z) : py_ge (VInt n) k = (k <=? n).
Proof.
  unfold py_ge, num. destruct (k <=? n) eqn:Hk.
  - apply Qle_bool_iff. rewrite <- Zle_Qle. lia.
  - apply not_true_is_false. intros H. apply Qle_bool_iff in H.
    rewrite <- Zle_Qle in H. lia.
Qed.

Lemma walked_progress_rewards (n : Z) :
  get_milestone_rewards (walked_progress n)
  = Ok (take (length (List.filter (fun t => t <=? n) reward_thresholds))
          all_rewards).
Proof.
  unfold get_milestone_rewards.
  change (getitem (walked_progress n) "current_streak") with (Ok (VInt n)).
  change (getitem (walked_progress n) "days_completed")
    with (Ok (VInt (Z.min n habit_formation_days))).
  change (getitem (walked_progress n) "milestone_reached")
    with (Ok (VBool (habit_formation_days
                     <=? Z.min n habit_formation_days))).
  cbn [bind truthy]. rewrite !py_ge_VInt.
  unfold reward_thresholds, habit_formation_days. cbn [List.filter].
  destruct (7 <=? n) eqn:H7, (21 <=? n) eqn:H21, (30 <=? n) eqn:H30,
    (50 <=? n) eqn:H50, (70 <=? n) eqn:H70; try lia;
    match goal with
    | |- context [50 <=? Z.min n 70] =>
        destruct (50 <=? Z.min n 70) eqn:Ha; try lia;
        destruct (70 <=? Z.min n 70) eqn:Hb; try lia
    end; reflexivity.
Qed.

(** X21: on a record made by [track_habit_progress] from a
    log that is not empty, [get_milestone_rewards] does not raise, and
    the rewards are the first messages of the fixed order, one for each
    of the thresholds 7, 21, 30, 50 and 70 that the streak reaches. *)
Theorem tracker_rewards_are_prefix (sessions : list session_row)
    (progress : gmap string pyval) :
  sessions <> [] ->
  track_habit_progress sessions = Ok progress ->
  exists n,
    progress !! "current_streak" = Some (VInt n)
    /\ get_milestone_rewards progress
       = Ok (take (length (List.filter (fun t => t <=? n) reward_thresholds))
               all_rewards).
Proof.
  intros Hne Hrun. unfold track_habit_progress in Hrun.
  destruct sessions as [|row rest]; [congruence|].
  destruct (streak_loop (row :: rest) (0, None)) as [st|e];
    [|discriminate]. cbn [bind] in Hrun. injection Hrun as <-.
  exists (fst st). split; [reflexivity|apply walked_progress_rewards].
Qed.

(** X22: [get_milestone_rewards] returns a list exactly when
    the record has the keys [current_streak], [days_completed] and
    [milestone_reached]; otherwise it raises [KeyError] for the first of
    them, in this order, that is missing. *)
Theorem milestone_rewards_need_three_keys (progress : gmap string pyval) :
  ((exists rewards, get_milestone_rewards progress = Ok rewards)
   <-> is_Some (progress !! "current_streak")
       /\ is_Some (progress !! "days_completed")
       /\ is_Some (progress !! "milestone_reached"))
  /\ (progress !! "current_streak" = None ->
      get_milestone_rewards progress = Raise (KeyError "current_streak"))
  /\ (is_Some (progress !! "current_streak") ->
      progress !! "days_completed" = None ->
      get_milestone_rewards progress = Raise (KeyError "days_completed"))
  /\ (is_Some (progress !! "current_streak") ->
      is_Some (progress !! "days_completed") ->
      progress !! "milestone_reached" = None ->
      get_milestone_rewards progress = Raise (KeyError "milestone_reached")).
Proof.
  unfold get_milestone_rewards, getitem.
  destruct (progress !! "current_streak") as [cs|];
    destruct (progress !! "days_completed") as [dc|];
    destruct (progress !! "milestone_reached") as [mr|]; cbn [bind];
    (split; [split; [intros [r Hr]; try discriminate Hr;
                     repeat split; eexists; reflexivity
                    |intros (H1 & H2 & H3);
                     try (destruct H1; discriminate);
                     try (destruct H2; discriminate);
                     try (destruct H3; discriminate);
                     eexists; reflexivity]|]);
    repeat split; try reflexivity; try discriminate;
    intros; try reflexivity;
    repeat match goal with
           | H : is_Some None |- _ => destruct H; discriminate
           | H : None = None |- _ => clear H
           | H : Some _ = None |- _ => discriminate H
           end.
Qed.

(** ** Dashboard statistics *)

Lemma completion_rate_of_bounds (completed total : Z) :
  0 <= completed <= total ->
  (0 <= num (completion_rate_of completed total) <= 100)%Q
  /\ (total = 0 -> completion_rate_of completed total = VInt 0).
Proof.
  intros [H0 H1]. unfold completion_rate_of. split.
  - destruct (0 <? total) eqn:Hpos; cbn [num]; [|split; discriminate].
    destruct total as [|p|p]; try lia.
    unfold Qle, Qdiv, Qmult, Qinv, inject_Z. cbn -[Z.mul Z.le].
    split; nia.
  - intros ->. reflexivity.
Qed.

Lemma week_entry_at_inv (db : db_answer) (now user_id week_offset : Z)
    (entry : week_entry) :
  week_entry_at db now user_id week_offset = Ok entry ->
  exists week_start week_end,
    entry = week_entry_of user_id week_start week_end.
Proof.
  unfold week_entry_at. intros Hrun.
  destruct (timedelta_days (7 * (week_offset + 1))) as [weeks_back|];
    [|discriminate]. cbn [bind] in Hrun.
  destruct (datetime_sub now weeks_back) as [week_start|]; [|discriminate].
  cbn [bind] in Hrun.
  destruct (timedelta_days 7) as [seven_days|]; [|discriminate].
  cbn [bind] in Hrun.
  destruct (datetime_add week_start seven_days) as [week_end|];
    [|discriminate]. cbn [bind] in Hrun.
  destruct (execute db [Some user_id]); [|discriminate].
  cbn [bind] in Hrun. injection Hrun as <-.
  exists week_start, week_end. reflexivity.
Qed.

Lemma weekly_loop_Forall (P : week_entry -> Prop) (db : db_answer)
    (clock : Z -> Z) (user_id : Z) (offsets : list Z)
    (acc entries : list week_entry) :
  (forall week_start week_end,
     P (week_entry_of user_id week_start week_end)) ->
  Forall P acc ->
  weekly_loop db clock user_id offsets acc = Ok entries ->
  Forall P entries.
Proof.
  intros HP. revert acc.
  induction offsets as [|k rest IH]; intros acc Hacc Hrun.
  - cbn [weekly_loop] in Hrun. injection Hrun as <-. exact Hacc.
  - cbn [weekly_loop] in Hrun.
    destruct (week_entry_at db (clock k) user_id k) as [entry|] eqn:Hentry;
      [|discriminate]. cbn [bind] in Hrun.
    apply (IH (acc ++ [entry])); [|exact Hrun].
    apply Forall_app. split; [exact Hacc|]. constructor; [|constructor].
    destruct (week_entry_at_inv _ _ _ _ _ Hentry) as (ws & we & ->).
    apply HP.
Qed.

(** X23: the completion rate of the statistics and of each week is
    the integer 0 when there is no session, without a division, and
    otherwise a percentage between 0 and 100, as long as the completed
    sessions counted are among the sessions counted. *)
Theorem completion_rates_are_percentages (db : db_answer) (clock : Z -> Z)
    (user_id weeks : Z)
    (total_sessions completed_sessions this_week_sessions : Z)
    (current_streak_row longest_streak_row : option Z) :
  (0 <= completed_sessions <= total_sessions ->
   exists rate,
     calculate_user_stats total_sessions completed_sessions
       this_week_sessions current_streak_row longest_streak_row
       !! "completion_rate" = Some rate
     /\ (0 <= num rate <= 100)%Q
     /\ (total_sessions = 0 -> rate = VInt 0))
  /\ ((forall week_start week_end,
         0 <= or_zero
                (snd (count_week_sessions user_id week_start week_end))
           <= fst (count_week_sessions user_id week_start week_end)) ->
      forall entries,
        get_weekly_progress db clock user_id weeks = Ok entries ->
        Forall (fun entry =>
                  (0 <= num (week_completion_rate entry) <= 100)%Q
                  /\ (week_total_sessions entry = 0 ->
                      week_completion_rate entry = VInt 0))
          entries).
Proof.
  split.
  - intros Hcount. eexists. split; [reflexivity|].
    apply completion_rate_of_bounds. exact Hcount.
  - intros Hquery entries Hrun. unfold get_weekly_progress in Hrun.
    assert (Hloop : exists weekly_data,
              weekly_loop db clock user_id (range weeks) [] = Ok weekly_data
              /\ entries = rev weekly_data).
    { destruct db; try discriminate;
        (destruct (weekly_loop _ clock user_id (range weeks) [])
           as [weekly_data|]; [|discriminate]);
        cbn [bind] in Hrun; injection Hrun as <-;
        exists weekly_data; split; reflexivity. }
    destruct Hloop as (weekly_data & Hloop & ->).
    apply Forall_forall. intros entry Hin.
    rewrite list_elem_of_In, <- in_rev, <- list_elem_of_In in Hin.
    revert entry Hin. apply Forall_forall.
    eapply weekly_loop_Forall; [|constructor|exact Hloop].
    intros week_start week_end. unfold week_entry_of.
    cbn [week_completion_rate week_total_sessions or_zero].
    apply completion_rate_of_bounds. apply Hquery.
Qed.

(** The turn of the loop for a week that starts in the year 1 or later. *)
Lemma week_entry_at_ok (now user_id week_offset : Z) :
  fits_int64 user_id = true ->
  0 <= week_offset ->
  7 * (week_offset + 1) * US_PER_DAY <= now < DATETIME_END ->
  week_entry_at Answers now user_id week_offset
  = Ok (week_entry_of user_id
          (now - 7 * (week_offset + 1) * US_PER_DAY)
          (now - 7 * week_offset * US_PER_DAY)).
Proof.
  intros Hfits Hk [Hlo Hhi]. unfold week_entry_at, timedelta_days.
  unfold DATETIME_END, US_PER_DAY in *.
  rewrite (proj2 (andb_true_iff _ _)) by (split; [apply Z.leb_le|apply Z.leb_le]; lia).
  cbn [bind]. unfold datetime_sub, datetime_add, DATETIME_END, US_PER_DAY.
  rewrite (proj2 (andb_true_iff _ _)) by (split; [apply Z.leb_le|apply Z.ltb_lt]; lia).
  cbn [bind].
  change ((-999999999 <=? 7) && (7 <=? 999999999)) with true. cbn iota.
  cbn [bind].
  rewrite (proj2 (andb_true_iff _ _)) by (split; [apply Z.leb_le|apply Z.ltb_lt]; lia).
  cbn [bind]. unfold execute. cbn [forallb]. rewrite Hfits. cbn [andb bind].
  do 2 f_equal; lia.
Qed.

(** With a database that answers, a turn of the loop raises nothing but
    [OverflowError]. *)
Lemma week_entry_at_raises (now user_id week_offset : Z) (e : exn) :
  week_entry_at Answers now user_id week_offset = Raise e ->
  e = OverflowError.
Proof.
  unfold week_entry_at, timedelta_days, datetime_sub, datetime_add, execute.
  intros Hrun.
  repeat match type of Hrun with
         | context [if ?c then _ else _] => destruct c; cbn [bind] in Hrun
         end; congruence.
Qed.

(** A week that would start before the year 1. *)
Lemma week_entry_at_overflow (db : db_answer) (now user_id week_offset : Z) :
  now < 7 * (week_offset + 1) * US_PER_DAY ->
  week_entry_at db now user_id week_offset = Raise OverflowError.
Proof.
  intros Hlt. unfold week_entry_at, timedelta_days.
  destruct ((-999999999 <=? 7 * (week_offset + 1))
            && (7 * (week_offset + 1) <=? 999999999)); [|reflexivity].
  cbn [bind]. unfold datetime_sub, datetime_add.
  replace (0 <=? now + - (7 * (week_offset + 1) * US_PER_DAY)) with false.
  - reflexivity.
  - symmetry. apply Z.leb_gt. lia.
Qed.

Lemma weekly_loop_raises (clock : Z -> Z) (user_id : Z) (offsets : list Z)
    (acc : list week_entry) :
  (exists k e, k ∈ offsets
     /\ week_entry_at Answers (clock k) user_id k = Raise e) ->
  weekly_loop Answers clock user_id offsets acc = Raise OverflowError.
Proof.
  revert acc. induction offsets as [|k rest IH]; intros acc (k0 & e & Hin & Hk0).
  - apply elem_of_nil in Hin. destruct Hin.
  - cbn [weekly_loop].
    destruct (week_entry_at Answers (clock k) user_id k) as [entry|e'] eqn:Hk.
    + cbn [bind]. apply IH. exists k0, e. split; [|exact Hk0].
      apply elem_of_cons in Hin. destruct Hin as [->|Hin]; [|exact Hin].
      congruence.
    + cbn [bind]. apply week_entry_at_raises in Hk. subst e'. reflexivity.
Qed.

Lemma weekly_loop_ok (clock : Z -> Z) (user_id : Z) (offsets : list Z)
    (acc : list week_entry) :
  fits_int64 user_id = true ->
  Forall (fun k => 0 <= k
                   /\ 7 * (k + 1) * US_PER_DAY <= clock k < DATETIME_END)
    offsets ->
  weekly_loop Answers clock user_id offsets acc
  = Ok (acc ++ map (fun k => week_entry_of user_id
                               (clock k - 7 * (k + 1) * US_PER_DAY)
                               (clock k - 7 * k * US_PER_DAY)) offsets).
Proof.
  intros Hfits Hall. revert acc.
  induction Hall as [|k rest [Hk Hclock] _ IH]; intros acc.
  - cbn. rewrite app_nil_r. reflexivity.
  - cbn [weekly_loop map].
    rewrite (week_entry_at_ok _ _ _ Hfits Hk Hclock). cbn [bind].
    rewrite IH, <- app_assoc. reflexivity.
Qed.

(** X24: with a database that answers and a user number that
    SQLite can store, [get_weekly_progress] returns one entry for each of
    the [weeks] weeks, oldest first, as long as every week starts in the
    year 1 or later: entry [i] is the one of the week offset
    [k = weeks - 1 - i], computed from the sessions of the 7 days that
    end [k] weeks before the clock reading of its turn, and its label is
    the date [7 * (k + 1)] days before that reading. When a week would
    start before the year 1, or when SQLite cannot store the user number
    and [weeks] is positive, the call raises [OverflowError] and returns
    no list; with [weeks <= 0] it returns the empty list. *)
Theorem weekly_progress_is_chronological (clock : Z -> Z)
    (user_id weeks : Z) :
  (fits_int64 user_id = true ->
   (forall k, 0 <= k < weeks ->
      7 * (k + 1) * US_PER_DAY <= clock k < DATETIME_END) ->
   exists entries,
     get_weekly_progress Answers clock user_id weeks = Ok entries
     /\ length entries = Z.to_nat weeks
     /\ forall i, 0 <= i < weeks ->
          let k := weeks - 1 - i in
          let week_start := clock k - 7 * (k + 1) * US_PER_DAY in
          let week_end := clock k - 7 * k * US_PER_DAY in
          entries !! Z.to_nat i
          = Some (week_entry_of user_id week_start week_end)
          /\ week (week_entry_of user_id week_start week_end)
             = date_of (naive (clock k)) - 7 * (k + 1))
  /\ (forall k, 0 <= k < weeks ->
        clock k < 7 * (k + 1) * US_PER_DAY ->
        get_weekly_progress Answers clock user_id weeks
        = Raise OverflowError)
  /\ (0 < weeks -> fits_int64 user_id = false ->
      get_weekly_progress Answers clock user_id weeks = Raise OverflowError)
  /\ (weeks <= 0 ->
      get_weekly_progress Answers clock user_id weeks = Ok []).
Proof.
  unfold get_weekly_progress. split; [|split; [|split]].
  - intros Hfits Hclock.
    rewrite (weekly_loop_ok clock user_id (range weeks) [] Hfits).
    2:{ apply Forall_forall. intros k Hk. unfold range in Hk.
        apply elem_of_seqZ in Hk. split; [lia|]. apply Hclock. lia. }
    cbn [bind app]. eexists. split; [reflexivity|].
    rewrite rev_alt. change (rev_append ?l []) with (reverse l).
    split.
    + rewrite length_reverse, length_map. unfold range. apply length_seqZ.
    + intros i Hi. set (k := weeks - 1 - i).
      set (week_start := clock k - 7 * (k + 1) * US_PER_DAY).
      set (week_end := clock k - 7 * k * US_PER_DAY). split.
      * rewrite reverse_lookup.
        2:{ rewrite length_map. unfold range. rewrite length_seqZ. lia. }
        rewrite length_map. unfold range. rewrite length_seqZ.
        match goal with
        | |- map ?f (seqZ 0 weeks) !! ?n = _ =>
            change (map f (seqZ 0 weeks)) with (f <$> seqZ 0 weeks)
        end.
        rewrite list_lookup_fmap, lookup_seqZ_lt by lia.
        cbn [fmap option_fmap option_map]. subst week_start week_end k.
        replace (0 + Z.of_nat (Z.to_nat weeks - S (Z.to_nat i)))
          with (weeks - 1 - i) by lia.
        reflexivity.
      * unfold week_entry_of. cbn [week]. unfold date_of, naive. cbn [wall].
        subst week_start. unfold US_PER_DAY.
        replace (clock k - 7 * (k + 1) * 86400000000)
          with (clock k + (- (7 * (k + 1))) * 86400000000) by lia.
        rewrite Z.div_add by lia. lia.
  - intros k Hk Hlt.
    rewrite (weekly_loop_raises clock user_id (range weeks) []);
      [reflexivity|].
    exists k, OverflowError. split.
    + unfold range. apply elem_of_seqZ. lia.
    + apply week_entry_at_overflow. exact Hlt.
  - intros Hweeks Hfits.
    rewrite (weekly_loop_raises clock user_id (range weeks) []);
      [reflexivity|].
    destruct (week_entry_at Answers (clock 0) user_id 0) as [entry|e] eqn:H0.
    + exfalso. revert H0. unfold week_entry_at, execute. cbn [forallb].
      rewrite Hfits. cbn [andb].
      destruct (timedelta_days (7 * (0 + 1))); [|discriminate]. cbn [bind].
      destruct (datetime_sub _ _); [|discriminate]. cbn [bind].
      destruct (timedelta_days 7); [|discriminate]. cbn [bind].
      destruct (datetime_add _ _); discriminate.
    + exists 0, e. split; [|exact H0].
      unfold range. apply elem_of_seqZ. lia.
  - intros Hweeks. unfold range, seqZ.
    replace (Z.to_nat weeks) with 0%nat by lia. reflexivity.
Qed.

(** ** The streak table *)

Lemma fetch_streak_Some (user_id : Z) (group_id : option Z)
    (table : list streak_row) (id : nat) (streak : streak_row) :
  fetch_streak user_id group_id table = Some (id, streak) ->
  table !! id = Some streak.
Proof.
  revert id. induction table as [|r rest IH]; intros id Hfetch;
    [discriminate|]. cbn [fetch_streak] in Hfetch.
  destruct (streak_matches user_id group_id r).
  - injection Hfetch as <- <-. reflexivity.
  - destruct (fetch_streak user_id group_id rest) as [[id' streak']|];
      [|discriminate]. injection Hfetch as <- <-. cbn. apply IH. reflexivity.
Qed.

Lemma fetch_streak_None (user_id : Z) (group_id : option Z)
    (table : list streak_row) :
  Forall (fun r => streak_matches user_id group_id r = false) table ->
  fetch_streak user_id group_id table = None.
Proof.
  induction 1 as [|r rest Hr _ IH]; [reflexivity|].
  cbn [fetch_streak]. rewrite Hr, IH. reflexivity.
Qed.

Lemma fetch_streak_last (user_id : Z) (group_id : option Z)
    (table : list streak_row) (r : streak_row) :
  Forall (fun r => streak_matches user_id group_id r = false) table ->
  streak_matches user_id group_id r = true ->
  fetch_streak user_id group_id (table ++ [r]) = Some (length table, r).
Proof.
  intros Hno Hr. induction Hno as [|r0 rest Hr0 _ IH].
  - cbn [app fetch_streak]. rewrite Hr. reflexivity.
  - cbn [app fetch_streak length]. rewrite Hr0, IH. reflexivity.
Qed.

(** A call changes the table in one of three ways. *)
Lemma update_streak_cases (db : db_answer) (now user_id : Z)
    (group_id : option Z) (table : list streak_row) :
  let table' := fst (update_streak db now user_id group_id table) in
  table' = table
  \/ (exists id streak,
        table !! id = Some streak
        /\ table' = <[id := {| sr_user_id := sr_user_id streak;
                               sr_group_id := sr_group_id streak;
                               sr_current_streak := sr_current_streak streak + 1;
                               sr_longest_streak :=
                                 Z.max (sr_longest_streak streak)
                                   (sr_current_streak streak + 1);
                               sr_last_activity := Some now |}]> table)
  \/ table' = table ++ [ {| sr_user_id := user_id; sr_group_id := group_id;
                            sr_current_streak := 1; sr_longest_streak := 1;
                            sr_last_activity := Some now |} ].
Proof.
  unfold update_streak, update_streak_try.
  destruct db; cbn [fst]; [| |left; reflexivity].
  - destruct (execute Answers [Some user_id; group_id]);
      [|left; reflexivity]. cbn [bind].
    destruct (fetch_streak user_id group_id table) as [[id streak]|] eqn:Hf.
    + destruct (execute Answers _); [|left; reflexivity]. cbn [bind fst].
      right; left. exists id, streak. split; [|reflexivity].
      eapply fetch_streak_Some. exact Hf.
    + cbn [bind fst]. right; right. reflexivity.
  - destruct (execute Refuses [Some user_id; group_id]);
      [|left; reflexivity]. cbn [bind].
    destruct (fetch_streak user_id group_id table) as [[id streak]|] eqn:Hf.
    + destruct (execute Refuses _); [|left; reflexivity]. cbn [bind fst].
      right; left. exists id, streak. split; [|reflexivity].
      eapply fetch_streak_Some. exact Hf.
    + cbn [bind fst]. right; right. reflexivity.
Qed.

(** What one call does to the rows that are in the table. *)
Lemma update_streak_step (db : db_answer) (now user_id : Z)
    (group_id : option Z) (table : list streak_row) :
  let table' := fst (update_streak db now user_id group_id table) in
  (forall i r, table !! i = Some r ->
     exists r', table' !! i = Some r'
       /\ sr_user_id r' = sr_user_id r
       /\ sr_group_id r' = sr_group_id r
       /\ sr_current_streak r <= sr_current_streak r'
            <= sr_current_streak r + 1
       /\ sr_longest_streak r <= sr_longest_streak r')
  /\ (length table <= length table' <= length table + 1)%nat
  /\ (Forall streak_row_ok table -> Forall streak_row_ok table').
Proof.
  intros table'.
  destruct (update_streak_cases db now user_id group_id table)
    as [Heq|[(id & streak & Hid & Heq)|Heq]];
    fold table' in Heq; rewrite Heq; clear Heq table'.
  - split; [|split; [lia|auto]].
    intros i r Hi. exists r. repeat split; try assumption; lia.
  - split; [|split].
    + intros i r Hi. destruct (decide (i = id)) as [->|Hne].
      * rewrite Hid in Hi. injection Hi as ->.
        eexists. split.
        { apply list_lookup_insert_eq. eapply lookup_lt_Some. exact Hid. }
        cbn. repeat split; lia.
      * exists r. rewrite list_lookup_insert_ne by congruence.
        repeat split; try assumption; lia.
    + rewrite length_insert. lia.
    + intros Hok. apply Forall_insert; [exact Hok|].
      rewrite Forall_forall in Hok.
      destruct (Hok streak) as [H1 Heq].
      { eapply list_elem_of_lookup_2. exact Hid. }
      unfold streak_row_ok. cbn. lia.
  - split; [|split].
    + intros i r Hi. exists r. rewrite lookup_app_l
        by (eapply lookup_lt_Some; exact Hi).
      repeat split; try assumption; lia.
    + rewrite length_app. cbn [length]. lia.
    + intros Hok. apply Forall_app. split; [exact Hok|].
      constructor; [|constructor]. split; [cbn; lia|reflexivity].
Qed.

(** X25: no sequence of calls of [update_streak],
    whatever the database does and whatever the parameters are, lowers or
    resets a streak: every row of the table is still at its place
    afterwards, for the same user and group, with a streak and a longest
    streak that are not smaller, the streak being raised by at most one
    per call; a call adds at most one row; and a table in which every row
    has a streak of at least one equal to its longest streak, such as the
    empty table, stays such a table. *)
Theorem streak_rows_never_reset (calls : list streak_call)
    (table : list streak_row) :
  (forall i r, table !! i = Some r ->
     exists r', fst (run_streak_updates calls table) !! i = Some r'
       /\ sr_user_id r' = sr_user_id r
       /\ sr_group_id r' = sr_group_id r
       /\ sr_current_streak r <= sr_current_streak r'
            <= sr_current_streak r + Z.of_nat (length calls)
       /\ sr_longest_streak r <= sr_longest_streak r')
  /\ (length table <= length (fst (run_streak_updates calls table))
      <= length table + length calls)%nat
  /\ (Forall streak_row_ok table ->
      Forall streak_row_ok (fst (run_streak_updates calls table))).
Proof.
  revert table. induction calls as [|call rest IH]; intros table.
  - cbn [run_streak_updates fst length]. split; [|split; [lia|auto]].
    intros i r Hi. exists r. repeat split; try assumption; lia.
  - cbn [run_streak_updates fst].
    destruct (update_streak_step (call_db call) (call_now call)
                (call_user_id call) (call_group_id call) table)
      as (Hrows & Hlen & Hok).
    destruct (IH (fst (update_streak (call_db call) (call_now call)
                         (call_user_id call) (call_group_id call) table)))
      as (Hrows' & Hlen' & Hok').
    split; [|split].
    + intros i r Hi.
      destruct (Hrows i r Hi) as (r1 & Hi1 & Hu1 & Hg1 & Hc1 & Hl1).
      destruct (Hrows' i r1 Hi1) as (r2 & Hi2 & Hu2 & Hg2 & Hc2 & Hl2).
      exists r2. split; [exact Hi2|].
      split; [congruence|]. split; [congruence|].
      cbn [length]. split; lia.
    + cbn [length]. lia.
    + intros Htable. apply Hok', Hok, Htable.
Qed.

Lemma last_cons_or (t : Z) (rest : list Z) (dflt : option Z) :
  match last (t :: rest) with Some x => Some x | None => dflt end
  = match last rest with Some x => Some x | None => Some t end.
Proof.
  destruct rest as [|t' rest']; [reflexivity|].
  rewrite last_cons. destruct (last (t' :: rest')); reflexivity.
Qed.

Lemma execute_fits (params : list (option Z)) :
  forallb (fun p => match p with
                    | Some n => fits_int64 n
                    | None => true
                    end) params = true ->
  execute Answers params = Ok tt.
Proof. intros H. unfold execute. rewrite H. reflexivity. Qed.

Lemma fits_int64_iff (n : Z) :
  fits_int64 n = true <-> - 2 ^ 63 <= n < 2 ^ 63.
Proof.
  unfold fits_int64. rewrite andb_true_iff, Z.leb_le, Z.ltb_lt. reflexivity.
Qed.

(** A call for a user and a group whose parameters SQLite can store, on a
    table whose last row is theirs. *)
Lemma update_streak_existing (db : db_answer) (now user group c : Z)
    (last_activity : option Z) (table : list streak_row) :
  fits_int64 user = true -> fits_int64 group = true ->
  0 <= c -> c + 1 < 2 ^ 63 ->
  Forall (fun r => streak_matches user (Some group) r = false) table ->
  update_streak db now user (Some group)
    (table ++ [ {| sr_user_id := user; sr_group_id := Some group;
                   sr_current_streak := c; sr_longest_streak := c;
                   sr_last_activity := last_activity |} ])
  = match db with
    | Answers =>
        (table ++ [ {| sr_user_id := user; sr_group_id := Some group;
                       sr_current_streak := c + 1;
                       sr_longest_streak := c + 1;
                       sr_last_activity := Some now |} ], Ok true)
    | _ =>
        (table ++ [ {| sr_user_id := user; sr_group_id := Some group;
                       sr_current_streak := c; sr_longest_streak := c;
                       sr_last_activity := last_activity |} ], outcome_of db)
    end.
Proof.
  intros Hu Hg Hc0 Hc1 Hno. unfold update_streak, update_streak_try.
  destruct db; [| |reflexivity].
  - rewrite execute_fits by (cbn [forallb]; rewrite Hu, Hg; reflexivity).
    cbn [bind].
    rewrite (fetch_streak_last user (Some group) table _ Hno).
    2:{ unfold streak_matches. cbn. rewrite !Z.eqb_refl. reflexivity. }
    cbn [sr_user_id sr_group_id sr_current_streak sr_longest_streak].
    replace (Z.max c (c + 1)) with (c + 1) by lia.
    rewrite execute_fits.
    2:{ cbn [forallb].
        rewrite (proj2 (fits_int64_iff (c + 1))) by lia. reflexivity. }
    cbn [bind]. f_equal.
    rewrite insert_app_r_alt by lia.
    rewrite Nat.sub_diag. reflexivity.
  - unfold execute. cbn [forallb]. rewrite Hu, Hg. reflexivity.
Qed.

(** A call for a user, with or without a group, on a table without a
    row for them. *)
Lemma update_streak_new (db : db_answer) (now user : Z)
    (group : option Z) (table : list streak_row) :
  Forall (fun r => streak_matches user group r = false) table ->
  update_streak db now user group table
  = if fits_int64 user
       && match group with Some g => fits_int64 g | None => true end
    then match db with
         | Answers =>
             (table ++ [ {| sr_user_id := user; sr_group_id := group;
                            sr_current_streak := 1; sr_longest_streak := 1;
                            sr_last_activity := Some now |} ], Ok true)
         | _ => (table, outcome_of db)
         end
    else (table, outcome_of_overflow db).
Proof.
  intros Hno. unfold update_streak, update_streak_try, execute.
  cbn [forallb]. rewrite (fetch_streak_None _ _ _ Hno).
  rewrite andb_true_r.
  destruct (fits_int64 user
            && match group with Some g => fits_int64 g | None => true end);
    destruct db; reflexivity.
Qed.

Lemma run_streak_updates_counts (user group : Z)
    (calls : list (db_answer * Z)) (table : list streak_row) (c : Z)
    (last_activity : option Z) :
  fits_int64 user = true -> fits_int64 group = true ->
  0 <= c -> c + Z.of_nat (length calls) < 2 ^ 63 ->
  Forall (fun r => streak_matches user (Some group) r = false) table ->
  run_streak_updates
    (map (fun call => mkCall call.1 call.2 user (Some group)) calls)
    (table ++ [ {| sr_user_id := user; sr_group_id := Some group;
                   sr_current_streak := c; sr_longest_streak := c;
                   sr_last_activity := last_activity |} ])
  = (table ++ [ {| sr_user_id := user; sr_group_id := Some group;
                   sr_current_streak :=
                     c + Z.of_nat (length (answered calls));
                   sr_longest_streak :=
                     c + Z.of_nat (length (answered calls));
                   sr_last_activity :=
                     match last (answered calls) with
                     | Some t => Some t
                     | None => last_activity
                     end |} ],
     map (fun call => outcome_of call.1) calls).
Proof.
  intros Hu Hg Hc0 Hc1 Hno. revert c last_activity Hc0 Hc1.
  induction calls as [|[db now] rest IH]; intros c last_activity Hc0 Hc1.
  - cbn. do 4 f_equal; lia.
  - cbn [map run_streak_updates call_db call_now call_user_id call_group_id
         fst snd]. cbn [length] in Hc1.
    rewrite (update_streak_existing db now user group c last_activity table
               Hu Hg Hc0 ltac:(lia) Hno).
    destruct db; cbn [fst snd answered outcome_of].
    + rewrite (IH (c + 1) (Some now)) by lia. cbn [fst snd map].
      rewrite (last_cons_or now (answered rest) last_activity).
      cbn [length]. do 4 f_equal; lia.
    + rewrite (IH c last_activity) by lia. reflexivity.
    + rewrite (IH c last_activity) by lia. reflexivity.
Qed.

(** X26: for a user and a group without a row, and
    with numbers that SQLite can store, the streak counts the calls of
    [update_streak] that return [True]: after any sequence of calls, of
    which the database answers [n >= 1], there is one row for them, with
    a streak and a longest streak of [n] and the time of the last call
    answered; the other rows are untouched, and so is the table when no
    call is answered. A call that the database refuses returns [False]
    and one that cannot connect raises. *)
Theorem update_streak_counts_calls (user group : Z)
    (calls : list (db_answer * Z)) (table : list streak_row) :
  fits_int64 user = true -> fits_int64 group = true ->
  Z.of_nat (length calls) < 2 ^ 63 ->
  Forall (fun r => streak_matches user (Some group) r = false) table ->
  run_streak_updates
    (map (fun call => mkCall call.1 call.2 user (Some group)) calls) table
  = (match last (answered calls) with
     | Some t =>
         table ++ [ {| sr_user_id := user; sr_group_id := Some group;
                       sr_current_streak :=
                         Z.of_nat (length (answered calls));
                       sr_longest_streak :=
                         Z.of_nat (length (answered calls));
                       sr_last_activity := Some t |} ]
     | None => table
     end,
     map (fun call => outcome_of call.1) calls).
Proof.
  intros Hu Hg Hlen Hno.
  induction calls as [|[db now] rest IH]; [reflexivity|].
  cbn [length] in Hlen.
  cbn [map run_streak_updates call_db call_now call_user_id call_group_id
       fst snd].
  rewrite (update_streak_new db now user (Some group) table Hno), Hu, Hg.
  cbn [andb]. destruct db; cbn [fst snd answered outcome_of].
  - rewrite (run_streak_updates_counts user group rest table 1 (Some now)
               Hu Hg ltac:(lia) ltac:(lia) Hno).
    cbn [fst snd].
    rewrite <- (last_cons_or now (answered rest) None).
    destruct (last (now :: answered rest)) eqn:Hl.
    + cbn [length]. do 4 f_equal; lia.
    + apply last_None in Hl. discriminate.
  - rewrite IH by lia. reflexivity.
  - rewrite IH by lia. reflexivity.
Qed.

(** X27: a call without a group never finds a row, the
    comparison of the group with [NULL] not being true: with a user
    number that SQLite can store, each such call that the database
    answers appends a row with a streak of 1 and changes no other row, so
    that these streaks are never raised; with a user number outside 64
    bits no call changes the table, and each returns [False] unless it
    cannot connect. *)
Theorem update_streak_without_group (user : Z)
    (calls : list (db_answer * Z)) (table : list streak_row) :
  run_streak_updates
    (map (fun call => mkCall call.1 call.2 user None) calls) table
  = if fits_int64 user
    then (table ++ map (fun t => {| sr_user_id := user; sr_group_id := None;
                                    sr_current_streak := 1;
                                    sr_longest_streak := 1;
                                    sr_last_activity := Some t |})
                     (answered calls),
          map (fun call => outcome_of call.1) calls)
    else (table, map (fun call => outcome_of_overflow call.1) calls).
Proof.
  revert table. induction calls as [|[db now] rest IH]; intros table.
  - cbn. rewrite app_nil_r. destruct (fits_int64 user); reflexivity.
  - cbn [map run_streak_updates call_db call_now call_user_id call_group_id
         fst snd].
    rewrite (update_streak_new db now user None table).
    2:{ apply Forall_forall. intros r _. unfold streak_matches.
        apply andb_false_r. }
    rewrite andb_true_r.
    destruct (fits_int64 user) eqn:Hu; destruct db;
      cbn [fst snd answered outcome_of outcome_of_overflow map];
      rewrite IH, ?Hu; try reflexivity.
    rewrite <- app_assoc. reflexivity.
Qed.

(** ** Passwords *)

Lemma append_snoc_assoc (a : string) (c : ascii) (b : string) :
  ((a ++ String c EmptyString) ++ b = a ++ String c b)%string.
Proof.
  induction a as [|x a IH]; [reflexivity|].
  change (String x ((a ++ String c EmptyString) ++ b)%string
          = String x (a ++ String c b)%string).
  f_equal. exact IH.
Qed.

Lemma append_empty_r (a : string) : (a ++ EmptyString)%string = a.
Proof.
  induction a as [|x a IH]; [reflexivity|].
  change (String x (a ++ EmptyString)%string = String x a).
  f_equal. exact IH.
Qed.

Lemma split_on_from_free (sep : ascii) (cur b : string) :
  free_of sep b = true -> split_on_from sep cur b = [(cur ++ b)%string].
Proof.
  revert cur. induction b as [|c b IH]; intros cur Hfree.
  - cbn. rewrite append_empty_r. reflexivity.
  - cbn [free_of] in Hfree. apply andb_true_iff in Hfree.
    destruct Hfree as [Hc Hb]. apply negb_true_iff in Hc.
    cbn [split_on_from]. rewrite Hc, (IH _ Hb), append_snoc_assoc.
    reflexivity.
Qed.

Lemma split_on_from_sep (sep : ascii) (cur a b : string) :
  free_of sep a = true ->
  split_on_from sep cur (a ++ String sep b)
  = (cur ++ a)%string :: split_on_from sep EmptyString b.
Proof.
  revert cur. induction a as [|c a IH]; intros cur Hfree.
  - change (split_on_from sep cur (String sep b)
            = (cur ++ EmptyString)%string :: split_on_from sep EmptyString b).
    cbn [split_on_from]. rewrite Ascii.eqb_refl, append_empty_r.
    reflexivity.
  - cbn [free_of] in Hfree. apply andb_true_iff in Hfree.
    destruct Hfree as [Hc Ha]. apply negb_true_iff in Hc.
    change (split_on_from sep cur (String c (a ++ String sep b)%string)
            = (cur ++ String c a)%string :: split_on_from sep EmptyString b).
    cbn [split_on_from]. rewrite Hc, (IH _ Ha), append_snoc_assoc.
    reflexivity.
Qed.

(** X28: a hash made by [hash_password] verifies the
    password it was made from, and verifies another password exactly when
    the digests of the two salted passwords are equal; this needs a salt
    and digests without a colon, as hexadecimal texts are. *)
Theorem stored_hash_verifies (salt password attempt : string) :
  free_of colon salt = true ->
  (forall data, free_of colon (sha256_hexdigest data) = true) ->
  verify_password password (Some (hash_password salt password)) = true
  /\ verify_password attempt (Some (hash_password salt password))
     = String.eqb (sha256_hexdigest (attempt ++ salt))
         (sha256_hexdigest (password ++ salt)).
Proof.
  intros Hsalt Hdigest.
  assert (Hsplit : split_on colon (hash_password salt password)
                   = [salt; sha256_hexdigest (password ++ salt)]).
  { unfold split_on, hash_password.
    change (salt ++ ":" ++ sha256_hexdigest (password ++ salt))%string
      with (salt ++ String colon (sha256_hexdigest (password ++ salt)))%string.
    rewrite (split_on_from_sep colon EmptyString salt _ Hsalt).
    rewrite (split_on_from_free colon EmptyString _ (Hdigest _)).
    reflexivity. }
  unfold verify_password. rewrite Hsplit. cbn [try_except].
  split; [apply String.eqb_refl|reflexivity].
Qed.

(** X29: a stored hash that is absent or does not split at
    colons into two parts verifies no password; neither does the hash
    [default:needs_reset] given to accounts without a password, a digest
    being 64 characters long. *)
Theorem unusable_stored_hashes (password : string) :
  verify_password password None = false
  /\ (forall stored,
        length (split_on colon stored) <> 2%nat ->
        verify_password password (Some stored) = false)
  /\ ((forall data, String.length (sha256_hexdigest data) = 64%nat) ->
      verify_password password (Some "default:needs_reset") = false).
Proof.
  split; [reflexivity|]. split.
  - intros stored Hparts. unfold verify_password.
    destruct (split_on colon stored) as [|a [|b [|c l]]];
      try reflexivity. cbn in Hparts. congruence.
  - intros Hlen. unfold verify_password.
    change (split_on colon "default:needs_reset")
      with ["default"; "needs_reset"].
    cbn [try_except]. apply String.eqb_neq. intros Heq.
    specialize (Hlen (password ++ "default")%string).
    rewrite Heq in Hlen. discriminate Hlen.
Qed.

(** ** The arithmetic of the progress record *)

(** X30: in every record that [track_habit_progress]
    returns, the days completed are between 0 and 70, the days completed
    and the days remaining add up to 70, and the percentage is the share
    of the 70 days completed, between 0 and 100. *)
Theorem progress_is_consistent (sessions : list session_row)
    (progress : gmap string pyval) :
  track_habit_progress sessions = Ok progress ->
  exists days_completed days_remaining percentage,
    progress !! "days_completed" = Some (VInt days_completed)
    /\ progress !! "days_remaining" = Some (VInt days_remaining)
    /\ progress !! "progress_percentage" = Some percentage
    /\ 0 <= days_completed <= 70
    /\ days_completed + days_remaining = 70
    /\ (0 <= num percentage <= 100)%Q
    /\ (num percentage * 70 == inject_Z days_completed * 100)%Q.
Proof.
  unfold track_habit_progress. intros Hrun.
  destruct sessions as [|row rest].
  { injection Hrun as <-. exists 0, 70, (VInt 0).
    repeat (split; [reflexivity|]). split; [lia|]. split; [reflexivity|].
    split; [split; discriminate|reflexivity]. }
  destruct (streak_loop (row :: rest) (0, None)) as [st|e] eqn:Hloop;
    [|discriminate]. cbn [bind] in Hrun. injection Hrun as <-.
  assert (Hinit : streak_state_ok (0, None)) by (left; split; reflexivity).
  destruct (streak_loop_bounds _ _ _ Hinit Hloop) as (Hok & _ & _).
  assert (H0 : 0 <= fst st) by (destruct Hok as [[-> _]|[H1 _]]; lia).
  eexists _, _, _. split; [reflexivity|]. split; [reflexivity|].
  split; [reflexivity|]. unfold habit_formation_days.
  split; [lia|]. split; [lia|]. cbn [num].
  set (c := Z.min (fst st) 70). assert (Hc : 0 <= c <= 70) by lia.
  clearbody c. unfold Qle, Qeq, Qdiv, Qmult, Qinv, inject_Z.
  cbn -[Z.mul Z.le]. repeat split; lia.
Qed.

End Model.

(** * Runs on the sample environment *)

Lemma sample_run :
  find_optimal_study_times sample_fromisoformat sample_requests_get None
    sample_now sample_prefs 120 2 = Ok sample_slots.
Proof. vm_compute. reflexivity. Qed.

Lemma sample_busy_times :
  busy_times_at sample_fromisoformat sample_requests_get None
    sample_now sample_prefs 2 = [sample_lecture].
Proof. vm_compute. reflexivity. Qed.

(** The Monday 09:00 slot of the sample call and the lecture. *)
Lemma returned_slots_avoid_busy_witness :
  find_optimal_study_times sample_fromisoformat sample_requests_get None
    sample_now sample_prefs 120 2 = Ok sample_slots
  /\ sample_slot_monday_9 ∈ sample_slots
  /\ sample_lecture
       ∈ busy_times_at sample_fromisoformat sample_requests_get None
           sample_now sample_prefs 2
  /\ overlaps (slot_start_time sample_slot_monday_9)
       (slot_end_time sample_slot_monday_9) sample_lecture = Ok false.
Proof.
  assert (Hin : sample_slot_monday_9 ∈ sample_slots) by (left).
  assert (Hbusy : sample_lecture
                    ∈ busy_times_at sample_fromisoformat sample_requests_get
                        None sample_now sample_prefs 2).
  { rewrite sample_busy_times. left. }
  split; [exact sample_run|]. split; [exact Hin|]. split; [exact Hbusy|].
  exact (proj1 (returned_slots_avoid_busy sample_fromisoformat
                  sample_requests_get None sample_now sample_prefs 120 2
                  sample_slots sample_slot_monday_9 _ _
                  sample_run Hin Hbusy)).
Defined.

(** The sample call returns three slots, all from Monday 00:00 on and
    before Wednesday 10:00. *)
Lemma returned_slots_bounded_witness :
  find_optimal_study_times sample_fromisoformat sample_requests_get None
    sample_now sample_prefs 120 2 = Ok sample_slots
  /\ (length sample_slots <= 10)%nat
  /\ forall s, s ∈ sample_slots ->
       midnight sample_now <= slot_start_time s < add_days sample_now 2.
Proof.
  split; [exact sample_run|].
  exact (returned_slots_bounded sample_fromisoformat sample_requests_get
           None sample_now sample_prefs 120 2 sample_slots sample_run).
Defined.

(** C2 as stated fails on the sample call, made on Monday at 10:00: the
    first slot returned starts on Monday at 09:00, before the call. *)
Lemma morning_slot_precedes_the_call :
  ~ (forall slots,
       find_optimal_study_times sample_fromisoformat sample_requests_get
         None sample_now sample_prefs 120 2 = Ok slots ->
       (length slots <= 10)%nat
       /\ forall s, s ∈ slots ->
            sample_now <= slot_start_time s < add_days sample_now 2).
Proof.
  intros Hclaim. destruct (Hclaim sample_slots sample_run) as [_ Hwindow].
  assert (Hin : sample_slot_monday_9 ∈ sample_slots) by (left).
  specialize (Hwindow _ Hin). vm_compute in Hwindow.
  destruct Hwindow as [Hlo _]. apply Hlo. reflexivity.
Qed.

Lemma sample_run_weighted :
  find_optimal_study_times sample_fromisoformat sample_requests_get None
    sample_now sample_prefs_weighted 120 1 = Ok sample_slots_weighted.
Proof. vm_compute. reflexivity. Qed.

(** The scores of the call with the caller's own weights 0.5, 0.9, 0.3
    and 0.1: the slot at 07:00 has 0.5 + 0.2, the slot at 12:00 has
    0.9 + 0.2 capped at 1, the slot at 16:00 has 0.3 + 0.2 and the slot at
    20:00 has 0.1 + 0.2. *)
Lemma returned_score_is_capped_sum_witness :
  find_optimal_study_times sample_fromisoformat sample_requests_get None
    sample_now sample_prefs_weighted 120 1 = Ok sample_slots_weighted
  /\ (slot_confidence_score (sample_slot_weighted 7 0.70)
        == Qmin (0.5 + 0.2) 1)%Q
  /\ (slot_confidence_score (sample_slot_weighted 12 1)
        == Qmin (0.9 + 0.2) 1)%Q
  /\ (slot_confidence_score (sample_slot_weighted 16 0.50)
        == Qmin (0.3 + 0.2) 1)%Q
  /\ (slot_confidence_score (sample_slot_weighted 20 0.30)
        == Qmin (0.1 + 0.2) 1)%Q
  /\ (0 <= slot_confidence_score (sample_slot_weighted 12 1) <= 1)%Q.
Proof.
  assert (Hw : forall w : Q, Qle_bool 0 w && Qle_bool w 1 = true ->
                 (0 <= w <= 1)%Q).
  { intros w H. apply andb_prop in H. destruct H as [H0 H1].
    split; apply Qle_bool_iff; assumption. }
  split; [exact sample_run_weighted|].
  split.
  { refine (proj1 (proj2 (proj2 (returned_score_is_capped_sum
      sample_fromisoformat sample_requests_get None sample_now
      sample_prefs_weighted 120 1 sample_slots_weighted
      (sample_slot_weighted 7 0.70) sample_run_weighted _))) _).
    - right; left.
    - vm_compute. split; discriminate. }
  split.
  { refine (proj1 (proj2 (proj2 (proj2 (returned_score_is_capped_sum
      sample_fromisoformat sample_requests_get None sample_now
      sample_prefs_weighted 120 1 sample_slots_weighted
      (sample_slot_weighted 12 1) sample_run_weighted _)))) _).
    - left.
    - vm_compute. split; discriminate. }
  split.
  { refine (proj1 (proj2 (proj2 (proj2 (proj2 (returned_score_is_capped_sum
      sample_fromisoformat sample_requests_get None sample_now
      sample_prefs_weighted 120 1 sample_slots_weighted
      (sample_slot_weighted 16 0.50) sample_run_weighted _))))) _).
    - right; right; left.
    - vm_compute. split; discriminate. }
  split.
  { refine (proj1 (proj2 (proj2 (proj2 (proj2 (proj2
      (returned_score_is_capped_sum
      sample_fromisoformat sample_requests_get None sample_now
      sample_prefs_weighted 120 1 sample_slots_weighted
      (sample_slot_weighted 20 0.30) sample_run_weighted _)))))) _).
    - right; right; right; left.
    - right. vm_compute. reflexivity. }
  refine (proj2 (proj2 (proj2 (proj2 (proj2 (proj2
      (returned_score_is_capped_sum
      sample_fromisoformat sample_requests_get None sample_now
      sample_prefs_weighted 120 1 sample_slots_weighted
      (sample_slot_weighted 12 1) sample_run_weighted _)))))) _ _ _ _).
  - left.
  - apply Hw. reflexivity.
  - apply Hw. reflexivity.
  - apply Hw. reflexivity.
  - apply Hw. reflexivity.
Defined.

(** With no subjects the sample call raises: the Monday 09:00 candidate
    passes the conflict filter. *)
Lemma empty_subjects_raise_witness :
  subjects sample_prefs_no_subjects = Some []
  /\ survives sample_now sample_prefs_no_subjects
       (busy_times_at sample_fromisoformat sample_requests_get None
          sample_now sample_prefs_no_subjects 2) 120 2 0 9
  /\ exists e,
       find_optimal_study_times sample_fromisoformat sample_requests_get
         None sample_now sample_prefs_no_subjects 120 2 = Raise e.
Proof.
  assert (Hsurv : survives sample_now sample_prefs_no_subjects
            (busy_times_at sample_fromisoformat sample_requests_get None
               sample_now sample_prefs_no_subjects 2) 120 2 0 9).
  { split; [lia|].
    split; [change (0 ∈ [0; 1; 2; 3; 4]); left|].
    split; [change (9 ∈ [9; 14]); left|].
    exists (9 * US_PER_HOUR). split; vm_compute; reflexivity. }
  split; [reflexivity|]. split; [exact Hsurv|].
  exact (proj1 (proj2 (empty_subjects_raise sample_fromisoformat
                         sample_requests_get None sample_now
                         sample_prefs_no_subjects 120 2 0 9
                         eq_refl Hsurv))).
Defined.

(** The feed whose server is down adds nothing to the lecture feed. *)
Lemma failed_feed_contributes_nothing_witness :
  let start_time := naive sample_now in
  let end_time := naive (add_days sample_now 2) in
  parse_ical_url_body sample_fromisoformat sample_requests_get
    "https://calendar.example/down.ics" start_time end_time
    = Raise RequestException
  /\ get_all_events sample_fromisoformat sample_requests_get None
       [ "https://calendar.example/lectures.ics";
         "https://calendar.example/down.ics" ] start_time end_time
     = get_all_events sample_fromisoformat sample_requests_get None
         [ "https://calendar.example/lectures.ics" ] start_time end_time.
Proof.
  intros start_time end_time.
  assert (Hfail : parse_ical_url_body sample_fromisoformat
                    sample_requests_get "https://calendar.example/down.ics"
                    start_time end_time = Raise RequestException)
    by reflexivity.
  split; [exact Hfail|].
  exact (proj1 (proj2 (proj2
           (failed_feed_contributes_nothing sample_fromisoformat
              sample_requests_get None
              [ "https://calendar.example/lectures.ics" ] []
              "https://calendar.example/down.ics" start_time end_time
              RequestException Hfail)))).
Defined.

(** A remote calendar whose listing fails leaves the events of the
    feeds. *)
Example failing_remote_calendar_leaves_feeds :
  get_all_events sample_fromisoformat sample_requests_get
    (Some failing_google_service)
    [ "https://calendar.example/lectures.ics" ]
    (naive sample_now) (naive (add_days sample_now 2))
  = [ {| ev_title := Some "Lecture";
         ev_start := Some "0001-01-01T14:00:00";
         ev_end := Some "0001-01-01T15:00:00";
         ev_description := None;
         ev_source := Some "ical" |} ].
Proof. vm_compute. reflexivity. Qed.

(** An aware busy interval cannot be compared with the naive slots: with
    the seminar of the remote calendar the call raises [TypeError]. *)
Example aware_busy_interval_raises :
  find_optimal_study_times sample_fromisoformat sample_requests_get
    (Some sample_google_service) sample_now sample_prefs 120 2
  = Raise TypeError.
Proof. vm_compute. reflexivity. Qed.

(** ** Runs of the habit tracker *)

(** A progress record with a streak of 21 days. *)
Lemma milestone_rewards_thresholds_witness :
  walked_progress 21 !! "current_streak" = Some (VInt 21)
  /\ walked_progress 21 !! "days_completed" = Some (VInt 21)
  /\ walked_progress 21 !! "milestone_reached" = Some (VBool false)
  /\ get_milestone_rewards (walked_progress 21)
     = Ok [msg_streak_7; msg_streak_21].
Proof.
  repeat (split; [reflexivity|]).
  refine (proj2 (milestone_rewards_thresholds (walked_progress 21)
                   (VInt 21) (VInt 21) (VBool false) _ _ _) 21 _ _ _ _);
    reflexivity.
Defined.

(** C3 as stated fails after a completed session on day 10: a session on
    day 11 that is not completed leaves day 10 as the previous date. *)
Lemma incomplete_session_does_not_move_last_date :
  let st : streak_state := (1, Some 10) in
  let st' := streak_step st 11 false in
  ~ (fst st' = fst st /\ (snd st <> Some 11 -> snd st' = Some 11)).
Proof.
  cbn. intros [_ Hmove].
  assert (Hne : Some 10 <> Some 11) by discriminate.
  specialize (Hmove Hne). discriminate Hmove.
Qed.

(** In a whole log: completed on the 10th, not completed on the 11th,
    completed on the 12th; the streak ends at 1, the 12th not being the
    day after the 10th. *)
Example streak_restarts_after_incomplete_day :
  streak_loop sample_fromisoformat
    [ mkRow "0001-01-10 09:00:00" true;
      mkRow "0001-01-11 09:00:00" false;
      mkRow "0001-01-12 09:00:00" true ] (0, None)
  = Ok (1, Some 11).
Proof. vm_compute. reflexivity. Qed.

(** ** Runs of the planner *)


Lemma pset_on_calculus_is_one_session_witness :
  default default_hours (preferred_study_hours sample_prefs) = [9; 14]
  /\ valid_hour 9
  /\ exists session,
       suggest_study_sessions_from_work sample_now pset_description
         sample_prefs = Ok [session]
       /\ sess_duration_minutes session = 180
       /\ sess_start_time session = 9 * US_PER_HOUR.
Proof.
  assert (Hvalid : valid_hour 9) by (split; discriminate).
  split; [reflexivity|]. split; [exact Hvalid|].
  eexists. split.
  - exact (proj2 (proj2 (proj2
             (pset_on_calculus_is_one_session sample_now sample_prefs 9 [14]
                eq_refl Hvalid)))).
  - split; reflexivity.
Defined.

(** ** The primitives on sample values *)

Example strip_removes_outer_space : strip "  DTEND:x  " = "DTEND:x".
Proof. reflexivity. Qed.

Example split_lines_keeps_last_line :
  split_lines "BEGIN:VEVENT
END:VEVENT
" = ["BEGIN:VEVENT"; "END:VEVENT"; ""].
Proof. reflexivity. Qed.

Example lower_ascii_letters : lower "My PSET on Calculus" = "my pset on calculus".
Proof. reflexivity. Qed.

Example contains_substring :
  contains "pset" "my pset on calculus" = true
  /\ contains "exam" "my pset on calculus" = false.
Proof. split; reflexivity. Qed.

Example replace_Z_gives_utc_offset :
  replace_Z "0001-01-02T09:00:00Z" = "0001-01-02T09:00:00+00:00".
Proof. reflexivity. Qed.

Example getindex_out_of_range :
  getindex [9; 14] 2 = Raise IndexError /\ getindex [9; 14] (-1) = Ok 14.
Proof. split; reflexivity. Qed.

(** An event block without a key is not kept; keys set outside a block
    belong to the next [END:VEVENT]. *)
Example ical_events_blocks :
  ical_events "DTSTART:x
END:VEVENT
BEGIN:VEVENT
END:VEVENT"
  = [ {| ev_title := None; ev_start := Some "x"; ev_end := None;
         ev_description := None; ev_source := None |} ].
Proof. reflexivity. Qed.

(** * Runs for the further properties *)

Lemma sample_log_parses :
  Forall (fun s => is_Some (sample_fromisoformat (created_at s))) sample_log.
Proof. repeat constructor; eexists; vm_compute; reflexivity. Qed.

Lemma sample_log_progress :
  track_habit_progress sample_fromisoformat sample_log
  = Ok (walked_progress 1).
Proof. vm_compute. reflexivity. Qed.

Lemma streak_loop_skips_incomplete_witness :
  Forall (fun s => is_Some (sample_fromisoformat (created_at s))) sample_log
  /\ streak_loop sample_fromisoformat sample_log (0, None)
     = streak_loop sample_fromisoformat (List.filter completed sample_log)
         (0, None).
Proof.
  split; [exact sample_log_parses|].
  exact (streak_loop_skips_incomplete sample_fromisoformat sample_log
           (0, None) sample_log_parses).
Defined.

Lemma sample_feed_events :
  parse_ical_url sample_fromisoformat sample_requests_get
    "https://calendar.example/lectures.ics"
    (naive sample_now) (naive (add_days sample_now 2))
  = [sample_lecture_event].
Proof. vm_compute. reflexivity. Qed.

Lemma parsed_feed_events_in_window_witness :
  sample_lecture_event
    ∈ parse_ical_url sample_fromisoformat sample_requests_get
        "https://calendar.example/lectures.ics"
        (naive sample_now) (naive (add_days sample_now 2))
  /\ ev_source sample_lecture_event = Some "ical".
Proof.
  assert (Hin : sample_lecture_event
                  ∈ parse_ical_url sample_fromisoformat sample_requests_get
                      "https://calendar.example/lectures.ics"
                      (naive sample_now) (naive (add_days sample_now 2))).
  { rewrite sample_feed_events. left. }
  split; [exact Hin|].
  exact (proj1 (parsed_feed_events_in_window sample_fromisoformat
                  sample_requests_get _ _ _ _ Hin)).
Defined.

Lemma sample_tuesday_14_survives :
  survives sample_now sample_prefs
    (busy_times_at sample_fromisoformat sample_requests_get None
       sample_now sample_prefs 2) 120 2 1 14.
Proof.
  split; [lia|].
  split; [change (1 ∈ [0; 1; 2; 3; 4]); right; left|].
  split; [change (14 ∈ [9; 14]); right; left|].
  exists (US_PER_DAY + 14 * US_PER_HOUR). split; vm_compute; reflexivity.
Qed.

Lemma surviving_candidates_returned_witness :
  (length sample_slots < 10)%nat
  /\ exists s,
       s ∈ sample_slots
       /\ slot_start_time s
          = midnight (add_days sample_now 1) + 14 * US_PER_HOUR.
Proof.
  assert (Hlen : (length sample_slots < 10)%nat) by (cbn; lia).
  split; [exact Hlen|].
  exact (surviving_candidates_returned sample_fromisoformat
           sample_requests_get None sample_now sample_prefs 120 2
           sample_slots 1 14 sample_run Hlen sample_tuesday_14_survives).
Defined.


Lemma invalid_hour_raises_witness :
  ~ valid_hour 25
  /\ exists e,
       find_optimal_study_times sample_fromisoformat sample_requests_get
         None sample_now sample_prefs_bad_hour 120 2 = Raise e.
Proof.
  assert (Hbad : ~ valid_hour 25) by (unfold valid_hour; lia).
  split; [exact Hbad|].
  refine (invalid_hour_raises sample_fromisoformat sample_requests_get None
            sample_now sample_prefs_bad_hour 120 2 0 25 _ Hbad _ _).
  - change (25 ∈ [25]). left.
  - lia.
  - change (0 ∈ [0; 1; 2; 3; 4]). left.
Defined.

Lemma aware_busy_interval_raises_type_error_witness :
  busy_times_at sample_fromisoformat sample_requests_get
    (Some sample_google_service) sample_now sample_prefs 2
  = [sample_seminar; sample_lecture]
  /\ find_optimal_study_times sample_fromisoformat sample_requests_get
       (Some sample_google_service) sample_now sample_prefs 120 2
     = Raise TypeError.
Proof.
  assert (Hbusy : busy_times_at sample_fromisoformat sample_requests_get
                    (Some sample_google_service) sample_now sample_prefs 2
                  = [sample_seminar; sample_lecture])
    by (vm_compute; reflexivity).
  split; [exact Hbusy|].
  refine (aware_busy_interval_raises_type_error sample_fromisoformat
            sample_requests_get (Some sample_google_service) sample_now
            sample_prefs 120 2 (fst sample_seminar) (snd sample_seminar)
            [sample_lecture] 0 9 0 [14] Hbusy _ _ _ _ _).
  - reflexivity.
  - reflexivity.
  - unfold valid_hour. lia.
  - lia.
  - change (0 ∈ [0; 1; 2; 3; 4]). left.
Defined.

Lemma returned_slot_shape_witness :
  sample_slot_monday_9 ∈ sample_slots
  /\ slot_duration_minutes sample_slot_monday_9 = 120
  /\ slot_end_time sample_slot_monday_9
     = slot_start_time sample_slot_monday_9 + 120 * US_PER_MINUTE
  /\ slot_start_time sample_slot_monday_9 mod US_PER_HOUR = 0
  /\ default default_subjects (subjects sample_prefs)
       !! Z.to_nat (weekday (slot_start_time sample_slot_monday_9)
                    mod Z.of_nat (length (default default_subjects
                                            (subjects sample_prefs))))
     = Some (slot_subject sample_slot_monday_9).
Proof.
  assert (Hin : sample_slot_monday_9 ∈ sample_slots) by (left).
  split; [exact Hin|].
  exact (returned_slot_shape sample_fromisoformat sample_requests_get None
           sample_now sample_prefs 120 2 sample_slots sample_slot_monday_9
           sample_run Hin).
Defined.

Lemma short_work_is_one_session_witness :
  classify_type (lower reading_description) = ("Reading & Notes", 90)
  /\ exists session,
       suggest_study_sessions_from_work sample_now reading_description
         sample_prefs = Ok [session]
       /\ sess_duration_minutes session = 90
       /\ sess_start_time session = 9 * US_PER_HOUR.
Proof.
  split; [reflexivity|]. eexists. split.
  - refine (short_work_is_one_session sample_now reading_description
              sample_prefs "Reading & Notes" 90 9 [14] _ _ _ _).
    + reflexivity.
    + unfold valid_hour. lia.
    + reflexivity.
    + lia.
  - split; reflexivity.
Defined.

Lemma empty_hours_raise_witness :
  preferred_study_hours sample_prefs_no_hours = Some []
  /\ suggest_study_sessions_from_work sample_now exam_description
       sample_prefs_no_hours = Raise ZeroDivisionError
  /\ suggest_study_sessions_from_work sample_now reading_description
       sample_prefs_no_hours = Raise IndexError.
Proof.
  split; [reflexivity|]. split.
  - exact (empty_hours_raise sample_now exam_description
             sample_prefs_no_hours eq_refl).
  - exact (empty_hours_raise sample_now reading_description
             sample_prefs_no_hours eq_refl).
Defined.

Lemma plan_covers_duration_witness :
  let plan :=
    [ planned_session sample_now exam_description "Exam Preparation"
        "General" [9; 14] 0;
      planned_session sample_now exam_description "Exam Preparation"
        "General" [9; 14] 1 ] in
  suggest_study_sessions_from_work sample_now exam_description sample_prefs
    = Ok plan
  /\ (1 <= length plan <= 2)%nat
  /\ 240 <= planned_minutes plan.
Proof.
  intros plan.
  assert (Hrun : suggest_study_sessions_from_work sample_now exam_description
                   sample_prefs = Ok plan) by (vm_compute; reflexivity).
  split; [exact Hrun|].
  exact (plan_covers_duration sample_now exam_description sample_prefs plan
           Hrun).
Defined.

Lemma unparsable_timestamp_raises_witness :
  sample_row_unparsable ∈ sample_log_unparsable
  /\ sample_fromisoformat (created_at sample_row_unparsable) = None
  /\ track_habit_progress sample_fromisoformat sample_log_unparsable
     = Raise ValueError.
Proof.
  assert (Hin : sample_row_unparsable ∈ sample_log_unparsable)
    by (right; left).
  assert (Hbad : sample_fromisoformat (created_at sample_row_unparsable)
                 = None) by reflexivity.
  split; [exact Hin|]. split; [exact Hbad|].
  exact (unparsable_timestamp_raises sample_fromisoformat
           sample_log_unparsable sample_row_unparsable Hin Hbad).
Defined.

Lemma streak_is_bounded_witness :
  track_habit_progress sample_fromisoformat sample_log
  = Ok (walked_progress 1)
  /\ exists n,
       walked_progress 1 !! "current_streak" = Some (VInt n)
       /\ 0 <= n <= Z.of_nat (length (List.filter completed sample_log))
       /\ (n = 0 <-> List.filter completed sample_log = []).
Proof.
  split; [exact sample_log_progress|].
  exact (streak_is_bounded sample_fromisoformat sample_log
           (walked_progress 1) sample_log_progress).
Defined.

Lemma consecutive_days_streak_witness :
  track_habit_progress sample_fromisoformat sample_log_consecutive
  = Ok (walked_progress 3).
Proof.
  refine (consecutive_days_streak sample_fromisoformat
            sample_log_consecutive 9 _ _).
  - discriminate.
  - intros [|[|[|i]]] row Hrow; cbn in Hrow; try discriminate Hrow;
      injection Hrow as <-; split; vm_compute; reflexivity.
Defined.

Lemma tracker_rewards_are_prefix_witness :
  sample_log <> []
  /\ exists n,
       walked_progress 1 !! "current_streak" = Some (VInt n)
       /\ get_milestone_rewards (walked_progress 1)
          = Ok (take (length (List.filter (fun t => t <=? n)
                                reward_thresholds)) all_rewards).
Proof.
  assert (Hne : sample_log <> []) by discriminate.
  split; [exact Hne|].
  exact (tracker_rewards_are_prefix sample_fromisoformat sample_log
           (walked_progress 1) Hne sample_log_progress).
Defined.

Lemma progress_is_consistent_witness :
  track_habit_progress sample_fromisoformat sample_log
  = Ok (walked_progress 1)
  /\ exists days_completed days_remaining percentage,
       walked_progress 1 !! "days_completed" = Some (VInt days_completed)
       /\ walked_progress 1 !! "days_remaining" = Some (VInt days_remaining)
       /\ walked_progress 1 !! "progress_percentage" = Some percentage
       /\ 0 <= days_completed <= 70
       /\ days_completed + days_remaining = 70
       /\ (0 <= num percentage <= 100)%Q
       /\ (num percentage * 70 == inject_Z days_completed * 100)%Q.
Proof.
  split; [exact sample_log_progress|].
  exact (progress_is_consistent sample_fromisoformat sample_log
           (walked_progress 1) sample_log_progress).
Defined.

(** Two weeks of progress for user 7 on the 21st of January of the year
    1: the week from the 7th has no session, the week from the 14th has
    four, three of them completed; a third week would start on the last
    day of December of the year before the year 1. *)
Lemma sample_weekly_run :
  get_weekly_progress sample_count_week_sessions Answers sample_clock 7 2
  = Ok [ mkWeek 6 0 0 (VInt 0); mkWeek 13 4 3 (VFloat (300 # 4)) ].
Proof. vm_compute. reflexivity. Qed.

Lemma weekly_progress_is_chronological_witness :
  (exists entries,
     get_weekly_progress sample_count_week_sessions Answers sample_clock 7 2
     = Ok entries
     /\ length entries = 2%nat
     /\ forall i, 0 <= i < 2 ->
          let k := 2 - 1 - i in
          let week_start := sample_clock k - 7 * (k + 1) * US_PER_DAY in
          let week_end := sample_clock k - 7 * k * US_PER_DAY in
          entries !! Z.to_nat i
          = Some (week_entry_of sample_count_week_sessions 7
                    week_start week_end)
          /\ week (week_entry_of sample_count_week_sessions 7
                     week_start week_end)
             = date_of (naive (sample_clock k)) - 7 * (k + 1))
  /\ get_weekly_progress sample_count_week_sessions Answers sample_clock 7 3
     = Raise OverflowError
  /\ get_weekly_progress sample_count_week_sessions Answers sample_clock
       (2 ^ 63) 2
     = Raise OverflowError
  /\ get_weekly_progress sample_count_week_sessions Answers sample_clock
       7 0
     = Ok [].
Proof.
  split; [|split; [|split]].
  - refine (proj1 (weekly_progress_is_chronological
                     sample_count_week_sessions sample_clock 7 2) _ _).
    + reflexivity.
    + intros k Hk. unfold sample_clock, DATETIME_END, US_PER_DAY, US_PER_HOUR.
      lia.
  - refine (proj1 (proj2 (weekly_progress_is_chronological
                            sample_count_week_sessions sample_clock 7 3))
              2 _ _).
    + lia.
    + reflexivity.
  - refine (proj1 (proj2 (proj2 (weekly_progress_is_chronological
                                   sample_count_week_sessions sample_clock
                                   (2 ^ 63) 2))) _ _).
    + lia.
    + reflexivity.
  - refine (proj2 (proj2 (proj2 (weekly_progress_is_chronological
                                   sample_count_week_sessions sample_clock
                                   7 0))) _).
    lia.
Defined.

(** Four calls on a table with the row of user 7 in group 3: the first
    raises its streak from 2 to 3, the second adds a row for user 8, the
    third is refused and the fourth is for a user number of 2 ^ 63; the
    last two return [False] and change nothing. *)
Lemma sample_mixed_run :
  run_streak_updates sample_mixed_calls sample_streak_table
  = ([ {| sr_user_id := 7; sr_group_id := Some 3;
          sr_current_streak := 3; sr_longest_streak := 3;
          sr_last_activity := Some 100 |};
       {| sr_user_id := 8; sr_group_id := None;
          sr_current_streak := 1; sr_longest_streak := 1;
          sr_last_activity := Some 200 |} ],
     [ Ok true; Ok true; Ok false; Ok false ]).
Proof. vm_compute. reflexivity. Qed.

Lemma streak_rows_never_reset_witness :
  Forall streak_row_ok sample_streak_table
  /\ (exists r',
        fst (run_streak_updates sample_mixed_calls sample_streak_table)
          !! 0%nat = Some r'
        /\ sr_user_id r' = 7
        /\ sr_group_id r' = Some 3
        /\ 2 <= sr_current_streak r' <= 2 + 4
        /\ 2 <= sr_longest_streak r')
  /\ (1 <= length (fst (run_streak_updates sample_mixed_calls
                          sample_streak_table)) <= 1 + 4)%nat
  /\ Forall streak_row_ok
       (fst (run_streak_updates sample_mixed_calls sample_streak_table)).
Proof.
  assert (Hok : Forall streak_row_ok sample_streak_table).
  { constructor; [|constructor]. split; [cbn; lia|reflexivity]. }
  destruct (streak_rows_never_reset sample_mixed_calls sample_streak_table)
    as (Hrows & Hlen & Hkeeps).
  split; [exact Hok|]. split; [|split; [exact Hlen|exact (Hkeeps Hok)]].
  exact (Hrows 0%nat _ eq_refl).
Defined.

Lemma update_streak_counts_calls_witness :
  run_streak_updates
    (map (fun call => mkCall call.1 call.2 7 (Some 3)) sample_streak_calls)
    []
  = ([ {| sr_user_id := 7; sr_group_id := Some 3;
          sr_current_streak := 2; sr_longest_streak := 2;
          sr_last_activity := Some 300 |} ],
     [ Ok true; Ok false; Ok true; Raise OperationalError ]).
Proof.
  exact (update_streak_counts_calls 7 3 sample_streak_calls []
           eq_refl eq_refl eq_refl ltac:(constructor)).
Defined.

Lemma update_streak_without_group_witness :
  run_streak_updates
    (map (fun call => mkCall call.1 call.2 8 None) sample_streak_calls)
    sample_streak_table
  = (sample_streak_table
     ++ [ {| sr_user_id := 8; sr_group_id := None;
             sr_current_streak := 1; sr_longest_streak := 1;
             sr_last_activity := Some 100 |};
          {| sr_user_id := 8; sr_group_id := None;
             sr_current_streak := 1; sr_longest_streak := 1;
             sr_last_activity := Some 300 |} ],
     [ Ok true; Ok false; Ok true; Raise OperationalError ])
  /\ run_streak_updates
       (map (fun call => mkCall call.1 call.2 (2 ^ 63) None)
          sample_streak_calls)
       sample_streak_table
     = (sample_streak_table,
        [ Ok false; Ok false; Ok false; Raise OperationalError ]).
Proof.
  split.
  - exact (update_streak_without_group 8 sample_streak_calls
             sample_streak_table).
  - exact (update_streak_without_group (2 ^ 63) sample_streak_calls
             sample_streak_table).
Defined.

Lemma stored_hash_verifies_witness :
  free_of colon "a1b2" = true
  /\ verify_password sample_digest "secret"
       (Some (hash_password sample_digest "a1b2" "secret")) = true.
Proof.
  split; [reflexivity|].
  refine (proj1 (stored_hash_verifies sample_digest "a1b2" "secret" "guess"
                   _ _)).
  - reflexivity.
  - intros data. unfold sample_digest.
    destruct (Nat.even (String.length data)); reflexivity.
Defined.
